(** * UniversalPWA Python SDK: backend integrations and client

    Shallow embedding of [universal_pwa/backends/{types,base,django,flask}.py]
    and of [universal_pwa/{http,client}.py]: the clients' construction, the
    request bodies and the exception flow.

    The Python code runs against a live filesystem; it is modelled as an
    environment [FS] that answers [stat] and [read_text] for a full path.
    Python exceptions are values of [exn]; effectful methods live in the
    reader/exception monad [Py]. *)

From Stdlib Require Import List String Ascii Bool Arith NArith Lia.
Import ListNotations.
Open Scope list_scope.
Set Warnings "-register-all".

(* ------------------------------------------------------------------ *)
(** ** Text: a Python [str] as its sequence of code points

    The character data that [re] and [str.lower()] consult is the Unicode
    14.0.0 database of CPython 3.11 ([unicodedata.unidata_version]); the
    tables below are that data. *)

Definition text := list N.

(** A Rocq string literal (ASCII here) as Python text. *)
Definition chars (s : string) : text := map N_of_ascii (list_ascii_of_string s).

Definition in_ranges (rs : list (N * N)) (c : N) : bool :=
  existsb (fun r => (fst r <=? c)%N && (c <=? snd r)%N) rs.

(** General category Nd: what [\d] matches in a [str] pattern
    ([Py_UNICODE_ISDECIMAL]). *)
Definition decimal_ranges : list (N * N) := [
  (0x30, 0x39); (0x660, 0x669); (0x6F0, 0x6F9); (0x7C0, 0x7C9); (0x966, 0x96F); (0x9E6, 0x9EF);
  (0xA66, 0xA6F); (0xAE6, 0xAEF); (0xB66, 0xB6F); (0xBE6, 0xBEF); (0xC66, 0xC6F); (0xCE6, 0xCEF);
  (0xD66, 0xD6F); (0xDE6, 0xDEF); (0xE50, 0xE59); (0xED0, 0xED9); (0xF20, 0xF29); (0x1040, 0x1049);
  (0x1090, 0x1099); (0x17E0, 0x17E9); (0x1810, 0x1819); (0x1946, 0x194F); (0x19D0, 0x19D9); (0x1A80, 0x1A89);
  (0x1A90, 0x1A99); (0x1B50, 0x1B59); (0x1BB0, 0x1BB9); (0x1C40, 0x1C49); (0x1C50, 0x1C59); (0xA620, 0xA629);
  (0xA8D0, 0xA8D9); (0xA900, 0xA909); (0xA9D0, 0xA9D9); (0xA9F0, 0xA9F9); (0xAA50, 0xAA59); (0xABF0, 0xABF9);
  (0xFF10, 0xFF19); (0x104A0, 0x104A9); (0x10D30, 0x10D39); (0x11066, 0x1106F); (0x110F0, 0x110F9); (0x11136, 0x1113F);
  (0x111D0, 0x111D9); (0x112F0, 0x112F9); (0x11450, 0x11459); (0x114D0, 0x114D9); (0x11650, 0x11659); (0x116C0, 0x116C9);
  (0x11730, 0x11739); (0x118E0, 0x118E9); (0x11950, 0x11959); (0x11C50, 0x11C59); (0x11D50, 0x11D59); (0x11DA0, 0x11DA9);
  (0x16A60, 0x16A69); (0x16AC0, 0x16AC9); (0x16B50, 0x16B59); (0x1D7CE, 0x1D7FF); (0x1E140, 0x1E149); (0x1E2F0, 0x1E2F9);
  (0x1E950, 0x1E959); (0x1FBF0, 0x1FBF9)
]%N.

Definition is_digit (c : N) : bool := in_ranges decimal_ranges c.

(** The simple lowercase mapping [_PyUnicode_ToLowercase] ([_sre.unicode_tolower]),
    as the code points it changes and their images; every other code point
    is its own lowercase. *)
Definition lower_table : list (N * N) := [
  (0x41, 0x61); (0x42, 0x62); (0x43, 0x63); (0x44, 0x64); (0x45, 0x65); (0x46, 0x66); (0x47, 0x67);
  (0x48, 0x68); (0x49, 0x69); (0x4A, 0x6A); (0x4B, 0x6B); (0x4C, 0x6C); (0x4D, 0x6D); (0x4E, 0x6E);
  (0x4F, 0x6F); (0x50, 0x70); (0x51, 0x71); (0x52, 0x72); (0x53, 0x73); (0x54, 0x74); (0x55, 0x75);
  (0x56, 0x76); (0x57, 0x77); (0x58, 0x78); (0x59, 0x79); (0x5A, 0x7A); (0xC0, 0xE0); (0xC1, 0xE1);
  (0xC2, 0xE2); (0xC3, 0xE3); (0xC4, 0xE4); (0xC5, 0xE5); (0xC6, 0xE6); (0xC7, 0xE7); (0xC8, 0xE8);
  (0xC9, 0xE9); (0xCA, 0xEA); (0xCB, 0xEB); (0xCC, 0xEC); (0xCD, 0xED); (0xCE, 0xEE); (0xCF, 0xEF);
  (0xD0, 0xF0); (0xD1, 0xF1); (0xD2, 0xF2); (0xD3, 0xF3); (0xD4, 0xF4); (0xD5, 0xF5); (0xD6, 0xF6);
  (0xD8, 0xF8); (0xD9, 0xF9); (0xDA, 0xFA); (0xDB, 0xFB); (0xDC, 0xFC); (0xDD, 0xFD); (0xDE, 0xFE);
  (0x100, 0x101); (0x102, 0x103); (0x104, 0x105); (0x106, 0x107); (0x108, 0x109); (0x10A, 0x10B); (0x10C, 0x10D);
  (0x10E, 0x10F); (0x110, 0x111); (0x112, 0x113); (0x114, 0x115); (0x116, 0x117); (0x118, 0x119); (0x11A, 0x11B);
  (0x11C, 0x11D); (0x11E, 0x11F); (0x120, 0x121); (0x122, 0x123); (0x124, 0x125); (0x126, 0x127); (0x128, 0x129);
  (0x12A, 0x12B); (0x12C, 0x12D); (0x12E, 0x12F); (0x130, 0x69); (0x132, 0x133); (0x134, 0x135); (0x136, 0x137);
  (0x139, 0x13A); (0x13B, 0x13C); (0x13D, 0x13E); (0x13F, 0x140); (0x141, 0x142); (0x143, 0x144); (0x145, 0x146);
  (0x147, 0x148); (0x14A, 0x14B); (0x14C, 0x14D); (0x14E, 0x14F); (0x150, 0x151); (0x152, 0x153); (0x154, 0x155);
  (0x156, 0x157); (0x158, 0x159); (0x15A, 0x15B); (0x15C, 0x15D); (0x15E, 0x15F); (0x160, 0x161); (0x162, 0x163);
  (0x164, 0x165); (0x166, 0x167); (0x168, 0x169); (0x16A, 0x16B); (0x16C, 0x16D); (0x16E, 0x16F); (0x170, 0x171);
  (0x172, 0x173); (0x174, 0x175); (0x176, 0x177); (0x178, 0xFF); (0x179, 0x17A); (0x17B, 0x17C); (0x17D, 0x17E);
  (0x181, 0x253); (0x182, 0x183); (0x184, 0x185); (0x186, 0x254); (0x187, 0x188); (0x189, 0x256); (0x18A, 0x257);
  (0x18B, 0x18C); (0x18E, 0x1DD); (0x18F, 0x259); (0x190, 0x25B); (0x191, 0x192); (0x193, 0x260); (0x194, 0x263);
  (0x196, 0x269); (0x197, 0x268); (0x198, 0x199); (0x19C, 0x26F); (0x19D, 0x272); (0x19F, 0x275); (0x1A0, 0x1A1);
  (0x1A2, 0x1A3); (0x1A4, 0x1A5); (0x1A6, 0x280); (0x1A7, 0x1A8); (0x1A9, 0x283); (0x1AC, 0x1AD); (0x1AE, 0x288);
  (0x1AF, 0x1B0); (0x1B1, 0x28A); (0x1B2, 0x28B); (0x1B3, 0x1B4); (0x1B5, 0x1B6); (0x1B7, 0x292); (0x1B8, 0x1B9);
  (0x1BC, 0x1BD); (0x1C4, 0x1C6); (0x1C5, 0x1C6); (0x1C7, 0x1C9); (0x1C8, 0x1C9); (0x1CA, 0x1CC); (0x1CB, 0x1CC);
  (0x1CD, 0x1CE); (0x1CF, 0x1D0); (0x1D1, 0x1D2); (0x1D3, 0x1D4); (0x1D5, 0x1D6); (0x1D7, 0x1D8); (0x1D9, 0x1DA);
  (0x1DB, 0x1DC); (0x1DE, 0x1DF); (0x1E0, 0x1E1); (0x1E2, 0x1E3); (0x1E4, 0x1E5); (0x1E6, 0x1E7); (0x1E8, 0x1E9);
  (0x1EA, 0x1EB); (0x1EC, 0x1ED); (0x1EE, 0x1EF); (0x1F1, 0x1F3); (0x1F2, 0x1F3); (0x1F4, 0x1F5); (0x1F6, 0x195);
  (0x1F7, 0x1BF); (0x1F8, 0x1F9); (0x1FA, 0x1FB); (0x1FC, 0x1FD); (0x1FE, 0x1FF); (0x200, 0x201); (0x202, 0x203);
  (0x204, 0x205); (0x206, 0x207); (0x208, 0x209); (0x20A, 0x20B); (0x20C, 0x20D); (0x20E, 0x20F); (0x210, 0x211);
  (0x212, 0x213); (0x214, 0x215); (0x216, 0x217); (0x218, 0x219); (0x21A, 0x21B); (0x21C, 0x21D); (0x21E, 0x21F);
  (0x220, 0x19E); (0x222, 0x223); (0x224, 0x225); (0x226, 0x227); (0x228, 0x229); (0x22A, 0x22B); (0x22C, 0x22D);
  (0x22E, 0x22F); (0x230, 0x231); (0x232, 0x233); (0x23A, 0x2C65); (0x23B, 0x23C); (0x23D, 0x19A); (0x23E, 0x2C66);
  (0x241, 0x242); (0x243, 0x180); (0x244, 0x289); (0x245, 0x28C); (0x246, 0x247); (0x248, 0x249); (0x24A, 0x24B);
  (0x24C, 0x24D); (0x24E, 0x24F); (0x370, 0x371); (0x372, 0x373); (0x376, 0x377); (0x37F, 0x3F3); (0x386, 0x3AC);
  (0x388, 0x3AD); (0x389, 0x3AE); (0x38A, 0x3AF); (0x38C, 0x3CC); (0x38E, 0x3CD); (0x38F, 0x3CE); (0x391, 0x3B1);
  (0x392, 0x3B2); (0x393, 0x3B3); (0x394, 0x3B4); (0x395, 0x3B5); (0x396, 0x3B6); (0x397, 0x3B7); (0x398, 0x3B8);
  (0x399, 0x3B9); (0x39A, 0x3BA); (0x39B, 0x3BB); (0x39C, 0x3BC); (0x39D, 0x3BD); (0x39E, 0x3BE); (0x39F, 0x3BF);
  (0x3A0, 0x3C0); (0x3A1, 0x3C1); (0x3A3, 0x3C3); (0x3A4, 0x3C4); (0x3A5, 0x3C5); (0x3A6, 0x3C6); (0x3A7, 0x3C7);
  (0x3A8, 0x3C8); (0x3A9, 0x3C9); (0x3AA, 0x3CA); (0x3AB, 0x3CB); (0x3CF, 0x3D7); (0x3D8, 0x3D9); (0x3DA, 0x3DB);
  (0x3DC, 0x3DD); (0x3DE, 0x3DF); (0x3E0, 0x3E1); (0x3E2, 0x3E3); (0x3E4, 0x3E5); (0x3E6, 0x3E7); (0x3E8, 0x3E9);
  (0x3EA, 0x3EB); (0x3EC, 0x3ED); (0x3EE, 0x3EF); (0x3F4, 0x3B8); (0x3F7, 0x3F8); (0x3F9, 0x3F2); (0x3FA, 0x3FB);
  (0x3FD, 0x37B); (0x3FE, 0x37C); (0x3FF, 0x37D); (0x400, 0x450); (0x401, 0x451); (0x402, 0x452); (0x403, 0x453);
  (0x404, 0x454); (0x405, 0x455); (0x406, 0x456); (0x407, 0x457); (0x408, 0x458); (0x409, 0x459); (0x40A, 0x45A);
  (0x40B, 0x45B); (0x40C, 0x45C); (0x40D, 0x45D); (0x40E, 0x45E); (0x40F, 0x45F); (0x410, 0x430); (0x411, 0x431);
  (0x412, 0x432); (0x413, 0x433); (0x414, 0x434); (0x415, 0x435); (0x416, 0x436); (0x417, 0x437); (0x418, 0x438);
  (0x419, 0x439); (0x41A, 0x43A); (0x41B, 0x43B); (0x41C, 0x43C); (0x41D, 0x43D); (0x41E, 0x43E); (0x41F, 0x43F);
  (0x420, 0x440); (0x421, 0x441); (0x422, 0x442); (0x423, 0x443); (0x424, 0x444); (0x425, 0x445); (0x426, 0x446);
  (0x427, 0x447); (0x428, 0x448); (0x429, 0x449); (0x42A, 0x44A); (0x42B, 0x44B); (0x42C, 0x44C); (0x42D, 0x44D);
  (0x42E, 0x44E); (0x42F, 0x44F); (0x460, 0x461); (0x462, 0x463); (0x464, 0x465); (0x466, 0x467); (0x468, 0x469);
  (0x46A, 0x46B); (0x46C, 0x46D); (0x46E, 0x46F); (0x470, 0x471); (0x472, 0x473); (0x474, 0x475); (0x476, 0x477);
  (0x478, 0x479); (0x47A, 0x47B); (0x47C, 0x47D); (0x47E, 0x47F); (0x480, 0x481); (0x48A, 0x48B); (0x48C, 0x48D);
  (0x48E, 0x48F); (0x490, 0x491); (0x492, 0x493); (0x494, 0x495); (0x496, 0x497); (0x498, 0x499); (0x49A, 0x49B);
  (0x49C, 0x49D); (0x49E, 0x49F); (0x4A0, 0x4A1); (0x4A2, 0x4A3); (0x4A4, 0x4A5); (0x4A6, 0x4A7); (0x4A8, 0x4A9);
  (0x4AA, 0x4AB); (0x4AC, 0x4AD); (0x4AE, 0x4AF); (0x4B0, 0x4B1); (0x4B2, 0x4B3); (0x4B4, 0x4B5); (0x4B6, 0x4B7);
  (0x4B8, 0x4B9); (0x4BA, 0x4BB); (0x4BC, 0x4BD); (0x4BE, 0x4BF); (0x4C0, 0x4CF); (0x4C1, 0x4C2); (0x4C3, 0x4C4);
  (0x4C5, 0x4C6); (0x4C7, 0x4C8); (0x4C9, 0x4CA); (0x4CB, 0x4CC); (0x4CD, 0x4CE); (0x4D0, 0x4D1); (0x4D2, 0x4D3);
  (0x4D4, 0x4D5); (0x4D6, 0x4D7); (0x4D8, 0x4D9); (0x4DA, 0x4DB); (0x4DC, 0x4DD); (0x4DE, 0x4DF); (0x4E0, 0x4E1);
  (0x4E2, 0x4E3); (0x4E4, 0x4E5); (0x4E6, 0x4E7); (0x4E8, 0x4E9); (0x4EA, 0x4EB); (0x4EC, 0x4ED); (0x4EE, 0x4EF);
  (0x4F0, 0x4F1); (0x4F2, 0x4F3); (0x4F4, 0x4F5); (0x4F6, 0x4F7); (0x4F8, 0x4F9); (0x4FA, 0x4FB); (0x4FC, 0x4FD);
  (0x4FE, 0x4FF); (0x500, 0x501); (0x502, 0x503); (0x504, 0x505); (0x506, 0x507); (0x508, 0x509); (0x50A, 0x50B);
  (0x50C, 0x50D); (0x50E, 0x50F); (0x510, 0x511); (0x512, 0x513); (0x514, 0x515); (0x516, 0x517); (0x518, 0x519);
  (0x51A, 0x51B); (0x51C, 0x51D); (0x51E, 0x51F); (0x520, 0x521); (0x522, 0x523); (0x524, 0x525); (0x526, 0x527);
  (0x528, 0x529); (0x52A, 0x52B); (0x52C, 0x52D); (0x52E, 0x52F); (0x531, 0x561); (0x532, 0x562); (0x533, 0x563);
  (0x534, 0x564); (0x535, 0x565); (0x536, 0x566); (0x537, 0x567); (0x538, 0x568); (0x539, 0x569); (0x53A, 0x56A);
  (0x53B, 0x56B); (0x53C, 0x56C); (0x53D, 0x56D); (0x53E, 0x56E); (0x53F, 0x56F); (0x540, 0x570); (0x541, 0x571);
  (0x542, 0x572); (0x543, 0x573); (0x544, 0x574); (0x545, 0x575); (0x546, 0x576); (0x547, 0x577); (0x548, 0x578);
  (0x549, 0x579); (0x54A, 0x57A); (0x54B, 0x57B); (0x54C, 0x57C); (0x54D, 0x57D); (0x54E, 0x57E); (0x54F, 0x57F);
  (0x550, 0x580); (0x551, 0x581); (0x552, 0x582); (0x553, 0x583); (0x554, 0x584); (0x555, 0x585); (0x556, 0x586);
  (0x10A0, 0x2D00); (0x10A1, 0x2D01); (0x10A2, 0x2D02); (0x10A3, 0x2D03); (0x10A4, 0x2D04); (0x10A5, 0x2D05); (0x10A6, 0x2D06);
  (0x10A7, 0x2D07); (0x10A8, 0x2D08); (0x10A9, 0x2D09); (0x10AA, 0x2D0A); (0x10AB, 0x2D0B); (0x10AC, 0x2D0C); (0x10AD, 0x2D0D);
  (0x10AE, 0x2D0E); (0x10AF, 0x2D0F); (0x10B0, 0x2D10); (0x10B1, 0x2D11); (0x10B2, 0x2D12); (0x10B3, 0x2D13); (0x10B4, 0x2D14);
  (0x10B5, 0x2D15); (0x10B6, 0x2D16); (0x10B7, 0x2D17); (0x10B8, 0x2D18); (0x10B9, 0x2D19); (0x10BA, 0x2D1A); (0x10BB, 0x2D1B);
  (0x10BC, 0x2D1C); (0x10BD, 0x2D1D); (0x10BE, 0x2D1E); (0x10BF, 0x2D1F); (0x10C0, 0x2D20); (0x10C1, 0x2D21); (0x10C2, 0x2D22);
  (0x10C3, 0x2D23); (0x10C4, 0x2D24); (0x10C5, 0x2D25); (0x10C7, 0x2D27); (0x10CD, 0x2D2D); (0x13A0, 0xAB70); (0x13A1, 0xAB71);
  (0x13A2, 0xAB72); (0x13A3, 0xAB73); (0x13A4, 0xAB74); (0x13A5, 0xAB75); (0x13A6, 0xAB76); (0x13A7, 0xAB77); (0x13A8, 0xAB78);
  (0x13A9, 0xAB79); (0x13AA, 0xAB7A); (0x13AB, 0xAB7B); (0x13AC, 0xAB7C); (0x13AD, 0xAB7D); (0x13AE, 0xAB7E); (0x13AF, 0xAB7F);
  (0x13B0, 0xAB80); (0x13B1, 0xAB81); (0x13B2, 0xAB82); (0x13B3, 0xAB83); (0x13B4, 0xAB84); (0x13B5, 0xAB85); (0x13B6, 0xAB86);
  (0x13B7, 0xAB87); (0x13B8, 0xAB88); (0x13B9, 0xAB89); (0x13BA, 0xAB8A); (0x13BB, 0xAB8B); (0x13BC, 0xAB8C); (0x13BD, 0xAB8D);
  (0x13BE, 0xAB8E); (0x13BF, 0xAB8F); (0x13C0, 0xAB90); (0x13C1, 0xAB91); (0x13C2, 0xAB92); (0x13C3, 0xAB93); (0x13C4, 0xAB94);
  (0x13C5, 0xAB95); (0x13C6, 0xAB96); (0x13C7, 0xAB97); (0x13C8, 0xAB98); (0x13C9, 0xAB99); (0x13CA, 0xAB9A); (0x13CB, 0xAB9B);
  (0x13CC, 0xAB9C); (0x13CD, 0xAB9D); (0x13CE, 0xAB9E); (0x13CF, 0xAB9F); (0x13D0, 0xABA0); (0x13D1, 0xABA1); (0x13D2, 0xABA2);
  (0x13D3, 0xABA3); (0x13D4, 0xABA4); (0x13D5, 0xABA5); (0x13D6, 0xABA6); (0x13D7, 0xABA7); (0x13D8, 0xABA8); (0x13D9, 0xABA9);
  (0x13DA, 0xABAA); (0x13DB, 0xABAB); (0x13DC, 0xABAC); (0x13DD, 0xABAD); (0x13DE, 0xABAE); (0x13DF, 0xABAF); (0x13E0, 0xABB0);
  (0x13E1, 0xABB1); (0x13E2, 0xABB2); (0x13E3, 0xABB3); (0x13E4, 0xABB4); (0x13E5, 0xABB5); (0x13E6, 0xABB6); (0x13E7, 0xABB7);
  (0x13E8, 0xABB8); (0x13E9, 0xABB9); (0x13EA, 0xABBA); (0x13EB, 0xABBB); (0x13EC, 0xABBC); (0x13ED, 0xABBD); (0x13EE, 0xABBE);
  (0x13EF, 0xABBF); (0x13F0, 0x13F8); (0x13F1, 0x13F9); (0x13F2, 0x13FA); (0x13F3, 0x13FB); (0x13F4, 0x13FC); (0x13F5, 0x13FD);
  (0x1C90, 0x10D0); (0x1C91, 0x10D1); (0x1C92, 0x10D2); (0x1C93, 0x10D3); (0x1C94, 0x10D4); (0x1C95, 0x10D5); (0x1C96, 0x10D6);
  (0x1C97, 0x10D7); (0x1C98, 0x10D8); (0x1C99, 0x10D9); (0x1C9A, 0x10DA); (0x1C9B, 0x10DB); (0x1C9C, 0x10DC); (0x1C9D, 0x10DD);
  (0x1C9E, 0x10DE); (0x1C9F, 0x10DF); (0x1CA0, 0x10E0); (0x1CA1, 0x10E1); (0x1CA2, 0x10E2); (0x1CA3, 0x10E3); (0x1CA4, 0x10E4);
  (0x1CA5, 0x10E5); (0x1CA6, 0x10E6); (0x1CA7, 0x10E7); (0x1CA8, 0x10E8); (0x1CA9, 0x10E9); (0x1CAA, 0x10EA); (0x1CAB, 0x10EB);
  (0x1CAC, 0x10EC); (0x1CAD, 0x10ED); (0x1CAE, 0x10EE); (0x1CAF, 0x10EF); (0x1CB0, 0x10F0); (0x1CB1, 0x10F1); (0x1CB2, 0x10F2);
  (0x1CB3, 0x10F3); (0x1CB4, 0x10F4); (0x1CB5, 0x10F5); (0x1CB6, 0x10F6); (0x1CB7, 0x10F7); (0x1CB8, 0x10F8); (0x1CB9, 0x10F9);
  (0x1CBA, 0x10FA); (0x1CBD, 0x10FD); (0x1CBE, 0x10FE); (0x1CBF, 0x10FF); (0x1E00, 0x1E01); (0x1E02, 0x1E03); (0x1E04, 0x1E05);
  (0x1E06, 0x1E07); (0x1E08, 0x1E09); (0x1E0A, 0x1E0B); (0x1E0C, 0x1E0D); (0x1E0E, 0x1E0F); (0x1E10, 0x1E11); (0x1E12, 0x1E13);
  (0x1E14, 0x1E15); (0x1E16, 0x1E17); (0x1E18, 0x1E19); (0x1E1A, 0x1E1B); (0x1E1C, 0x1E1D); (0x1E1E, 0x1E1F); (0x1E20, 0x1E21);
  (0x1E22, 0x1E23); (0x1E24, 0x1E25); (0x1E26, 0x1E27); (0x1E28, 0x1E29); (0x1E2A, 0x1E2B); (0x1E2C, 0x1E2D); (0x1E2E, 0x1E2F);
  (0x1E30, 0x1E31); (0x1E32, 0x1E33); (0x1E34, 0x1E35); (0x1E36, 0x1E37); (0x1E38, 0x1E39); (0x1E3A, 0x1E3B); (0x1E3C, 0x1E3D);
  (0x1E3E, 0x1E3F); (0x1E40, 0x1E41); (0x1E42, 0x1E43); (0x1E44, 0x1E45); (0x1E46, 0x1E47); (0x1E48, 0x1E49); (0x1E4A, 0x1E4B);
  (0x1E4C, 0x1E4D); (0x1E4E, 0x1E4F); (0x1E50, 0x1E51); (0x1E52, 0x1E53); (0x1E54, 0x1E55); (0x1E56, 0x1E57); (0x1E58, 0x1E59);
  (0x1E5A, 0x1E5B); (0x1E5C, 0x1E5D); (0x1E5E, 0x1E5F); (0x1E60, 0x1E61); (0x1E62, 0x1E63); (0x1E64, 0x1E65); (0x1E66, 0x1E67);
  (0x1E68, 0x1E69); (0x1E6A, 0x1E6B); (0x1E6C, 0x1E6D); (0x1E6E, 0x1E6F); (0x1E70, 0x1E71); (0x1E72, 0x1E73); (0x1E74, 0x1E75);
  (0x1E76, 0x1E77); (0x1E78, 0x1E79); (0x1E7A, 0x1E7B); (0x1E7C, 0x1E7D); (0x1E7E, 0x1E7F); (0x1E80, 0x1E81); (0x1E82, 0x1E83);
  (0x1E84, 0x1E85); (0x1E86, 0x1E87); (0x1E88, 0x1E89); (0x1E8A, 0x1E8B); (0x1E8C, 0x1E8D); (0x1E8E, 0x1E8F); (0x1E90, 0x1E91);
  (0x1E92, 0x1E93); (0x1E94, 0x1E95); (0x1E9E, 0xDF); (0x1EA0, 0x1EA1); (0x1EA2, 0x1EA3); (0x1EA4, 0x1EA5); (0x1EA6, 0x1EA7);
  (0x1EA8, 0x1EA9); (0x1EAA, 0x1EAB); (0x1EAC, 0x1EAD); (0x1EAE, 0x1EAF); (0x1EB0, 0x1EB1); (0x1EB2, 0x1EB3); (0x1EB4, 0x1EB5);
  (0x1EB6, 0x1EB7); (0x1EB8, 0x1EB9); (0x1EBA, 0x1EBB); (0x1EBC, 0x1EBD); (0x1EBE, 0x1EBF); (0x1EC0, 0x1EC1); (0x1EC2, 0x1EC3);
  (0x1EC4, 0x1EC5); (0x1EC6, 0x1EC7); (0x1EC8, 0x1EC9); (0x1ECA, 0x1ECB); (0x1ECC, 0x1ECD); (0x1ECE, 0x1ECF); (0x1ED0, 0x1ED1);
  (0x1ED2, 0x1ED3); (0x1ED4, 0x1ED5); (0x1ED6, 0x1ED7); (0x1ED8, 0x1ED9); (0x1EDA, 0x1EDB); (0x1EDC, 0x1EDD); (0x1EDE, 0x1EDF);
  (0x1EE0, 0x1EE1); (0x1EE2, 0x1EE3); (0x1EE4, 0x1EE5); (0x1EE6, 0x1EE7); (0x1EE8, 0x1EE9); (0x1EEA, 0x1EEB); (0x1EEC, 0x1EED);
  (0x1EEE, 0x1EEF); (0x1EF0, 0x1EF1); (0x1EF2, 0x1EF3); (0x1EF4, 0x1EF5); (0x1EF6, 0x1EF7); (0x1EF8, 0x1EF9); (0x1EFA, 0x1EFB);
  (0x1EFC, 0x1EFD); (0x1EFE, 0x1EFF); (0x1F08, 0x1F00); (0x1F09, 0x1F01); (0x1F0A, 0x1F02); (0x1F0B, 0x1F03); (0x1F0C, 0x1F04);
  (0x1F0D, 0x1F05); (0x1F0E, 0x1F06); (0x1F0F, 0x1F07); (0x1F18, 0x1F10); (0x1F19, 0x1F11); (0x1F1A, 0x1F12); (0x1F1B, 0x1F13);
  (0x1F1C, 0x1F14); (0x1F1D, 0x1F15); (0x1F28, 0x1F20); (0x1F29, 0x1F21); (0x1F2A, 0x1F22); (0x1F2B, 0x1F23); (0x1F2C, 0x1F24);
  (0x1F2D, 0x1F25); (0x1F2E, 0x1F26); (0x1F2F, 0x1F27); (0x1F38, 0x1F30); (0x1F39, 0x1F31); (0x1F3A, 0x1F32); (0x1F3B, 0x1F33);
  (0x1F3C, 0x1F34); (0x1F3D, 0x1F35); (0x1F3E, 0x1F36); (0x1F3F, 0x1F37); (0x1F48, 0x1F40); (0x1F49, 0x1F41); (0x1F4A, 0x1F42);
  (0x1F4B, 0x1F43); (0x1F4C, 0x1F44); (0x1F4D, 0x1F45); (0x1F59, 0x1F51); (0x1F5B, 0x1F53); (0x1F5D, 0x1F55); (0x1F5F, 0x1F57);
  (0x1F68, 0x1F60); (0x1F69, 0x1F61); (0x1F6A, 0x1F62); (0x1F6B, 0x1F63); (0x1F6C, 0x1F64); (0x1F6D, 0x1F65); (0x1F6E, 0x1F66);
  (0x1F6F, 0x1F67); (0x1F88, 0x1F80); (0x1F89, 0x1F81); (0x1F8A, 0x1F82); (0x1F8B, 0x1F83); (0x1F8C, 0x1F84); (0x1F8D, 0x1F85);
  (0x1F8E, 0x1F86); (0x1F8F, 0x1F87); (0x1F98, 0x1F90); (0x1F99, 0x1F91); (0x1F9A, 0x1F92); (0x1F9B, 0x1F93); (0x1F9C, 0x1F94);
  (0x1F9D, 0x1F95); (0x1F9E, 0x1F96); (0x1F9F, 0x1F97); (0x1FA8, 0x1FA0); (0x1FA9, 0x1FA1); (0x1FAA, 0x1FA2); (0x1FAB, 0x1FA3);
  (0x1FAC, 0x1FA4); (0x1FAD, 0x1FA5); (0x1FAE, 0x1FA6); (0x1FAF, 0x1FA7); (0x1FB8, 0x1FB0); (0x1FB9, 0x1FB1); (0x1FBA, 0x1F70);
  (0x1FBB, 0x1F71); (0x1FBC, 0x1FB3); (0x1FC8, 0x1F72); (0x1FC9, 0x1F73); (0x1FCA, 0x1F74); (0x1FCB, 0x1F75); (0x1FCC, 0x1FC3);
  (0x1FD8, 0x1FD0); (0x1FD9, 0x1FD1); (0x1FDA, 0x1F76); (0x1FDB, 0x1F77); (0x1FE8, 0x1FE0); (0x1FE9, 0x1FE1); (0x1FEA, 0x1F7A);
  (0x1FEB, 0x1F7B); (0x1FEC, 0x1FE5); (0x1FF8, 0x1F78); (0x1FF9, 0x1F79); (0x1FFA, 0x1F7C); (0x1FFB, 0x1F7D); (0x1FFC, 0x1FF3);
  (0x2126, 0x3C9); (0x212A, 0x6B); (0x212B, 0xE5); (0x2132, 0x214E); (0x2160, 0x2170); (0x2161, 0x2171); (0x2162, 0x2172);
  (0x2163, 0x2173); (0x2164, 0x2174); (0x2165, 0x2175); (0x2166, 0x2176); (0x2167, 0x2177); (0x2168, 0x2178); (0x2169, 0x2179);
  (0x216A, 0x217A); (0x216B, 0x217B); (0x216C, 0x217C); (0x216D, 0x217D); (0x216E, 0x217E); (0x216F, 0x217F); (0x2183, 0x2184);
  (0x24B6, 0x24D0); (0x24B7, 0x24D1); (0x24B8, 0x24D2); (0x24B9, 0x24D3); (0x24BA, 0x24D4); (0x24BB, 0x24D5); (0x24BC, 0x24D6);
  (0x24BD, 0x24D7); (0x24BE, 0x24D8); (0x24BF, 0x24D9); (0x24C0, 0x24DA); (0x24C1, 0x24DB); (0x24C2, 0x24DC); (0x24C3, 0x24DD);
  (0x24C4, 0x24DE); (0x24C5, 0x24DF); (0x24C6, 0x24E0); (0x24C7, 0x24E1); (0x24C8, 0x24E2); (0x24C9, 0x24E3); (0x24CA, 0x24E4);
  (0x24CB, 0x24E5); (0x24CC, 0x24E6); (0x24CD, 0x24E7); (0x24CE, 0x24E8); (0x24CF, 0x24E9); (0x2C00, 0x2C30); (0x2C01, 0x2C31);
  (0x2C02, 0x2C32); (0x2C03, 0x2C33); (0x2C04, 0x2C34); (0x2C05, 0x2C35); (0x2C06, 0x2C36); (0x2C07, 0x2C37); (0x2C08, 0x2C38);
  (0x2C09, 0x2C39); (0x2C0A, 0x2C3A); (0x2C0B, 0x2C3B); (0x2C0C, 0x2C3C); (0x2C0D, 0x2C3D); (0x2C0E, 0x2C3E); (0x2C0F, 0x2C3F);
  (0x2C10, 0x2C40); (0x2C11, 0x2C41); (0x2C12, 0x2C42); (0x2C13, 0x2C43); (0x2C14, 0x2C44); (0x2C15, 0x2C45); (0x2C16, 0x2C46);
  (0x2C17, 0x2C47); (0x2C18, 0x2C48); (0x2C19, 0x2C49); (0x2C1A, 0x2C4A); (0x2C1B, 0x2C4B); (0x2C1C, 0x2C4C); (0x2C1D, 0x2C4D);
  (0x2C1E, 0x2C4E); (0x2C1F, 0x2C4F); (0x2C20, 0x2C50); (0x2C21, 0x2C51); (0x2C22, 0x2C52); (0x2C23, 0x2C53); (0x2C24, 0x2C54);
  (0x2C25, 0x2C55); (0x2C26, 0x2C56); (0x2C27, 0x2C57); (0x2C28, 0x2C58); (0x2C29, 0x2C59); (0x2C2A, 0x2C5A); (0x2C2B, 0x2C5B);
  (0x2C2C, 0x2C5C); (0x2C2D, 0x2C5D); (0x2C2E, 0x2C5E); (0x2C2F, 0x2C5F); (0x2C60, 0x2C61); (0x2C62, 0x26B); (0x2C63, 0x1D7D);
  (0x2C64, 0x27D); (0x2C67, 0x2C68); (0x2C69, 0x2C6A); (0x2C6B, 0x2C6C); (0x2C6D, 0x251); (0x2C6E, 0x271); (0x2C6F, 0x250);
  (0x2C70, 0x252); (0x2C72, 0x2C73); (0x2C75, 0x2C76); (0x2C7E, 0x23F); (0x2C7F, 0x240); (0x2C80, 0x2C81); (0x2C82, 0x2C83);
  (0x2C84, 0x2C85); (0x2C86, 0x2C87); (0x2C88, 0x2C89); (0x2C8A, 0x2C8B); (0x2C8C, 0x2C8D); (0x2C8E, 0x2C8F); (0x2C90, 0x2C91);
  (0x2C92, 0x2C93); (0x2C94, 0x2C95); (0x2C96, 0x2C97); (0x2C98, 0x2C99); (0x2C9A, 0x2C9B); (0x2C9C, 0x2C9D); (0x2C9E, 0x2C9F);
  (0x2CA0, 0x2CA1); (0x2CA2, 0x2CA3); (0x2CA4, 0x2CA5); (0x2CA6, 0x2CA7); (0x2CA8, 0x2CA9); (0x2CAA, 0x2CAB); (0x2CAC, 0x2CAD);
  (0x2CAE, 0x2CAF); (0x2CB0, 0x2CB1); (0x2CB2, 0x2CB3); (0x2CB4, 0x2CB5); (0x2CB6, 0x2CB7); (0x2CB8, 0x2CB9); (0x2CBA, 0x2CBB);
  (0x2CBC, 0x2CBD); (0x2CBE, 0x2CBF); (0x2CC0, 0x2CC1); (0x2CC2, 0x2CC3); (0x2CC4, 0x2CC5); (0x2CC6, 0x2CC7); (0x2CC8, 0x2CC9);
  (0x2CCA, 0x2CCB); (0x2CCC, 0x2CCD); (0x2CCE, 0x2CCF); (0x2CD0, 0x2CD1); (0x2CD2, 0x2CD3); (0x2CD4, 0x2CD5); (0x2CD6, 0x2CD7);
  (0x2CD8, 0x2CD9); (0x2CDA, 0x2CDB); (0x2CDC, 0x2CDD); (0x2CDE, 0x2CDF); (0x2CE0, 0x2CE1); (0x2CE2, 0x2CE3); (0x2CEB, 0x2CEC);
  (0x2CED, 0x2CEE); (0x2CF2, 0x2CF3); (0xA640, 0xA641); (0xA642, 0xA643); (0xA644, 0xA645); (0xA646, 0xA647); (0xA648, 0xA649);
  (0xA64A, 0xA64B); (0xA64C, 0xA64D); (0xA64E, 0xA64F); (0xA650, 0xA651); (0xA652, 0xA653); (0xA654, 0xA655); (0xA656, 0xA657);
  (0xA658, 0xA659); (0xA65A, 0xA65B); (0xA65C, 0xA65D); (0xA65E, 0xA65F); (0xA660, 0xA661); (0xA662, 0xA663); (0xA664, 0xA665);
  (0xA666, 0xA667); (0xA668, 0xA669); (0xA66A, 0xA66B); (0xA66C, 0xA66D); (0xA680, 0xA681); (0xA682, 0xA683); (0xA684, 0xA685);
  (0xA686, 0xA687); (0xA688, 0xA689); (0xA68A, 0xA68B); (0xA68C, 0xA68D); (0xA68E, 0xA68F); (0xA690, 0xA691); (0xA692, 0xA693);
  (0xA694, 0xA695); (0xA696, 0xA697); (0xA698, 0xA699); (0xA69A, 0xA69B); (0xA722, 0xA723); (0xA724, 0xA725); (0xA726, 0xA727);
  (0xA728, 0xA729); (0xA72A, 0xA72B); (0xA72C, 0xA72D); (0xA72E, 0xA72F); (0xA732, 0xA733); (0xA734, 0xA735); (0xA736, 0xA737);
  (0xA738, 0xA739); (0xA73A, 0xA73B); (0xA73C, 0xA73D); (0xA73E, 0xA73F); (0xA740, 0xA741); (0xA742, 0xA743); (0xA744, 0xA745);
  (0xA746, 0xA747); (0xA748, 0xA749); (0xA74A, 0xA74B); (0xA74C, 0xA74D); (0xA74E, 0xA74F); (0xA750, 0xA751); (0xA752, 0xA753);
  (0xA754, 0xA755); (0xA756, 0xA757); (0xA758, 0xA759); (0xA75A, 0xA75B); (0xA75C, 0xA75D); (0xA75E, 0xA75F); (0xA760, 0xA761);
  (0xA762, 0xA763); (0xA764, 0xA765); (0xA766, 0xA767); (0xA768, 0xA769); (0xA76A, 0xA76B); (0xA76C, 0xA76D); (0xA76E, 0xA76F);
  (0xA779, 0xA77A); (0xA77B, 0xA77C); (0xA77D, 0x1D79); (0xA77E, 0xA77F); (0xA780, 0xA781); (0xA782, 0xA783); (0xA784, 0xA785);
  (0xA786, 0xA787); (0xA78B, 0xA78C); (0xA78D, 0x265); (0xA790, 0xA791); (0xA792, 0xA793); (0xA796, 0xA797); (0xA798, 0xA799);
  (0xA79A, 0xA79B); (0xA79C, 0xA79D); (0xA79E, 0xA79F); (0xA7A0, 0xA7A1); (0xA7A2, 0xA7A3); (0xA7A4, 0xA7A5); (0xA7A6, 0xA7A7);
  (0xA7A8, 0xA7A9); (0xA7AA, 0x266); (0xA7AB, 0x25C); (0xA7AC, 0x261); (0xA7AD, 0x26C); (0xA7AE, 0x26A); (0xA7B0, 0x29E);
  (0xA7B1, 0x287); (0xA7B2, 0x29D); (0xA7B3, 0xAB53); (0xA7B4, 0xA7B5); (0xA7B6, 0xA7B7); (0xA7B8, 0xA7B9); (0xA7BA, 0xA7BB);
  (0xA7BC, 0xA7BD); (0xA7BE, 0xA7BF); (0xA7C0, 0xA7C1); (0xA7C2, 0xA7C3); (0xA7C4, 0xA794); (0xA7C5, 0x282); (0xA7C6, 0x1D8E);
  (0xA7C7, 0xA7C8); (0xA7C9, 0xA7CA); (0xA7D0, 0xA7D1); (0xA7D6, 0xA7D7); (0xA7D8, 0xA7D9); (0xA7F5, 0xA7F6); (0xFF21, 0xFF41);
  (0xFF22, 0xFF42); (0xFF23, 0xFF43); (0xFF24, 0xFF44); (0xFF25, 0xFF45); (0xFF26, 0xFF46); (0xFF27, 0xFF47); (0xFF28, 0xFF48);
  (0xFF29, 0xFF49); (0xFF2A, 0xFF4A); (0xFF2B, 0xFF4B); (0xFF2C, 0xFF4C); (0xFF2D, 0xFF4D); (0xFF2E, 0xFF4E); (0xFF2F, 0xFF4F);
  (0xFF30, 0xFF50); (0xFF31, 0xFF51); (0xFF32, 0xFF52); (0xFF33, 0xFF53); (0xFF34, 0xFF54); (0xFF35, 0xFF55); (0xFF36, 0xFF56);
  (0xFF37, 0xFF57); (0xFF38, 0xFF58); (0xFF39, 0xFF59); (0xFF3A, 0xFF5A); (0x10400, 0x10428); (0x10401, 0x10429); (0x10402, 0x1042A);
  (0x10403, 0x1042B); (0x10404, 0x1042C); (0x10405, 0x1042D); (0x10406, 0x1042E); (0x10407, 0x1042F); (0x10408, 0x10430); (0x10409, 0x10431);
  (0x1040A, 0x10432); (0x1040B, 0x10433); (0x1040C, 0x10434); (0x1040D, 0x10435); (0x1040E, 0x10436); (0x1040F, 0x10437); (0x10410, 0x10438);
  (0x10411, 0x10439); (0x10412, 0x1043A); (0x10413, 0x1043B); (0x10414, 0x1043C); (0x10415, 0x1043D); (0x10416, 0x1043E); (0x10417, 0x1043F);
  (0x10418, 0x10440); (0x10419, 0x10441); (0x1041A, 0x10442); (0x1041B, 0x10443); (0x1041C, 0x10444); (0x1041D, 0x10445); (0x1041E, 0x10446);
  (0x1041F, 0x10447); (0x10420, 0x10448); (0x10421, 0x10449); (0x10422, 0x1044A); (0x10423, 0x1044B); (0x10424, 0x1044C); (0x10425, 0x1044D);
  (0x10426, 0x1044E); (0x10427, 0x1044F); (0x104B0, 0x104D8); (0x104B1, 0x104D9); (0x104B2, 0x104DA); (0x104B3, 0x104DB); (0x104B4, 0x104DC);
  (0x104B5, 0x104DD); (0x104B6, 0x104DE); (0x104B7, 0x104DF); (0x104B8, 0x104E0); (0x104B9, 0x104E1); (0x104BA, 0x104E2); (0x104BB, 0x104E3);
  (0x104BC, 0x104E4); (0x104BD, 0x104E5); (0x104BE, 0x104E6); (0x104BF, 0x104E7); (0x104C0, 0x104E8); (0x104C1, 0x104E9); (0x104C2, 0x104EA);
  (0x104C3, 0x104EB); (0x104C4, 0x104EC); (0x104C5, 0x104ED); (0x104C6, 0x104EE); (0x104C7, 0x104EF); (0x104C8, 0x104F0); (0x104C9, 0x104F1);
  (0x104CA, 0x104F2); (0x104CB, 0x104F3); (0x104CC, 0x104F4); (0x104CD, 0x104F5); (0x104CE, 0x104F6); (0x104CF, 0x104F7); (0x104D0, 0x104F8);
  (0x104D1, 0x104F9); (0x104D2, 0x104FA); (0x104D3, 0x104FB); (0x10570, 0x10597); (0x10571, 0x10598); (0x10572, 0x10599); (0x10573, 0x1059A);
  (0x10574, 0x1059B); (0x10575, 0x1059C); (0x10576, 0x1059D); (0x10577, 0x1059E); (0x10578, 0x1059F); (0x10579, 0x105A0); (0x1057A, 0x105A1);
  (0x1057C, 0x105A3); (0x1057D, 0x105A4); (0x1057E, 0x105A5); (0x1057F, 0x105A6); (0x10580, 0x105A7); (0x10581, 0x105A8); (0x10582, 0x105A9);
  (0x10583, 0x105AA); (0x10584, 0x105AB); (0x10585, 0x105AC); (0x10586, 0x105AD); (0x10587, 0x105AE); (0x10588, 0x105AF); (0x10589, 0x105B0);
  (0x1058A, 0x105B1); (0x1058C, 0x105B3); (0x1058D, 0x105B4); (0x1058E, 0x105B5); (0x1058F, 0x105B6); (0x10590, 0x105B7); (0x10591, 0x105B8);
  (0x10592, 0x105B9); (0x10594, 0x105BB); (0x10595, 0x105BC); (0x10C80, 0x10CC0); (0x10C81, 0x10CC1); (0x10C82, 0x10CC2); (0x10C83, 0x10CC3);
  (0x10C84, 0x10CC4); (0x10C85, 0x10CC5); (0x10C86, 0x10CC6); (0x10C87, 0x10CC7); (0x10C88, 0x10CC8); (0x10C89, 0x10CC9); (0x10C8A, 0x10CCA);
  (0x10C8B, 0x10CCB); (0x10C8C, 0x10CCC); (0x10C8D, 0x10CCD); (0x10C8E, 0x10CCE); (0x10C8F, 0x10CCF); (0x10C90, 0x10CD0); (0x10C91, 0x10CD1);
  (0x10C92, 0x10CD2); (0x10C93, 0x10CD3); (0x10C94, 0x10CD4); (0x10C95, 0x10CD5); (0x10C96, 0x10CD6); (0x10C97, 0x10CD7); (0x10C98, 0x10CD8);
  (0x10C99, 0x10CD9); (0x10C9A, 0x10CDA); (0x10C9B, 0x10CDB); (0x10C9C, 0x10CDC); (0x10C9D, 0x10CDD); (0x10C9E, 0x10CDE); (0x10C9F, 0x10CDF);
  (0x10CA0, 0x10CE0); (0x10CA1, 0x10CE1); (0x10CA2, 0x10CE2); (0x10CA3, 0x10CE3); (0x10CA4, 0x10CE4); (0x10CA5, 0x10CE5); (0x10CA6, 0x10CE6);
  (0x10CA7, 0x10CE7); (0x10CA8, 0x10CE8); (0x10CA9, 0x10CE9); (0x10CAA, 0x10CEA); (0x10CAB, 0x10CEB); (0x10CAC, 0x10CEC); (0x10CAD, 0x10CED);
  (0x10CAE, 0x10CEE); (0x10CAF, 0x10CEF); (0x10CB0, 0x10CF0); (0x10CB1, 0x10CF1); (0x10CB2, 0x10CF2); (0x118A0, 0x118C0); (0x118A1, 0x118C1);
  (0x118A2, 0x118C2); (0x118A3, 0x118C3); (0x118A4, 0x118C4); (0x118A5, 0x118C5); (0x118A6, 0x118C6); (0x118A7, 0x118C7); (0x118A8, 0x118C8);
  (0x118A9, 0x118C9); (0x118AA, 0x118CA); (0x118AB, 0x118CB); (0x118AC, 0x118CC); (0x118AD, 0x118CD); (0x118AE, 0x118CE); (0x118AF, 0x118CF);
  (0x118B0, 0x118D0); (0x118B1, 0x118D1); (0x118B2, 0x118D2); (0x118B3, 0x118D3); (0x118B4, 0x118D4); (0x118B5, 0x118D5); (0x118B6, 0x118D6);
  (0x118B7, 0x118D7); (0x118B8, 0x118D8); (0x118B9, 0x118D9); (0x118BA, 0x118DA); (0x118BB, 0x118DB); (0x118BC, 0x118DC); (0x118BD, 0x118DD);
  (0x118BE, 0x118DE); (0x118BF, 0x118DF); (0x16E40, 0x16E60); (0x16E41, 0x16E61); (0x16E42, 0x16E62); (0x16E43, 0x16E63); (0x16E44, 0x16E64);
  (0x16E45, 0x16E65); (0x16E46, 0x16E66); (0x16E47, 0x16E67); (0x16E48, 0x16E68); (0x16E49, 0x16E69); (0x16E4A, 0x16E6A); (0x16E4B, 0x16E6B);
  (0x16E4C, 0x16E6C); (0x16E4D, 0x16E6D); (0x16E4E, 0x16E6E); (0x16E4F, 0x16E6F); (0x16E50, 0x16E70); (0x16E51, 0x16E71); (0x16E52, 0x16E72);
  (0x16E53, 0x16E73); (0x16E54, 0x16E74); (0x16E55, 0x16E75); (0x16E56, 0x16E76); (0x16E57, 0x16E77); (0x16E58, 0x16E78); (0x16E59, 0x16E79);
  (0x16E5A, 0x16E7A); (0x16E5B, 0x16E7B); (0x16E5C, 0x16E7C); (0x16E5D, 0x16E7D); (0x16E5E, 0x16E7E); (0x16E5F, 0x16E7F); (0x1E900, 0x1E922);
  (0x1E901, 0x1E923); (0x1E902, 0x1E924); (0x1E903, 0x1E925); (0x1E904, 0x1E926); (0x1E905, 0x1E927); (0x1E906, 0x1E928); (0x1E907, 0x1E929);
  (0x1E908, 0x1E92A); (0x1E909, 0x1E92B); (0x1E90A, 0x1E92C); (0x1E90B, 0x1E92D); (0x1E90C, 0x1E92E); (0x1E90D, 0x1E92F); (0x1E90E, 0x1E930);
  (0x1E90F, 0x1E931); (0x1E910, 0x1E932); (0x1E911, 0x1E933); (0x1E912, 0x1E934); (0x1E913, 0x1E935); (0x1E914, 0x1E936); (0x1E915, 0x1E937);
  (0x1E916, 0x1E938); (0x1E917, 0x1E939); (0x1E918, 0x1E93A); (0x1E919, 0x1E93B); (0x1E91A, 0x1E93C); (0x1E91B, 0x1E93D); (0x1E91C, 0x1E93E);
  (0x1E91D, 0x1E93F); (0x1E91E, 0x1E940); (0x1E91F, 0x1E941); (0x1E920, 0x1E942); (0x1E921, 0x1E943)
]%N.

Definition sre_lower (c : N) : N :=
  match find (fun p => N.eqb (fst p) c) lower_table with
  | Some p => snd p
  | None => c
  end.

(** [_sre.unicode_iscased]: the code points that differ from their simple
    lowercase or uppercase. *)
Definition iscased_ranges : list (N * N) := [
  (0x41, 0x5A); (0x61, 0x7A); (0xB5, 0xB5); (0xC0, 0xD6); (0xD8, 0xF6); (0xF8, 0x137);
  (0x139, 0x18C); (0x18E, 0x19A); (0x19C, 0x1A9); (0x1AC, 0x1B9); (0x1BC, 0x1BD); (0x1BF, 0x1BF);
  (0x1C4, 0x220); (0x222, 0x233); (0x23A, 0x254); (0x256, 0x257); (0x259, 0x259); (0x25B, 0x25C);
  (0x260, 0x261); (0x263, 0x263); (0x265, 0x266); (0x268, 0x26C); (0x26F, 0x26F); (0x271, 0x272);
  (0x275, 0x275); (0x27D, 0x27D); (0x280, 0x280); (0x282, 0x283); (0x287, 0x28C); (0x292, 0x292);
  (0x29D, 0x29E); (0x345, 0x345); (0x370, 0x373); (0x376, 0x377); (0x37B, 0x37D); (0x37F, 0x37F);
  (0x386, 0x386); (0x388, 0x38A); (0x38C, 0x38C); (0x38E, 0x3A1); (0x3A3, 0x3D1); (0x3D5, 0x3F5);
  (0x3F7, 0x3FB); (0x3FD, 0x481); (0x48A, 0x52F); (0x531, 0x556); (0x561, 0x587); (0x10A0, 0x10C5);
  (0x10C7, 0x10C7); (0x10CD, 0x10CD); (0x10D0, 0x10FA); (0x10FD, 0x10FF); (0x13A0, 0x13F5); (0x13F8, 0x13FD);
  (0x1C80, 0x1C88); (0x1C90, 0x1CBA); (0x1CBD, 0x1CBF); (0x1D79, 0x1D79); (0x1D7D, 0x1D7D); (0x1D8E, 0x1D8E);
  (0x1E00, 0x1E9B); (0x1E9E, 0x1E9E); (0x1EA0, 0x1F15); (0x1F18, 0x1F1D); (0x1F20, 0x1F45); (0x1F48, 0x1F4D);
  (0x1F50, 0x1F57); (0x1F59, 0x1F59); (0x1F5B, 0x1F5B); (0x1F5D, 0x1F5D); (0x1F5F, 0x1F7D); (0x1F80, 0x1FB4);
  (0x1FB6, 0x1FBC); (0x1FBE, 0x1FBE); (0x1FC2, 0x1FC4); (0x1FC6, 0x1FCC); (0x1FD0, 0x1FD3); (0x1FD6, 0x1FDB);
  (0x1FE0, 0x1FEC); (0x1FF2, 0x1FF4); (0x1FF6, 0x1FFC); (0x2126, 0x2126); (0x212A, 0x212B); (0x2132, 0x2132);
  (0x214E, 0x214E); (0x2160, 0x217F); (0x2183, 0x2184); (0x24B6, 0x24E9); (0x2C00, 0x2C70); (0x2C72, 0x2C73);
  (0x2C75, 0x2C76); (0x2C7E, 0x2CE3); (0x2CEB, 0x2CEE); (0x2CF2, 0x2CF3); (0x2D00, 0x2D25); (0x2D27, 0x2D27);
  (0x2D2D, 0x2D2D); (0xA640, 0xA66D); (0xA680, 0xA69B); (0xA722, 0xA72F); (0xA732, 0xA76F); (0xA779, 0xA787);
  (0xA78B, 0xA78D); (0xA790, 0xA794); (0xA796, 0xA7AE); (0xA7B0, 0xA7CA); (0xA7D0, 0xA7D1); (0xA7D6, 0xA7D9);
  (0xA7F5, 0xA7F6); (0xAB53, 0xAB53); (0xAB70, 0xABBF); (0xFB00, 0xFB06); (0xFB13, 0xFB17); (0xFF21, 0xFF3A);
  (0xFF41, 0xFF5A); (0x10400, 0x1044F); (0x104B0, 0x104D3); (0x104D8, 0x104FB); (0x10570, 0x1057A); (0x1057C, 0x1058A);
  (0x1058C, 0x10592); (0x10594, 0x10595); (0x10597, 0x105A1); (0x105A3, 0x105B1); (0x105B3, 0x105B9); (0x105BB, 0x105BC);
  (0x10C80, 0x10CB2); (0x10CC0, 0x10CF2); (0x118A0, 0x118DF); (0x16E40, 0x16E7F); (0x1E900, 0x1E943)
]%N.

Definition sre_iscased (c : N) : bool := in_ranges iscased_ranges c.

(** [re._casefix._EXTRA_CASES]: lowercase code points with further
    lowercase code points of the same uppercase. *)
Definition extra_cases : list (N * list N) := [
  (0x69, [0x131]); (0x73, [0x17F]); (0xB5, [0x3BC]);
  (0x131, [0x69]); (0x17F, [0x73]); (0x345, [0x3B9; 0x1FBE]);
  (0x390, [0x1FD3]); (0x3B0, [0x1FE3]); (0x3B2, [0x3D0]);
  (0x3B5, [0x3F5]); (0x3B8, [0x3D1]); (0x3B9, [0x345; 0x1FBE]);
  (0x3BA, [0x3F0]); (0x3BC, [0xB5]); (0x3C0, [0x3D6]);
  (0x3C1, [0x3F1]); (0x3C2, [0x3C3]); (0x3C3, [0x3C2]);
  (0x3C6, [0x3D5]); (0x3D0, [0x3B2]); (0x3D1, [0x3B8]);
  (0x3D5, [0x3C6]); (0x3D6, [0x3C0]); (0x3F0, [0x3BA]);
  (0x3F1, [0x3C1]); (0x3F5, [0x3B5]); (0x432, [0x1C80]);
  (0x434, [0x1C81]); (0x43E, [0x1C82]); (0x441, [0x1C83]);
  (0x442, [0x1C84; 0x1C85]); (0x44A, [0x1C86]); (0x463, [0x1C87]);
  (0x1C80, [0x432]); (0x1C81, [0x434]); (0x1C82, [0x43E]);
  (0x1C83, [0x441]); (0x1C84, [0x442; 0x1C85]); (0x1C85, [0x442; 0x1C84]);
  (0x1C86, [0x44A]); (0x1C87, [0x463]); (0x1C88, [0xA64B]);
  (0x1E61, [0x1E9B]); (0x1E9B, [0x1E61]); (0x1FBE, [0x345; 0x3B9]);
  (0x1FD3, [0x390]); (0x1FE3, [0x3B0]); (0xA64B, [0x1C88]);
  (0xFB05, [0xFB06]); (0xFB06, [0xFB05])
]%N.

Definition extra_cases_of (lo : N) : list N :=
  match find (fun p => N.eqb (fst p) lo) extra_cases with
  | Some p => snd p
  | None => []
  end.

(** A literal character [p] of a pattern compiled with [re.IGNORECASE]
    ([re._compiler._compile], [LITERAL]): an uncased [p] is matched as is; a
    cased one by every [c] whose simple lowercase is [p]'s
    ([LITERAL_UNI_IGNORE]) or one of its extra cases ([IN_UNI_IGNORE]). *)
Definition lit_match (p c : N) : bool :=
  if sre_iscased p then
    let lo := sre_lower p in
    N.eqb (sre_lower c) lo || existsb (N.eqb (sre_lower c)) (extra_cases_of lo)
  else N.eqb c p.

(** The properties Cased and Case_Ignorable ([_PyUnicode_IsCased],
    [_PyUnicode_IsCaseIgnorable]), which decide the final form of a capital
    sigma in [str.lower()]. *)
Definition cased_ranges : list (N * N) := [
  (0x41, 0x5A); (0x61, 0x7A); (0xAA, 0xAA); (0xB5, 0xB5); (0xBA, 0xBA); (0xC0, 0xD6);
  (0xD8, 0xF6); (0xF8, 0x1BA); (0x1BC, 0x1BF); (0x1C4, 0x293); (0x295, 0x2B8); (0x2C0, 0x2C1);
  (0x2E0, 0x2E4); (0x345, 0x345); (0x370, 0x373); (0x376, 0x377); (0x37A, 0x37D); (0x37F, 0x37F);
  (0x386, 0x386); (0x388, 0x38A); (0x38C, 0x38C); (0x38E, 0x3A1); (0x3A3, 0x3F5); (0x3F7, 0x481);
  (0x48A, 0x52F); (0x531, 0x556); (0x560, 0x588); (0x10A0, 0x10C5); (0x10C7, 0x10C7); (0x10CD, 0x10CD);
  (0x10D0, 0x10FA); (0x10FD, 0x10FF); (0x13A0, 0x13F5); (0x13F8, 0x13FD); (0x1C80, 0x1C88); (0x1C90, 0x1CBA);
  (0x1CBD, 0x1CBF); (0x1D00, 0x1DBF); (0x1E00, 0x1F15); (0x1F18, 0x1F1D); (0x1F20, 0x1F45); (0x1F48, 0x1F4D);
  (0x1F50, 0x1F57); (0x1F59, 0x1F59); (0x1F5B, 0x1F5B); (0x1F5D, 0x1F5D); (0x1F5F, 0x1F7D); (0x1F80, 0x1FB4);
  (0x1FB6, 0x1FBC); (0x1FBE, 0x1FBE); (0x1FC2, 0x1FC4); (0x1FC6, 0x1FCC); (0x1FD0, 0x1FD3); (0x1FD6, 0x1FDB);
  (0x1FE0, 0x1FEC); (0x1FF2, 0x1FF4); (0x1FF6, 0x1FFC); (0x2071, 0x2071); (0x207F, 0x207F); (0x2090, 0x209C);
  (0x2102, 0x2102); (0x2107, 0x2107); (0x210A, 0x2113); (0x2115, 0x2115); (0x2119, 0x211D); (0x2124, 0x2124);
  (0x2126, 0x2126); (0x2128, 0x2128); (0x212A, 0x212D); (0x212F, 0x2134); (0x2139, 0x2139); (0x213C, 0x213F);
  (0x2145, 0x2149); (0x214E, 0x214E); (0x2160, 0x217F); (0x2183, 0x2184); (0x24B6, 0x24E9); (0x2C00, 0x2CE4);
  (0x2CEB, 0x2CEE); (0x2CF2, 0x2CF3); (0x2D00, 0x2D25); (0x2D27, 0x2D27); (0x2D2D, 0x2D2D); (0xA640, 0xA66D);
  (0xA680, 0xA69D); (0xA722, 0xA787); (0xA78B, 0xA78E); (0xA790, 0xA7CA); (0xA7D0, 0xA7D1); (0xA7D3, 0xA7D3);
  (0xA7D5, 0xA7D9); (0xA7F5, 0xA7F6); (0xA7F8, 0xA7FA); (0xAB30, 0xAB5A); (0xAB5C, 0xAB68); (0xAB70, 0xABBF);
  (0xFB00, 0xFB06); (0xFB13, 0xFB17); (0xFF21, 0xFF3A); (0xFF41, 0xFF5A); (0x10400, 0x1044F); (0x104B0, 0x104D3);
  (0x104D8, 0x104FB); (0x10570, 0x1057A); (0x1057C, 0x1058A); (0x1058C, 0x10592); (0x10594, 0x10595); (0x10597, 0x105A1);
  (0x105A3, 0x105B1); (0x105B3, 0x105B9); (0x105BB, 0x105BC); (0x10780, 0x10780); (0x10783, 0x10785); (0x10787, 0x107B0);
  (0x107B2, 0x107BA); (0x10C80, 0x10CB2); (0x10CC0, 0x10CF2); (0x118A0, 0x118DF); (0x16E40, 0x16E7F); (0x1D400, 0x1D454);
  (0x1D456, 0x1D49C); (0x1D49E, 0x1D49F); (0x1D4A2, 0x1D4A2); (0x1D4A5, 0x1D4A6); (0x1D4A9, 0x1D4AC); (0x1D4AE, 0x1D4B9);
  (0x1D4BB, 0x1D4BB); (0x1D4BD, 0x1D4C3); (0x1D4C5, 0x1D505); (0x1D507, 0x1D50A); (0x1D50D, 0x1D514); (0x1D516, 0x1D51C);
  (0x1D51E, 0x1D539); (0x1D53B, 0x1D53E); (0x1D540, 0x1D544); (0x1D546, 0x1D546); (0x1D54A, 0x1D550); (0x1D552, 0x1D6A5);
  (0x1D6A8, 0x1D6C0); (0x1D6C2, 0x1D6DA); (0x1D6DC, 0x1D6FA); (0x1D6FC, 0x1D714); (0x1D716, 0x1D734); (0x1D736, 0x1D74E);
  (0x1D750, 0x1D76E); (0x1D770, 0x1D788); (0x1D78A, 0x1D7A8); (0x1D7AA, 0x1D7C2); (0x1D7C4, 0x1D7CB); (0x1DF00, 0x1DF09);
  (0x1DF0B, 0x1DF1E); (0x1E900, 0x1E943); (0x1F130, 0x1F149); (0x1F150, 0x1F169); (0x1F170, 0x1F189)
]%N.

Definition case_ignorable_ranges : list (N * N) := [
  (0x27, 0x27); (0x2E, 0x2E); (0x3A, 0x3A); (0x5E, 0x5E); (0x60, 0x60); (0xA8, 0xA8);
  (0xAD, 0xAD); (0xAF, 0xAF); (0xB4, 0xB4); (0xB7, 0xB8); (0x2B0, 0x36F); (0x374, 0x375);
  (0x37A, 0x37A); (0x384, 0x385); (0x387, 0x387); (0x483, 0x489); (0x559, 0x559); (0x55F, 0x55F);
  (0x591, 0x5BD); (0x5BF, 0x5BF); (0x5C1, 0x5C2); (0x5C4, 0x5C5); (0x5C7, 0x5C7); (0x5F4, 0x5F4);
  (0x600, 0x605); (0x610, 0x61A); (0x61C, 0x61C); (0x640, 0x640); (0x64B, 0x65F); (0x670, 0x670);
  (0x6D6, 0x6DD); (0x6DF, 0x6E8); (0x6EA, 0x6ED); (0x70F, 0x70F); (0x711, 0x711); (0x730, 0x74A);
  (0x7A6, 0x7B0); (0x7EB, 0x7F5); (0x7FA, 0x7FA); (0x7FD, 0x7FD); (0x816, 0x82D); (0x859, 0x85B);
  (0x888, 0x888); (0x890, 0x891); (0x898, 0x89F); (0x8C9, 0x902); (0x93A, 0x93A); (0x93C, 0x93C);
  (0x941, 0x948); (0x94D, 0x94D); (0x951, 0x957); (0x962, 0x963); (0x971, 0x971); (0x981, 0x981);
  (0x9BC, 0x9BC); (0x9C1, 0x9C4); (0x9CD, 0x9CD); (0x9E2, 0x9E3); (0x9FE, 0x9FE); (0xA01, 0xA02);
  (0xA3C, 0xA3C); (0xA41, 0xA42); (0xA47, 0xA48); (0xA4B, 0xA4D); (0xA51, 0xA51); (0xA70, 0xA71);
  (0xA75, 0xA75); (0xA81, 0xA82); (0xABC, 0xABC); (0xAC1, 0xAC5); (0xAC7, 0xAC8); (0xACD, 0xACD);
  (0xAE2, 0xAE3); (0xAFA, 0xAFF); (0xB01, 0xB01); (0xB3C, 0xB3C); (0xB3F, 0xB3F); (0xB41, 0xB44);
  (0xB4D, 0xB4D); (0xB55, 0xB56); (0xB62, 0xB63); (0xB82, 0xB82); (0xBC0, 0xBC0); (0xBCD, 0xBCD);
  (0xC00, 0xC00); (0xC04, 0xC04); (0xC3C, 0xC3C); (0xC3E, 0xC40); (0xC46, 0xC48); (0xC4A, 0xC4D);
  (0xC55, 0xC56); (0xC62, 0xC63); (0xC81, 0xC81); (0xCBC, 0xCBC); (0xCBF, 0xCBF); (0xCC6, 0xCC6);
  (0xCCC, 0xCCD); (0xCE2, 0xCE3); (0xD00, 0xD01); (0xD3B, 0xD3C); (0xD41, 0xD44); (0xD4D, 0xD4D);
  (0xD62, 0xD63); (0xD81, 0xD81); (0xDCA, 0xDCA); (0xDD2, 0xDD4); (0xDD6, 0xDD6); (0xE31, 0xE31);
  (0xE34, 0xE3A); (0xE46, 0xE4E); (0xEB1, 0xEB1); (0xEB4, 0xEBC); (0xEC6, 0xEC6); (0xEC8, 0xECD);
  (0xF18, 0xF19); (0xF35, 0xF35); (0xF37, 0xF37); (0xF39, 0xF39); (0xF71, 0xF7E); (0xF80, 0xF84);
  (0xF86, 0xF87); (0xF8D, 0xF97); (0xF99, 0xFBC); (0xFC6, 0xFC6); (0x102D, 0x1030); (0x1032, 0x1037);
  (0x1039, 0x103A); (0x103D, 0x103E); (0x1058, 0x1059); (0x105E, 0x1060); (0x1071, 0x1074); (0x1082, 0x1082);
  (0x1085, 0x1086); (0x108D, 0x108D); (0x109D, 0x109D); (0x10FC, 0x10FC); (0x135D, 0x135F); (0x1712, 0x1714);
  (0x1732, 0x1733); (0x1752, 0x1753); (0x1772, 0x1773); (0x17B4, 0x17B5); (0x17B7, 0x17BD); (0x17C6, 0x17C6);
  (0x17C9, 0x17D3); (0x17D7, 0x17D7); (0x17DD, 0x17DD); (0x180B, 0x180F); (0x1843, 0x1843); (0x1885, 0x1886);
  (0x18A9, 0x18A9); (0x1920, 0x1922); (0x1927, 0x1928); (0x1932, 0x1932); (0x1939, 0x193B); (0x1A17, 0x1A18);
  (0x1A1B, 0x1A1B); (0x1A56, 0x1A56); (0x1A58, 0x1A5E); (0x1A60, 0x1A60); (0x1A62, 0x1A62); (0x1A65, 0x1A6C);
  (0x1A73, 0x1A7C); (0x1A7F, 0x1A7F); (0x1AA7, 0x1AA7); (0x1AB0, 0x1ACE); (0x1B00, 0x1B03); (0x1B34, 0x1B34);
  (0x1B36, 0x1B3A); (0x1B3C, 0x1B3C); (0x1B42, 0x1B42); (0x1B6B, 0x1B73); (0x1B80, 0x1B81); (0x1BA2, 0x1BA5);
  (0x1BA8, 0x1BA9); (0x1BAB, 0x1BAD); (0x1BE6, 0x1BE6); (0x1BE8, 0x1BE9); (0x1BED, 0x1BED); (0x1BEF, 0x1BF1);
  (0x1C2C, 0x1C33); (0x1C36, 0x1C37); (0x1C78, 0x1C7D); (0x1CD0, 0x1CD2); (0x1CD4, 0x1CE0); (0x1CE2, 0x1CE8);
  (0x1CED, 0x1CED); (0x1CF4, 0x1CF4); (0x1CF8, 0x1CF9); (0x1D2C, 0x1D6A); (0x1D78, 0x1D78); (0x1D9B, 0x1DFF);
  (0x1FBD, 0x1FBD); (0x1FBF, 0x1FC1); (0x1FCD, 0x1FCF); (0x1FDD, 0x1FDF); (0x1FED, 0x1FEF); (0x1FFD, 0x1FFE);
  (0x200B, 0x200F); (0x2018, 0x2019); (0x2024, 0x2024); (0x2027, 0x2027); (0x202A, 0x202E); (0x2060, 0x2064);
  (0x2066, 0x206F); (0x2071, 0x2071); (0x207F, 0x207F); (0x2090, 0x209C); (0x20D0, 0x20F0); (0x2C7C, 0x2C7D);
  (0x2CEF, 0x2CF1); (0x2D6F, 0x2D6F); (0x2D7F, 0x2D7F); (0x2DE0, 0x2DFF); (0x2E2F, 0x2E2F); (0x3005, 0x3005);
  (0x302A, 0x302D); (0x3031, 0x3035); (0x303B, 0x303B); (0x3099, 0x309E); (0x30FC, 0x30FE); (0xA015, 0xA015);
  (0xA4F8, 0xA4FD); (0xA60C, 0xA60C); (0xA66F, 0xA672); (0xA674, 0xA67D); (0xA67F, 0xA67F); (0xA69C, 0xA69F);
  (0xA6F0, 0xA6F1); (0xA700, 0xA721); (0xA770, 0xA770); (0xA788, 0xA78A); (0xA7F2, 0xA7F4); (0xA7F8, 0xA7F9);
  (0xA802, 0xA802); (0xA806, 0xA806); (0xA80B, 0xA80B); (0xA825, 0xA826); (0xA82C, 0xA82C); (0xA8C4, 0xA8C5);
  (0xA8E0, 0xA8F1); (0xA8FF, 0xA8FF); (0xA926, 0xA92D); (0xA947, 0xA951); (0xA980, 0xA982); (0xA9B3, 0xA9B3);
  (0xA9B6, 0xA9B9); (0xA9BC, 0xA9BD); (0xA9CF, 0xA9CF); (0xA9E5, 0xA9E6); (0xAA29, 0xAA2E); (0xAA31, 0xAA32);
  (0xAA35, 0xAA36); (0xAA43, 0xAA43); (0xAA4C, 0xAA4C); (0xAA70, 0xAA70); (0xAA7C, 0xAA7C); (0xAAB0, 0xAAB0);
  (0xAAB2, 0xAAB4); (0xAAB7, 0xAAB8); (0xAABE, 0xAABF); (0xAAC1, 0xAAC1); (0xAADD, 0xAADD); (0xAAEC, 0xAAED);
  (0xAAF3, 0xAAF4); (0xAAF6, 0xAAF6); (0xAB5B, 0xAB5F); (0xAB69, 0xAB6B); (0xABE5, 0xABE5); (0xABE8, 0xABE8);
  (0xABED, 0xABED); (0xFB1E, 0xFB1E); (0xFBB2, 0xFBC2); (0xFE00, 0xFE0F); (0xFE13, 0xFE13); (0xFE20, 0xFE2F);
  (0xFE52, 0xFE52); (0xFE55, 0xFE55); (0xFEFF, 0xFEFF); (0xFF07, 0xFF07); (0xFF0E, 0xFF0E); (0xFF1A, 0xFF1A);
  (0xFF3E, 0xFF3E); (0xFF40, 0xFF40); (0xFF70, 0xFF70); (0xFF9E, 0xFF9F); (0xFFE3, 0xFFE3); (0xFFF9, 0xFFFB);
  (0x101FD, 0x101FD); (0x102E0, 0x102E0); (0x10376, 0x1037A); (0x10780, 0x10785); (0x10787, 0x107B0); (0x107B2, 0x107BA);
  (0x10A01, 0x10A03); (0x10A05, 0x10A06); (0x10A0C, 0x10A0F); (0x10A38, 0x10A3A); (0x10A3F, 0x10A3F); (0x10AE5, 0x10AE6);
  (0x10D24, 0x10D27); (0x10EAB, 0x10EAC); (0x10F46, 0x10F50); (0x10F82, 0x10F85); (0x11001, 0x11001); (0x11038, 0x11046);
  (0x11070, 0x11070); (0x11073, 0x11074); (0x1107F, 0x11081); (0x110B3, 0x110B6); (0x110B9, 0x110BA); (0x110BD, 0x110BD);
  (0x110C2, 0x110C2); (0x110CD, 0x110CD); (0x11100, 0x11102); (0x11127, 0x1112B); (0x1112D, 0x11134); (0x11173, 0x11173);
  (0x11180, 0x11181); (0x111B6, 0x111BE); (0x111C9, 0x111CC); (0x111CF, 0x111CF); (0x1122F, 0x11231); (0x11234, 0x11234);
  (0x11236, 0x11237); (0x1123E, 0x1123E); (0x112DF, 0x112DF); (0x112E3, 0x112EA); (0x11300, 0x11301); (0x1133B, 0x1133C);
  (0x11340, 0x11340); (0x11366, 0x1136C); (0x11370, 0x11374); (0x11438, 0x1143F); (0x11442, 0x11444); (0x11446, 0x11446);
  (0x1145E, 0x1145E); (0x114B3, 0x114B8); (0x114BA, 0x114BA); (0x114BF, 0x114C0); (0x114C2, 0x114C3); (0x115B2, 0x115B5);
  (0x115BC, 0x115BD); (0x115BF, 0x115C0); (0x115DC, 0x115DD); (0x11633, 0x1163A); (0x1163D, 0x1163D); (0x1163F, 0x11640);
  (0x116AB, 0x116AB); (0x116AD, 0x116AD); (0x116B0, 0x116B5); (0x116B7, 0x116B7); (0x1171D, 0x1171F); (0x11722, 0x11725);
  (0x11727, 0x1172B); (0x1182F, 0x11837); (0x11839, 0x1183A); (0x1193B, 0x1193C); (0x1193E, 0x1193E); (0x11943, 0x11943);
  (0x119D4, 0x119D7); (0x119DA, 0x119DB); (0x119E0, 0x119E0); (0x11A01, 0x11A0A); (0x11A33, 0x11A38); (0x11A3B, 0x11A3E);
  (0x11A47, 0x11A47); (0x11A51, 0x11A56); (0x11A59, 0x11A5B); (0x11A8A, 0x11A96); (0x11A98, 0x11A99); (0x11C30, 0x11C36);
  (0x11C38, 0x11C3D); (0x11C3F, 0x11C3F); (0x11C92, 0x11CA7); (0x11CAA, 0x11CB0); (0x11CB2, 0x11CB3); (0x11CB5, 0x11CB6);
  (0x11D31, 0x11D36); (0x11D3A, 0x11D3A); (0x11D3C, 0x11D3D); (0x11D3F, 0x11D45); (0x11D47, 0x11D47); (0x11D90, 0x11D91);
  (0x11D95, 0x11D95); (0x11D97, 0x11D97); (0x11EF3, 0x11EF4); (0x13430, 0x13438); (0x16AF0, 0x16AF4); (0x16B30, 0x16B36);
  (0x16B40, 0x16B43); (0x16F4F, 0x16F4F); (0x16F8F, 0x16F9F); (0x16FE0, 0x16FE1); (0x16FE3, 0x16FE4); (0x1AFF0, 0x1AFF3);
  (0x1AFF5, 0x1AFFB); (0x1AFFD, 0x1AFFE); (0x1BC9D, 0x1BC9E); (0x1BCA0, 0x1BCA3); (0x1CF00, 0x1CF2D); (0x1CF30, 0x1CF46);
  (0x1D167, 0x1D169); (0x1D173, 0x1D182); (0x1D185, 0x1D18B); (0x1D1AA, 0x1D1AD); (0x1D242, 0x1D244); (0x1DA00, 0x1DA36);
  (0x1DA3B, 0x1DA6C); (0x1DA75, 0x1DA75); (0x1DA84, 0x1DA84); (0x1DA9B, 0x1DA9F); (0x1DAA1, 0x1DAAF); (0x1E000, 0x1E006);
  (0x1E008, 0x1E018); (0x1E01B, 0x1E021); (0x1E023, 0x1E024); (0x1E026, 0x1E02A); (0x1E130, 0x1E13D); (0x1E2AE, 0x1E2AE);
  (0x1E2EC, 0x1E2EF); (0x1E8D0, 0x1E8D6); (0x1E944, 0x1E94B); (0x1F3FB, 0x1F3FF); (0xE0001, 0xE0001); (0xE0020, 0xE007F);
  (0xE0100, 0xE01EF)
]%N.

Definition is_cased (c : N) : bool := in_ranges cased_ranges c.
Definition is_case_ignorable (c : N) : bool := in_ranges case_ignorable_ranges c.

(** The full lowercase mapping [_PyUnicode_ToLowerFull]: U+0130 is the one
    code point whose full mapping is not its simple one. *)
Definition lower_full (c : N) : text :=
  if N.eqb c 0x130 then [0x69; 0x307]%N else [sre_lower c].

(** [handle_capital_sigma]: U+03A3 at position [i] lowers to final sigma when
    the nearest code point before it that is not case-ignorable exists and is
    cased, and the nearest one after it that is not case-ignorable is absent
    or not cased. [before] is the text before position [i], nearest first. *)
Definition final_sigma (before after : text) : bool :=
  match find (fun c => negb (is_case_ignorable c)) before with
  | Some b =>
      is_cased b &&
      match find (fun c => negb (is_case_ignorable c)) after with
      | Some a => negb (is_cased a)
      | None => true
      end
  | None => false
  end.

(** [str.lower()] ([do_lower] and [lower_ucs4] of unicodeobject.c). *)
Fixpoint lower_from (before s : text) : text :=
  match s with
  | [] => []
  | c :: s' =>
      (if N.eqb c 0x3A3 then [if final_sigma before s' then 0x3C2 else 0x3C3]%N
       else lower_full c) ++ lower_from (c :: before) s'
  end.

Definition lower (s : text) : text := lower_from [] s.

Fixpoint starts_with (pat s : text) : bool :=
  match pat, s with
  | [], _ => true
  | c :: pat', d :: s' => N.eqb c d && starts_with pat' s'
  | _ :: _, [] => false
  end.

(** [pat in s] *)
Fixpoint contains (pat s : text) : bool :=
  starts_with pat s ||
  match s with [] => false | _ :: s' => contains pat s' end.

Fixpoint span (p : N -> bool) (s : text) : text * text :=
  match s with
  | c :: s' => if p c then let (a, b) := span p s' in (c :: a, b) else ([], s)
  | [] => ([], [])
  end.

(* ------------------------------------------------------------------ *)
(** ** types.py *)

Inductive Framework :=
  LARAVEL | SYMFONY | DJANGO | FLASK | FASTAPI | STATIC
| REACT | VUE | ANGULAR | NEXT | NUXT.

Inductive BackendLanguage :=
  PHP | PYTHON | RUBY | GO | JAVA | JAVASCRIPT | TYPESCRIPT.

Inductive ConfidenceLevel := HIGH | MEDIUM | LOW.

(** The order LOW < MEDIUM < HIGH of the spec's confidence scale. *)
Definition conf_rank (c : ConfidenceLevel) : nat :=
  match c with LOW => 0 | MEDIUM => 1 | HIGH => 2 end.

Definition conf_eqb (a b : ConfidenceLevel) : bool :=
  Nat.eqb (conf_rank a) (conf_rank b).

Record BackendDetectionResult := {
  detected : bool;
  confidence : ConfidenceLevel;
  indicators : list string;
  version : option text
}.

Record Expiration := { maxEntries : N; maxAgeSeconds : N }.

Record CacheOptions := {
  cacheName : string;
  networkTimeoutSeconds : option N;
  expiration : option Expiration
}.

Inductive Handler := CacheFirst | NetworkFirst | NetworkOnly | StaleWhileRevalidate.

Record RuntimeCachingRule := {
  urlPattern : string;
  handler : Handler;
  options : CacheOptions
}.

Record ServiceWorkerConfig := {
  precache : list string;
  runtime_caching : list RuntimeCachingRule;
  skip_waiting : bool;
  clients_claim : bool;
  navigation_preload : bool
}.

Record ValidationResult := {
  isValid : bool;
  errors : list string;
  warnings : list string;
  suggestions : list string
}.

(* ------------------------------------------------------------------ *)
(** ** The environment: filesystem, exceptions, and the [Py] monad *)

(** OS error numbers that can come out of [os.stat]. *)
Inductive errno := ENOENT | ENOTDIR | EBADF | ELOOP | EACCES | EIO | EISDIR.

(** The result of [os.stat] on a path. *)
Inductive stat_result := StFile | StDir | StErr (e : errno).

(** Python exceptions that the modelled code can see. *)
Inductive exn :=
| OSError (e : errno)
| UnicodeDecodeError.

Record FS := {
  fs_stat : string -> stat_result;
  (** [Path.read_text(encoding="utf-8")]: the text, or the exception. *)
  fs_read : string -> sum exn text
}.

Inductive Result (A : Type) := Ok (a : A) | Raise (e : exn).
Arguments Ok {A} a.
Arguments Raise {A} e.

Definition Py (A : Type) := FS -> Result A.

Definition ret {A} (a : A) : Py A := fun _ => Ok a.
Definition bind {A B} (m : Py A) (k : A -> Py B) : Py B :=
  fun fs => match m fs with Ok a => k a fs | Raise e => Raise e end.
Definition raise {A} (e : exn) : Py A := fun _ => Raise e.

(** [try: m except Exception: h] *)
Definition try_except {A} (m : Py A) (h : exn -> Py A) : Py A :=
  fun fs => match m fs with Ok a => Ok a | Raise e => h e fs end.

Notation "x <- m ;; k" := (bind m (fun x => k))
  (at level 61, m at next level, right associativity).

(** pathlib (CPython 3.9-3.12): [_ignore_error] lists the error numbers that
    [exists()] and [is_dir()] turn into [False]; any other [OSError] of
    [stat()] is re-raised. *)
Definition ignore_error (e : errno) : bool :=
  match e with ENOENT | ENOTDIR | EBADF | ELOOP => true | _ => false end.

Definition path_exists (p : string) : Py bool := fun fs =>
  match fs_stat fs p with
  | StFile | StDir => Ok true
  | StErr e => if ignore_error e then Ok false else Raise (OSError e)
  end.

Definition path_is_dir (p : string) : Py bool := fun fs =>
  match fs_stat fs p with
  | StDir => Ok true
  | StFile => Ok false
  | StErr e => if ignore_error e then Ok false else Raise (OSError e)
  end.

Definition path_read_text (p : string) : Py text := fun fs =>
  match fs_read fs p with inl e => Raise e | inr s => Ok s end.

(** [Path(project_path) / path] *)
Definition join (root p : string) : string := (root ++ "/" ++ p)%string.

(* ------------------------------------------------------------------ *)
(** ** base.py *)

Inductive Kind := KDjango | KFlask.

(** An integration instance: its class and the [project_path] it was built
    with. *)
Record Integration := { kind : Kind; project_path : string }.

Definition _file_exists (self : Integration) (path : string) : Py bool :=
  path_exists (join (project_path self) path).

Definition _dir_exists (self : Integration) (path : string) : Py bool :=
  path_is_dir (join (project_path self) path).

Definition _read_file (self : Integration) (path : string) : Py text :=
  path_read_text (join (project_path self) path).

(** Python's short-circuit [a or b] and [a and b] on effectful operands. *)
Definition or_else (a b : Py bool) : Py bool :=
  x <- a ;; if x then ret true else b.
Definition and_then (a b : Py bool) : Py bool :=
  x <- a ;; if x then b else ret false.

(* ------------------------------------------------------------------ *)
(** ** django.py: [_extract_django_version_from_requirements]

    [re.search(r"Django[>=<~!]*(\d+)(?:\.(\d+))?(?:\.(\d+))?", content,
    re.IGNORECASE)], written out as the backtracking matcher it amounts to:
    the operator class contains no digit, so the greedy [[>=<~!]*] never has
    to give back characters; everything after [(\d+)] is optional, so the
    greedy digit runs are kept. *)

(** Case-insensitive literal prefix: the rest of [s] after [pat]. *)
Fixpoint ci_prefix (pat s : text) : option text :=
  match pat, s with
  | [], _ => Some s
  | p :: pat', c :: s' => if lit_match p c then ci_prefix pat' s' else None
  | _ :: _, [] => None
  end.

(** [[>=<~!]]: its members are uncased, so IGNORECASE compiles it to a plain
    [IN]. *)
Definition is_op (c : N) : bool :=
  existsb (N.eqb c) (chars ">=<~!").

(** [\.], an uncased literal *)
Definition dot : N := N_of_ascii "."%char.

(** [(?:\.(\d+))?] *)
Definition opt_dot_group (s : text) : option text * text :=
  match s with
  | c :: d :: _ =>
      if N.eqb c dot && is_digit d
      then let (ds, r) := span is_digit (tl s) in (Some ds, r)
      else (None, s)
  | _ => (None, s)
  end.

Definition version_match : Type := (text * option text * option text)%type.

(** The pattern, anchored at the start of [s], for framework name [name];
    groups 1, 2, 3. *)
Definition version_match_at (name s : text) : option version_match :=
  match ci_prefix name s with
  | None => None
  | Some r =>
      let (_, r1) := span is_op r in
      let (major, r2) := span is_digit r1 in
      match major with
      | [] => None
      | _ =>
          let (minor, r3) := opt_dot_group r2 in
          let (patch, _) := opt_dot_group r3 in
          Some (major, minor, patch)
      end
  end.

(** [re.search]: the leftmost position where the pattern matches. *)
Fixpoint version_search (name s : text) : option version_match :=
  match version_match_at name s with
  | Some m => Some m
  | None => match s with [] => None | _ :: s' => version_search name s' end
  end.

(** [match.group(k) or "0"] *)
Definition group_or_zero (g : option text) : text :=
  match g with Some ds => ds | None => chars "0" end.

(** [f"{major}.{minor}.{patch}"] *)
Definition format_version (m : version_match) : text :=
  let '(major, minor, patch) := m in
  major ++ dot :: group_or_zero minor ++ dot :: group_or_zero patch.

Definition _extract_django_version_from_requirements (content : text)
  : option text :=
  match version_search (chars "Django") content with
  | Some m => Some (format_version m)
  | None => None
  end.

(* ------------------------------------------------------------------ *)
(** ** detect(): the local variables, and one block per [if] of the source *)

Record DetState := { ind : list string; conf : ConfidenceLevel; ver : option text }.

Definition init_state : DetState := {| ind := []; conf := LOW; ver := None |}.

(** [indicators.append(label)] *)
Definition add_indicator (label : string) (st : DetState) : DetState :=
  {| ind := ind st ++ [label]; conf := conf st; ver := ver st |}.

Definition set_conf (c : ConfidenceLevel) (st : DetState) : DetState :=
  {| ind := ind st; conf := c; ver := ver st |}.

Definition set_ver (v : option text) (st : DetState) : DetState :=
  {| ind := ind st; conf := conf st; ver := v |}.

(** [if confidence == ConfidenceLevel.MEDIUM: confidence = ConfidenceLevel.HIGH] *)
Definition escalate (st : DetState) : DetState :=
  if conf_eqb (conf st) MEDIUM then set_conf HIGH st else st.

Definition block := DetState -> Py DetState.

Fixpoint run_blocks (bs : list block) (st : DetState) : Py DetState :=
  match bs with
  | [] => ret st
  | b :: bs' => st' <- b st ;; run_blocks bs' st'
  end.

(** The same run, recording the local state before the first block and after
    each block. *)
Fixpoint trace_blocks (bs : list block) (st : DetState) : Py (list DetState) :=
  match bs with
  | [] => ret [st]
  | b :: bs' => st' <- b st ;; tr <- trace_blocks bs' st' ;; ret (st :: tr)
  end.

Definition finish (st : DetState) (v : option text) : BackendDetectionResult :=
  {| detected := 0 <? List.length (ind st);
     confidence := conf st;
     indicators := ind st;
     version := v |}.

Module Django.

Definition blk_manage (self : Integration) : block := fun st =>
  b <- _file_exists self "manage.py" ;;
  if b then ret (set_conf MEDIUM (add_indicator "manage.py" st)) else ret st.

Definition blk_settings (self : Integration) : block := fun st =>
  b <- or_else (_file_exists self "settings.py") (_dir_exists self "settings") ;;
  if b then ret (escalate (add_indicator "settings.py or settings/" st))
  else ret st.

Definition blk_urls (self : Integration) : block := fun st =>
  b <- _file_exists self "urls.py" ;;
  if b then ret (escalate (add_indicator "urls.py" st)) else ret st.

Definition blk_requirements (self : Integration) : block := fun st =>
  b <- _file_exists self "requirements.txt" ;;
  if b then
    try_except
      (content <- _read_file self "requirements.txt" ;;
       if contains (chars "Django") content || contains (chars "django") content
       then ret (escalate
                   (set_ver (_extract_django_version_from_requirements content)
                      (add_indicator "requirements.txt: Django" st)))
       else ret st)
      (fun _ => ret st)
  else ret st.

Definition blk_pyproject (self : Integration) : block := fun st =>
  b <- _file_exists self "pyproject.toml" ;;
  if b then
    try_except
      (content <- _read_file self "pyproject.toml" ;;
       if contains (chars "django") (lower content)
       then ret (escalate (add_indicator "pyproject.toml: django" st))
       else ret st)
      (fun _ => ret st)
  else ret st.

Definition blocks (self : Integration) : list block :=
  [blk_manage self; blk_settings self; blk_urls self;
   blk_requirements self; blk_pyproject self].

Definition detect (self : Integration) : Py BackendDetectionResult :=
  st <- run_blocks (blocks self) init_state ;;
  ret (finish st (ver st)).

End Django.

Module Flask.

Definition blk_app (self : Integration) : block := fun st =>
  b <- or_else (_file_exists self "app.py") (_file_exists self "application.py") ;;
  if b then ret (set_conf MEDIUM (add_indicator "app.py or application.py" st))
  else ret st.

Definition blk_requirements (self : Integration) : block := fun st =>
  b <- _file_exists self "requirements.txt" ;;
  if b then
    try_except
      (content <- _read_file self "requirements.txt" ;;
       if contains (chars "Flask") content || contains (chars "flask") content
       then ret (escalate (add_indicator "requirements.txt: Flask" st))
       else ret st)
      (fun _ => ret st)
  else ret st.

Definition blk_structure (self : Integration) : block := fun st =>
  b <- or_else (_dir_exists self "templates") (_dir_exists self "static") ;;
  if b then ret (escalate (add_indicator "Flask structure (templates/ or static/)" st))
  else ret st.

Definition blocks (self : Integration) : list block :=
  [blk_app self; blk_requirements self; blk_structure self].

(** Flask's result has [version: None] written out. *)
Definition detect (self : Integration) : Py BackendDetectionResult :=
  st <- run_blocks (blocks self) init_state ;;
  ret (finish st None).

End Flask.

Definition blocks (self : Integration) : list block :=
  match kind self with KDjango => Django.blocks self | KFlask => Flask.blocks self end.

Definition detect (self : Integration) : Py BackendDetectionResult :=
  match kind self with KDjango => Django.detect self | KFlask => Flask.detect self end.

(** The [id] property of each integration class. *)
Definition id (self : Integration) : string :=
  match kind self with KDjango => "django"%string | KFlask => "flask"%string end.

(* ------------------------------------------------------------------ *)
(** ** generate_service_worker_config() *)

Definition rule (pat : string) (h : Handler) (name : string)
  (timeout : option N) (exp : option Expiration) : RuntimeCachingRule :=
  {| urlPattern := pat; handler := h;
     options := {| cacheName := name; networkTimeoutSeconds := timeout;
                   expiration := exp |} |}.

Definition exp (n a : N) : option Expiration :=
  Some {| maxEntries := n; maxAgeSeconds := a |}.

Definition django_runtime_caching : list RuntimeCachingRule :=
  [ rule "/static/**" CacheFirst "django-static-cache" None (exp 100 (86400 * 30));
    rule "/media/**" CacheFirst "django-media-cache" None (exp 50 (86400 * 7));
    rule "/api/**" NetworkFirst "django-api-cache" (Some 3%N) (exp 50 300);
    rule "/admin/**" NetworkOnly "django-admin-cache" None None ].

Definition flask_runtime_caching : list RuntimeCachingRule :=
  [ rule "/static/**" CacheFirst "flask-static-cache" None (exp 100 (86400 * 30));
    rule "/api/**" NetworkFirst "flask-api-cache" (Some 3%N) (exp 50 300) ].

(** The Python method reads nothing but [self]; it is not in [Py]. *)
Definition generate_service_worker_config (self : Integration) : ServiceWorkerConfig :=
  {| precache := [];
     runtime_caching :=
       match kind self with
       | KDjango => django_runtime_caching
       | KFlask => flask_runtime_caching
       end;
     skip_waiting := true;
     clients_claim := true;
     navigation_preload := false |}.

(* ------------------------------------------------------------------ *)
(** ** validate_setup() *)

Record Findings := { errs : list string; warns : list string; suggs : list string }.

Definition no_findings : Findings := {| errs := []; warns := []; suggs := [] |}.

Definition add_error (m : string) (f : Findings) : Findings :=
  {| errs := errs f ++ [m]; warns := warns f; suggs := suggs f |}.
Definition add_warning (m : string) (f : Findings) : Findings :=
  {| errs := errs f; warns := warns f ++ [m]; suggs := suggs f |}.
Definition add_suggestion (m : string) (f : Findings) : Findings :=
  {| errs := errs f; warns := warns f; suggs := suggs f ++ [m] |}.

(** [not a and not b], short-circuit *)
Definition neither (a b : Py bool) : Py bool :=
  x <- a ;; if x then ret false else (y <- b ;; ret (negb y)).

Definition report (f : Findings) : ValidationResult :=
  {| isValid := Nat.eqb (List.length (errs f)) 0;
     errors := errs f; warnings := warns f; suggestions := suggs f |}.

Module DjangoValidate.

Definition chk_settings (self : Integration) (f : Findings) : Py Findings :=
  b <- neither (_file_exists self "settings.py") (_dir_exists self "settings") ;;
  if b then ret (add_error "Django settings.py or settings/ directory not found" f)
  else ret f.

Definition chk_static (self : Integration) (f : Findings) : Py Findings :=
  b <- _file_exists self "settings.py" ;;
  if b then
    try_except
      (content <- _read_file self "settings.py" ;;
       let f1 := if contains (chars "STATIC_URL") content then f
                 else add_warning "STATIC_URL not found in settings.py" f in
       let f2 := if contains (chars "STATIC_ROOT") content then f1
                 else add_suggestion "Consider setting STATIC_ROOT for production" f1 in
       ret f2)
      (fun _ => ret f)
  else ret f.

Definition chk_urls (self : Integration) (f : Findings) : Py Findings :=
  b <- _file_exists self "urls.py" ;;
  if b then ret f else ret (add_warning "urls.py not found in project root" f).

Definition validate_setup (self : Integration) : Py ValidationResult :=
  f1 <- chk_settings self no_findings ;;
  f2 <- chk_static self f1 ;;
  f3 <- chk_urls self f2 ;;
  ret (report f3).

End DjangoValidate.

Module FlaskValidate.

Definition chk_app (self : Integration) (f : Findings) : Py Findings :=
  b <- neither (_file_exists self "app.py") (_file_exists self "application.py") ;;
  if b then ret (add_warning "app.py or application.py not found" f) else ret f.

Definition validate_setup (self : Integration) : Py ValidationResult :=
  f1 <- chk_app self no_findings ;;
  ret (report f1).

End FlaskValidate.

Definition validate_setup (self : Integration) : Py ValidationResult :=
  match kind self with
  | KDjango => DjangoValidate.validate_setup self
  | KFlask => FlaskValidate.validate_setup self
  end.

(* ------------------------------------------------------------------ *)
(** ** The service-worker client's rule resolution *)

(** Modelled from the spec: the client that consumes [runtime_caching] is not
    part of this repository. §3: "a client matches the first rule whose
    pattern matches a request path"; patterns are glob strings. Glob
    semantics: [**] matches any sequence of characters, [*] any sequence
    without ['/'], every other character itself. *)
Definition star : N := N_of_ascii "*"%char.
Definition slash : N := N_of_ascii "/"%char.

Fixpoint glob_match (p s : text) : bool :=
  match p with
  | [] => match s with [] => true | _ => false end
  | c :: p' =>
      if N.eqb c star then
        match p' with
        | c' :: p'' =>
            if N.eqb c' star then
              (fix any (t : text) : bool :=
                 glob_match p'' t || match t with [] => false | _ :: t' => any t' end) s
            else
              (fix seg (t : text) : bool :=
                 glob_match p' t ||
                 match t with
                 | [] => false
                 | d :: t' => negb (N.eqb d slash) && seg t'
                 end) s
        | [] => forallb (fun d => negb (N.eqb d slash)) s
        end
      else
        match s with
        | [] => false
        | d :: s' => N.eqb c d && glob_match p' s'
        end
  end.

(** Modelled from the spec: first-match resolution of a request path. *)
Fixpoint resolve (rules : list RuntimeCachingRule) (path : text)
  : option RuntimeCachingRule :=
  match rules with
  | [] => None
  | r :: rs => if glob_match (chars (urlPattern r)) path then Some r else resolve rs path
  end.

(* ------------------------------------------------------------------ *)
(** ** http.py and client.py: the exception flow of scan/generate/validate *)

Module Client.
Local Open Scope string_scope.
Local Open Scope list_scope.

Inductive json :=
| JNull | JBool (b : bool) | JNum (n : N) | JStr (s : string)
| JArr (xs : list json) | JObj (kvs : list (string * json)).

(** What [requests.Session.post] does for one call: raise [Timeout], raise
    [ConnectionError], raise some other exception, or return a response with
    a status code, a body, and the outcome of [response.json()]. *)
Inductive req_outcome :=
| ReqTimeout
| ReqConnectionError
| ReqOtherError
| ReqResponse (status : N) (text : string) (body : option json).

(** exceptions.py, with the cause each wrapper's message embeds. *)
Inductive sdk_exn :=
| HttpException
| ApiUnreachableException
| TimeoutException
| ResultModelError
| ScanException (cause : sdk_exn)
| GenerationException (cause : sdk_exn)
| ValidationException (cause : sdk_exn).

(** The transport-failure kinds [HttpClient.post] documents. *)
Definition is_transport_failure (e : sdk_exn) : bool :=
  match e with
  | HttpException | ApiUnreachableException | TimeoutException => true
  | _ => false
  end.

(** The network: the outcome of a POST to a URL with a JSON body. *)
Definition Net := string -> json -> req_outcome.

Record HttpClient := { api_endpoint : string; timeout : N }.

(** [HttpClient.post]; [raise_for_status] raises for 4xx and 5xx. *)
Definition post (c : HttpClient) (net : Net) (path : string) (data : json)
  : sum sdk_exn json :=
  let url := (api_endpoint c ++ path)%string in
  match net url data with
  | ReqTimeout => inl TimeoutException
  | ReqConnectionError => inl ApiUnreachableException
  | ReqOtherError => inl HttpException
  | ReqResponse status _ body =>
      if (400 <=? status)%N && (status <? 600)%N then inl HttpException
      else match body with
           | Some j => inr j
           | None => inl HttpException
           end
  end.

(** [Model( **response)]: the response must be an object holding the model's
    required fields. *)
Definition build_model (required : list string) (resp : json) : sum sdk_exn json :=
  match resp with
  | JObj kvs =>
      if forallb (fun k => existsb (fun kv => String.eqb (fst kv) k) kvs) required
      then inr resp else inl ResultModelError
  | _ => inl ResultModelError
  end.

Record Config := { project_root : string; auto_detect_backend : bool;
                   config_dump : list (string * json) }.

Record UniversalPwaClient := { config : Config; http_client : HttpClient }.

(** [dict.update]: keys of [upd] override, new keys are appended. *)
Definition dict_update (d upd : list (string * json)) : list (string * json) :=
  map (fun kv => match find (fun kv' => String.eqb (fst kv') (fst kv)) upd with
                 | Some kv' => kv' | None => kv end) d
  ++ filter (fun kv => negb (existsb (fun kv' => String.eqb (fst kv') (fst kv)) d)) upd.

(** [try: ... except Exception as e: raise Wrap(...)] *)
Definition wrap (w : sdk_exn -> sdk_exn) (r : sum sdk_exn json) : sum sdk_exn json :=
  match r with inl e => inl (w e) | inr j => inr j end.

Definition bind_sum (r : sum sdk_exn json) (k : json -> sum sdk_exn json) :=
  match r with inl e => inl e | inr j => k j end.

Definition scan_request (self : UniversalPwaClient) : json :=
  JObj [("projectRoot", JStr (project_root (config self)));
        ("autoDetectBackend", JBool (auto_detect_backend (config self)))].

Definition scan (self : UniversalPwaClient) (net : Net) : sum sdk_exn json :=
  wrap ScanException
    (bind_sum (post (http_client self) net "/api/scan" (scan_request self))
       (build_model ["framework"; "features"; "assets"])).

(** [merged = self.config.model_dump(); if config: merged.update(config)] *)
Definition generate_request (self : UniversalPwaClient)
  (override : option (list (string * json))) : json :=
  let merged := match override with
                | Some ((_ :: _) as o) => dict_update (config_dump (config self)) o
                | _ => config_dump (config self)
                end in
  JObj [("config", JObj merged)].

Definition generate (self : UniversalPwaClient) (net : Net)
  (override : option (list (string * json))) : sum sdk_exn json :=
  wrap GenerationException
    (bind_sum (post (http_client self) net "/api/generate" (generate_request self override))
       (build_model ["success"; "manifest"; "service_worker"])).

Definition validate_request (self : UniversalPwaClient) : json :=
  JObj [("projectRoot", JStr (project_root (config self)))].

Definition validate (self : UniversalPwaClient) (net : Net) : sum sdk_exn json :=
  wrap ValidationException
    (bind_sum (post (http_client self) net "/api/validate" (validate_request self))
       (build_model ["valid"; "score"])).

(** [str.rstrip(ch)]: [strip_leading] drops the leading run of [ch] of the
    reversed text. *)
Fixpoint strip_leading (ch : ascii) (s : list ascii) : list ascii :=
  match s with
  | c :: s' => if Ascii.eqb c ch then strip_leading ch s' else s
  | [] => []
  end.

Definition rstrip (ch : ascii) (s : string) : string :=
  string_of_list_ascii (rev (strip_leading ch (rev (list_ascii_of_string s)))).

(** [HttpClient.__init__]: the endpoint without trailing slashes, and the
    timeout; the session and its retry policy are left out. *)
Definition make_http_client (api_endpoint : string) (timeout : N) : HttpClient :=
  {| api_endpoint := rstrip "/"%char api_endpoint; timeout := timeout |}.

(** What can leave [UniversalPwaClient.__init__]: the [ConfigException] it
    raises, or an exception of [Path.exists()]. *)
Inductive init_error := ConfigException | InitRaise (e : exn).

(** [UniversalPwaClient.__init__] for a [Config] instance: [api_endpoint] and
    [timeout] are the fields of that name of [self.config], which the record
    [Config] above does not carry. *)
Definition client_init (cfg : Config) (api_endpoint : string) (timeout : N) (fs : FS)
  : sum init_error UniversalPwaClient :=
  match path_exists (project_root cfg) fs with
  | Raise e => inl (InitRaise e)
  | Ok false => inl ConfigException
  | Ok true => inr {| config := cfg; http_client := make_http_client api_endpoint timeout |}
  end.

(** [d.get(k)] on a dict written as its list of items. *)
Definition dict_get (d : list (string * json)) (k : string) : option json :=
  match find (fun kv => String.eqb (fst kv) k) d with
  | Some kv => Some (snd kv)
  | None => None
  end.

End Client.

(* ------------------------------------------------------------------ *)
(** ** Concrete project trees *)

(** A tree of readable files and directories under project root ["p"];
    everything else is absent. *)
Definition tree (files : list (string * string)) (dirs : list string) : FS :=
  {| fs_stat := fun q =>
       if existsb (fun f => String.eqb (join "p" (fst f)) q) files then StFile
       else if existsb (fun d => String.eqb (join "p" d) q) dirs then StDir
       else StErr ENOENT;
     fs_read := fun q =>
       match find (fun f => String.eqb (join "p" (fst f)) q) files with
       | Some f => inr (chars (snd f))
       | None => inl (OSError ENOENT)
       end |}.

Definition django_at : Integration := {| kind := KDjango; project_path := "p" |}.
Definition flask_at : Integration := {| kind := KFlask; project_path := "p" |}.

(* ------------------------------------------------------------------ *)
(** ** The version token of §4.3, in the spec's words *)

(** An optional [.digits] component as it appears in the text. *)
Definition dotted (g : option text) : text :=
  match g with None => [] | Some ds => dot :: ds end.

(** Made of decimal digits: Unicode category Nd, what [\d] means for text. *)
Definition all_digits (s : text) : bool := forallb is_digit s.

Definition digit_head (s : text) : bool :=
  match s with c :: _ => is_digit c | [] => false end.

Definition dot_digit (s : text) : bool :=
  match s with c :: d :: _ => N.eqb c dot && is_digit d | _ => false end.

(** [nm] spells [pat] in any case, as [re.IGNORECASE] compares letters. *)
Fixpoint ci_word (pat nm : text) : bool :=
  match pat, nm with
  | [], [] => true
  | p :: pat', c :: nm' => lit_match p c && ci_word pat' nm'
  | _, _ => false
  end.

(** A component is absent only when the text does not continue with
    [.digit]; a present one is a whole run of digits. *)
Definition group_ok (g : option text) (rest : text) : Prop :=
  match g with
  | None => dot_digit rest = false
  | Some ds => ds <> [] /\ all_digits ds = true /\ digit_head rest = false
  end.

(** Some text starts with the framework name (any case), a run of
    comparison-operator characters, and a number. *)
Definition starts_token (s : text) : Prop :=
  exists nm ops d rest,
    s = nm ++ ops ++ d ++ rest /\ ci_word (chars "Django") nm = true /\
    forallb is_op ops = true /\ d <> [] /\ all_digits d = true.

(** The token read off [s] with its dotted version: whole components,
    minor before patch. *)
Definition version_token (s major : text) (minor patch : option text)
  (rest : text) : Prop :=
  exists nm ops,
    s = nm ++ ops ++ major ++ dotted minor ++ dotted patch ++ rest /\
    ci_word (chars "Django") nm = true /\ forallb is_op ops = true /\
    major <> [] /\ all_digits major = true /\
    digit_head (dotted minor ++ dotted patch ++ rest) = false /\
    group_ok minor (dotted patch ++ rest) /\ group_ok patch rest /\
    (minor = None -> patch = None).

(** ["{major}.{minor}.{patch}"] with ["0"] for a missing component. *)
Definition normalized (major : text) (minor patch : option text) : text :=
  major ++ chars "." ++ (match minor with Some m => m | None => chars "0" end)
        ++ chars "." ++ (match patch with Some p => p | None => chars "0" end).

(* ------------------------------------------------------------------ *)
(** ** Version and error behaviour of detect(), as the claims state them *)

(** §4.3 read for any framework name: the version the manifest text
    carries for [name], by the extractor's pattern with [name] in place of
    [Django]. *)
Definition manifest_version (name content : text) : option text :=
  match version_search name content with
  | Some m => Some (format_version m)
  | None => None
  end.

(** Where Django's [detect()] takes its version from: [requirements.txt],
    when it exists, reads, and mentions Django. *)
Definition requirements_version (self : Integration) (fs : FS) : option text :=
  let q := join (project_path self) "requirements.txt" in
  match fs_stat fs q, fs_read fs q with
  | (StFile | StDir), inr content =>
      if contains (chars "Django") content || contains (chars "django") content
      then _extract_django_version_from_requirements content
      else None
  | _, _ => None
  end.




(** A client configured for project ["p"], talking to an API that times out. *)
Definition sample_client : Client.UniversalPwaClient :=
  {| Client.config := {| Client.project_root := "p"; Client.auto_detect_backend := true;
                         Client.config_dump := [] |};
     Client.http_client := {| Client.api_endpoint := "http://localhost:3000";
                              Client.timeout := 30%N |} |}.

Definition timing_out : Client.Net := fun _ _ => Client.ReqTimeout.

(* ------------------------------------------------------------------ *)
(** ** Predicates used in the proofs *)

(** A step of a corroborating block: confidence is kept, or raised from
    MEDIUM to HIGH. *)
Definition corr_step (a b : DetState) : Prop :=
  conf b = conf a \/ (conf a = MEDIUM /\ conf b = HIGH).

(** A block leaves the locals alone or appends exactly one indicator. *)
Definition grows (a b : DetState) : Prop :=
  b = a \/ exists l, ind b = ind a ++ [l].

Definition corroborating (b : block) : Prop :=
  forall st fs st', b st fs = Ok st' -> corr_step st st' /\ grows st st'.

Definition well_behaved (b : block) : Prop :=
  forall st fs st', b st fs = Ok st' -> grows st st'.

(** The primary-marker blocks: nothing changes, or one indicator is added and
    confidence is set to MEDIUM. *)
Definition primary (b : block) : Prop :=
  forall st fs st', b st fs = Ok st' ->
    st' = st \/ (conf st' = MEDIUM /\ exists l, ind st' = ind st ++ [l]).

(** One step of confidence along a run: it does not go down, and it reaches
    HIGH only from MEDIUM. *)
Definition step_ok (a b : DetState) : Prop :=
  conf_rank (conf a) <= conf_rank (conf b) /\
  (conf b = HIGH -> conf a <> HIGH -> conf a = MEDIUM).

Fixpoint trace_ok (tr : list DetState) : Prop :=
  match tr with
  | a :: ((b :: _) as tl) => step_ok a b /\ trace_ok tl
  | _ => True
  end.

(** No indicator, no confidence: kept by every well-behaved block. *)
Definition quiet_inv (st : DetState) : Prop := ind st = [] -> conf st = LOW.

(** The primary marker of an integration is absent from the tree: [stat]
    reports a "not found"-type error for it. *)
Definition absent (fs : FS) (q : string) : Prop :=
  exists e, fs_stat fs q = StErr e /\ ignore_error e = true.

Definition primary_absent (self : Integration) (fs : FS) : Prop :=
  match kind self with
  | KDjango => absent fs (join (project_path self) "manage.py")
  | KFlask => absent fs (join (project_path self) "app.py") /\
              absent fs (join (project_path self) "application.py")
  end.

Definition admin_rule : RuntimeCachingRule :=
  rule "/admin/**" NetworkOnly "django-admin-cache" None None.

Definition keeps_ver (b : block) : Prop :=
  forall st fs st', b st fs = Ok st' -> ver st' = ver st.

(** An exception escapes from [stat]: a path whose [stat] fails with an
    error number pathlib does not swallow. *)
Definition stat_escape (fs : FS) (e : exn) : Prop :=
  exists q x, e = OSError x /\ fs_stat fs q = StErr x /\ ignore_error x = false.


(** What [stat] reports at [q]: something, or a directory. *)
Definition stat_exists (fs : FS) (q : string) : bool :=
  match fs_stat fs q with StFile | StDir => true | StErr _ => false end.

Definition stat_is_dir (fs : FS) (q : string) : bool :=
  match fs_stat fs q with StDir => true | _ => false end.

(** The text at [q], when [stat] finds it and it reads. *)
Definition readable_text (fs : FS) (q : string) : option text :=
  if stat_exists fs q then match fs_read fs q with inr c => Some c | inl _ => None end
  else None.

(** The labels [detect()] can append, in the order of its checks; the first is
    the primary marker's. *)
Definition labels (self : Integration) : list string :=
  match kind self with
  | KDjango => ["manage.py"; "settings.py or settings/"; "urls.py";
                "requirements.txt: Django"; "pyproject.toml: django"]%string
  | KFlask => ["app.py or application.py"; "requirements.txt: Flask";
               "Flask structure (templates/ or static/)"]%string
  end.

Definition primary_label (self : Integration) : string := hd ""%string (labels self).

(** [l] is [l'] with some elements left out, the others in order. *)
Inductive subseq {A : Type} : list A -> list A -> Prop :=
| subseq_nil : subseq [] []
| subseq_skip x l l' : subseq l l' -> subseq l (x :: l')
| subseq_take x l l' : subseq l l' -> subseq (x :: l) (x :: l').

(** The confidence an indicator list stands for, with primary marker [p]:
    MEDIUM for [p] alone, HIGH for [p] followed by more, LOW otherwise. *)
Definition conf_from (p : string) (l : list string) : ConfidenceLevel :=
  match l with
  | p' :: rest => if String.eqb p' p then match rest with [] => MEDIUM | _ => HIGH end
                  else LOW
  | [] => LOW
  end.

(** A corroborating block of label [l]: nothing changes, or [l] is appended
    and the confidence escalated. *)
Definition appends (l : string) (b : block) : Prop :=
  forall st fs st', b st fs = Ok st' ->
    st' = st \/ (ind st' = ind st ++ [l] /\ conf st' = conf (escalate st)).

(** The primary block of label [l]: nothing changes, or [l] is appended and
    the confidence set to MEDIUM. *)
Definition appends_primary (l : string) (b : block) : Prop :=
  forall st fs st', b st fs = Ok st' ->
    st' = st \/ (ind st' = ind st ++ [l] /\ conf st' = MEDIUM).

(** Code points the extractor's pattern cannot tell apart: the same answer
    to every letter of [Django], to [[>=<~!]] and to [\.], and the same
    digit. *)
Definition same_class (c c' : N) : bool :=
  forallb (fun p => Bool.eqb (lit_match p c) (lit_match p c')) (chars "Django") &&
  Bool.eqb (is_op c) (is_op c') && Bool.eqb (N.eqb c dot) (N.eqb c' dot) &&
  (if is_digit c || is_digit c' then N.eqb c c' else true).

(** Code points that no part of the pattern matches. *)
Definition inert (c : N) : bool :=
  forallb (fun p => negb (lit_match p c)) (chars "Django") &&
  negb (is_op c) && negb (N.eqb c dot) && negb (is_digit c).

(** The full lowercase of a code point keeps its class: one code point of the
    same class, or only inert code points in place of an inert one. *)
Definition lower_keeps_class (c : N) : bool :=
  match lower_full c with
  | [c'] => same_class c c'
  | l => inert c && forallb inert l && negb (Nat.eqb (List.length l) 0)
  end.

(** Two texts the pattern sees alike: position by position the same class,
    except that an inert code point may stand for a non-empty run of inert
    ones. *)
Inductive alike : text -> text -> Prop :=
| alike_nil : alike [] []
| alike_same c c' s t :
    same_class c c' = true -> alike s t -> alike (c :: s) (c' :: t)
| alike_inert c xs s t :
    inert c = true -> xs <> [] -> forallb inert xs = true -> alike s t ->
    alike (c :: s) (xs ++ t).

Definition alike_opt (o1 o2 : option text) : Prop :=
  match o1, o2 with
  | Some a, Some b => alike a b
  | None, None => True
  | _, _ => False
  end.

(* ================================================================== *)
(** * Proofs *)

(** ** Inverting runs of the [Py] monad *)

Ltac py_unfold :=
  unfold or_else, and_then, neither, _file_exists, _dir_exists, _read_file,
    path_exists, path_is_dir, path_read_text, bind, ret, try_except, raise in *.

(** Split every [match] a hypothesis or the goal is stuck on. *)
Ltac py_cases :=
  repeat match goal with
  | H : context [match ?x with _ => _ end] |- _ => destruct x eqn:?
  | |- context [match ?x with _ => _ end] => destruct x eqn:?
  | H : Ok _ = Ok _ |- _ => injection H as H; subst
  | H : Ok _ = Raise _ |- _ => discriminate H
  | H : Raise _ = Ok _ |- _ => discriminate H
  end.

(** ** Confidence steps *)

Lemma corr_step_refl st : corr_step st st.
Proof. left; reflexivity. Qed.

Lemma corr_step_escalate st x :
  conf x = conf st -> corr_step st (escalate x).
Proof.
  intros Hx; unfold corr_step, escalate, conf_eqb.
  destruct (conf x) eqn:E; simpl; rewrite ?E; simpl;
    [left; congruence | right; split; [congruence | reflexivity] | left; congruence].
Qed.

Lemma grows_escalate st l : exists l', ind (escalate (add_indicator l st)) = ind st ++ [l'].
Proof. exists l; unfold escalate; destruct (conf_eqb _ _); reflexivity. Qed.

Lemma grows_escalate_ver st l v :
  exists l', ind (escalate (set_ver v (add_indicator l st))) = ind st ++ [l'].
Proof. exists l; unfold escalate; destruct (conf_eqb _ _); reflexivity. Qed.

Ltac corr_close :=
  try (split; [apply corr_step_refl | left; reflexivity]);
  try (split; [apply corr_step_escalate; reflexivity
              | right; first [apply grows_escalate | apply grows_escalate_ver]]).

Lemma django_corroborating self :
  Forall corroborating (tl (Django.blocks self)).
Proof.
  simpl; repeat apply Forall_cons; try apply Forall_nil; intros st fs st' H;
    unfold Django.blk_settings, Django.blk_urls, Django.blk_requirements,
      Django.blk_pyproject in H;
    py_unfold; py_cases; corr_close.
Qed.

Lemma flask_corroborating self :
  Forall corroborating (tl (Flask.blocks self)).
Proof.
  simpl; repeat apply Forall_cons; try apply Forall_nil; intros st fs st' H;
    unfold Flask.blk_requirements, Flask.blk_structure in H;
    py_unfold; py_cases; corr_close.
Qed.

Lemma corroborating_well_behaved b : corroborating b -> well_behaved b.
Proof. intros Hb st fs st' H; apply (Hb st fs st' H). Qed.

Lemma django_primary self : primary (hd (fun st _ => Ok st) (Django.blocks self)).
Proof.
  intros st fs st' H; simpl in H; unfold Django.blk_manage in H;
    py_unfold; py_cases; auto;
  right; split; try reflexivity; eexists; reflexivity.
Qed.

Lemma flask_primary self : primary (hd (fun st _ => Ok st) (Flask.blocks self)).
Proof.
  intros st fs st' H; simpl in H; unfold Flask.blk_app in H;
    py_unfold; py_cases; auto;
  right; split; try reflexivity; eexists; reflexivity.
Qed.

Lemma primary_well_behaved b : primary b -> well_behaved b.
Proof.
  intros Hb st fs st' H; destruct (Hb st fs st' H) as [E | [_ E]];
    [left; exact E | right; exact E].
Qed.

(** ** Runs and traces of blocks *)

Lemma run_blocks_cons b bs st fs st' :
  run_blocks (b :: bs) st fs = Ok st' ->
  exists st1, b st fs = Ok st1 /\ run_blocks bs st1 fs = Ok st'.
Proof.
  simpl; unfold bind; destruct (b st fs) as [st1 | e]; intros H;
    [exists st1; split; [reflexivity | exact H] | discriminate H].
Qed.

Lemma last_nonempty_default {A} (l : list A) : forall (a d d' : A),
  last (a :: l) d = last (a :: l) d'.
Proof. induction l as [| x l IH]; intros a d d'; [reflexivity | apply IH]. Qed.

Lemma run_trace bs : forall st fs st',
  run_blocks bs st fs = Ok st' ->
  exists tr, trace_blocks bs st fs = Ok (st :: tr) /\ last (st :: tr) st = st'.
Proof.
  induction bs as [| b bs IH]; intros st fs st' H.
  - simpl in H; unfold ret in H; injection H as <-; exists []; split; reflexivity.
  - apply run_blocks_cons in H as [st1 [H1 H2]].
    destruct (IH st1 fs st' H2) as [tr [Htr Hlast]].
    exists (st1 :: tr); split.
    + simpl; unfold bind; rewrite H1, Htr; reflexivity.
    + rewrite <- Hlast; change (last (st1 :: tr) st = last (st1 :: tr) st1).
      apply last_nonempty_default.
Qed.

Lemma corr_step_ok a b : corr_step a b -> step_ok a b.
Proof.
  unfold step_ok; intros [E | [E1 E2]].
  - rewrite E; split; [lia | intros H1 H2; congruence].
  - rewrite E1, E2; simpl; split; [lia | reflexivity].
Qed.

Lemma trace_head bs : forall st fs tr,
  trace_blocks bs st fs = Ok tr -> exists tr', tr = st :: tr'.
Proof.
  destruct bs as [| b bs]; intros st fs tr H; simpl in H; unfold bind, ret in H.
  - injection H as <-; exists []; reflexivity.
  - destruct (b st fs); [| discriminate H].
    destruct (trace_blocks bs _ fs); [| discriminate H].
    injection H as <-; eexists; reflexivity.
Qed.

Lemma corr_trace_ok bs : Forall corroborating bs -> forall st fs tr,
  trace_blocks bs st fs = Ok tr -> trace_ok tr.
Proof.
  induction 1 as [| b bs Hb Hbs IH]; intros st fs tr H.
  - simpl in H; unfold ret in H; injection H as <-; exact I.
  - simpl in H; unfold bind in H.
    destruct (b st fs) as [st1 | e] eqn:E1; [| discriminate H].
    destruct (trace_blocks bs st1 fs) as [tr1 |] eqn:E2; [| discriminate H].
    injection H as <-.
    destruct (trace_head bs st1 fs tr1 E2) as [tr2 ->].
    split; [apply corr_step_ok, (proj1 (Hb st fs st1 E1)) | apply (IH st1 fs _ E2)].
Qed.

Lemma corr_low bs : Forall corroborating bs -> forall st fs st',
  run_blocks bs st fs = Ok st' -> conf st = LOW -> conf st' = LOW.
Proof.
  induction 1 as [| b bs Hb Hbs IH]; intros st fs st' H HL.
  - simpl in H; unfold ret in H; injection H as <-; exact HL.
  - apply run_blocks_cons in H as [st1 [H1 H2]].
    apply (IH st1 fs st' H2).
    destruct (proj1 (Hb st fs st1 H1)) as [E | [E _]]; congruence.
Qed.

Lemma well_behaved_inv bs : Forall well_behaved bs -> forall st fs st',
  run_blocks bs st fs = Ok st' -> quiet_inv st -> quiet_inv st'.
Proof.
  induction 1 as [| b bs Hb Hbs IH]; intros st fs st' H HI.
  - simpl in H; unfold ret in H; injection H as <-; exact HI.
  - apply run_blocks_cons in H as [st1 [H1 H2]].
    apply (IH st1 fs st' H2).
    destruct (Hb st fs st1 H1) as [-> | [l E]]; [exact HI |].
    intros E'; rewrite E in E'; destruct (ind st); discriminate E'.
Qed.

Lemma blocks_shape self :
  exists b1 bs, blocks self = b1 :: bs /\ primary b1 /\ Forall corroborating bs.
Proof.
  unfold blocks; destruct (kind self).
  - exists (hd (fun st _ => Ok st) (Django.blocks self)), (tl (Django.blocks self)).
    split; [reflexivity | split; [apply django_primary | apply django_corroborating]].
  - exists (hd (fun st _ => Ok st) (Flask.blocks self)), (tl (Flask.blocks self)).
    split; [reflexivity | split; [apply flask_primary | apply flask_corroborating]].
Qed.

(** [detect] is [run_blocks] followed by building the result. *)
Lemma detect_run self fs r :
  detect self fs = Ok r ->
  exists st, run_blocks (blocks self) init_state fs = Ok st /\
    confidence r = conf st /\ indicators r = ind st /\
    detected r = (0 <? List.length (ind st))%nat.
Proof.
  unfold detect, blocks, Django.detect, Flask.detect, bind, ret;
    destruct (kind self);
    destruct (run_blocks _ init_state fs) as [st |] eqn:E; intros H;
    try discriminate H; injection H as <-; exists st; auto.
Qed.

Lemma primary_absent_keeps self fs st' :
  primary_absent self fs ->
  hd (fun st _ => Ok st) (blocks self) init_state fs = Ok st' -> st' = init_state.
Proof.
  unfold primary_absent, absent, blocks; destruct (kind self) eqn:K.
  - intros [e [Hs He]] H; simpl in H; unfold Django.blk_manage in H; py_unfold.
    rewrite Hs, He in H; injection H as <-; reflexivity.
  - intros [[e [Hs He]] [e' [Hs' He']]] H; simpl in H; unfold Flask.blk_app in H;
      py_unfold.
    rewrite Hs, He, Hs', He' in H; injection H as <-; reflexivity.
Qed.

(** [C1] Within one run of [detect()] (Django or Flask) the confidence local
    starts at LOW, never decreases from one check to the next, and becomes
    HIGH only at a check where it was exactly MEDIUM; when the primary marker
    is absent the returned confidence is LOW, whatever corroborating signals
    were found. *)
Theorem detect_confidence_escalation (self : Integration) (fs : FS)
  (r : BackendDetectionResult) :
  detect self fs = Ok r ->
  exists tr, trace_blocks (blocks self) init_state fs = Ok tr /\
    hd_error (map conf tr) = Some LOW /\
    trace_ok tr /\
    confidence r = conf (last tr init_state) /\
    (primary_absent self fs -> confidence r = LOW).
Proof.
  intros H.
  destruct (detect_run self fs r H) as [st [Hrun [Hc _]]].
  destruct (run_trace _ _ _ _ Hrun) as [tr [Htr Hlast]].
  exists (init_state :: tr); split; [exact Htr |].
  split; [reflexivity |].
  split; [| split; [rewrite Hc, Hlast; reflexivity |]].
  - destruct (blocks_shape self) as [b1 [bs [Eb [Hp Hc']]]].
    rewrite Eb in Htr; simpl in Htr; unfold bind in Htr.
    destruct (b1 init_state fs) as [st1 |] eqn:E1; [| discriminate Htr].
    destruct (trace_blocks bs st1 fs) as [tr1 |] eqn:E2; [| discriminate Htr].
    unfold ret in Htr; injection Htr as <-.
    destruct (trace_head bs st1 fs tr1 E2) as [tr2 ->].
    split; [| exact (corr_trace_ok bs Hc' st1 fs _ E2)].
    destruct (Hp init_state fs st1 E1) as [-> | [Hm _]].
    + split; [lia | intros Hh; discriminate Hh].
    + unfold step_ok; rewrite Hm; split; [simpl; lia | intros Hh; discriminate Hh].
  - intros Ha; rewrite Hc.
    destruct (blocks_shape self) as [b1 [bs [Eb [_ Hc']]]].
    rewrite Eb in Hrun; apply run_blocks_cons in Hrun as [st1 [H1 H2]].
    assert (Hst1 : st1 = init_state).
    { apply (primary_absent_keeps self fs); [exact Ha | rewrite Eb; exact H1]. }
    subst st1; exact (corr_low bs Hc' init_state fs st H2 eq_refl).
Qed.

Lemma detect_confidence_escalation_witness :
  detect django_at (tree [("settings.py"%string, ""%string)] []) =
    Ok {| detected := true; confidence := LOW;
          indicators := ["settings.py or settings/"%string]; version := None |} /\
  confidence {| detected := true; confidence := LOW;
                indicators := ["settings.py or settings/"%string]; version := None |}
    = LOW.
Proof.
  assert (H : detect django_at (tree [("settings.py"%string, ""%string)] []) =
    Ok {| detected := true; confidence := LOW;
          indicators := ["settings.py or settings/"%string]; version := None |})
    by (vm_compute; reflexivity).
  split; [exact H |].
  destruct (detect_confidence_escalation _ _ _ H) as [tr [_ [_ [_ [_ Ha]]]]].
  apply Ha; exists ENOENT; split; [vm_compute; reflexivity | reflexivity].
Defined.

(** [C2] [detected] is true exactly when [indicators] is non-empty; a run
    that collects no indicator returns [detected = false] and confidence
    LOW. *)
Theorem detect_detected_iff_indicators (self : Integration) (fs : FS)
  (r : BackendDetectionResult) :
  detect self fs = Ok r ->
  (detected r = true <-> indicators r <> []) /\
  (indicators r = [] -> detected r = false /\ confidence r = LOW).
Proof.
  intros H.
  destruct (detect_run self fs r H) as [st [Hrun [Hc [Hi Hd]]]].
  destruct (blocks_shape self) as [b1 [bs [Eb [Hp Hcs]]]].
  assert (Hq : quiet_inv st).
  { refine (well_behaved_inv (b1 :: bs) _ init_state fs st _ _).
    - constructor; [apply primary_well_behaved, Hp |].
      eapply Forall_impl; [exact corroborating_well_behaved | exact Hcs].
    - rewrite <- Eb; exact Hrun.
    - intros _; reflexivity. }
  rewrite Hd, Hi, Hc; split.
  - destruct (ind st) as [| x l]; simpl; split.
    + intros Hf; discriminate Hf.
    + intros Hn; exfalso; exact (Hn eq_refl).
    + intros _ Hn; discriminate Hn.
    + intros _; reflexivity.
  - intros E; rewrite E; split; [reflexivity | exact (Hq E)].
Qed.

Lemma detect_detected_iff_indicators_witness :
  detect flask_at (tree [] []) =
    Ok {| detected := false; confidence := LOW; indicators := []; version := None |} /\
  detected {| detected := false; confidence := LOW; indicators := []; version := None |}
    = false.
Proof.
  assert (H : detect flask_at (tree [] []) =
    Ok {| detected := false; confidence := LOW; indicators := []; version := None |})
    by (vm_compute; reflexivity).
  split; [exact H |].
  exact (proj1 (proj2 (detect_detected_iff_indicators _ _ _ H) eq_refl)).
Defined.

(** ** The version extractor *)

Lemma span_spec p s a b :
  span p s = (a, b) ->
  s = a ++ b /\ forallb p a = true /\ match b with c :: _ => p c = false | [] => True end.
Proof.
  revert a b; induction s as [| c s IH]; intros a b H; simpl in H.
  - injection H as <- <-; auto.
  - destruct (p c) eqn:Pc.
    + destruct (span p s) as [a' b'] eqn:E; injection H as <- <-.
      destruct (IH a' b' eq_refl) as [-> [Ha Hb]]; simpl; rewrite Pc, Ha; auto.
    + injection H as <- <-; simpl; auto.
Qed.

Lemma span_app_stop p a b :
  forallb p a = true -> match b with c :: _ => p c = false | [] => True end ->
  span p (a ++ b) = (a, b).
Proof.
  induction a as [| c a IH]; intros Ha Hb; simpl.
  - destruct b as [| c b]; [reflexivity | simpl in *; rewrite Hb; reflexivity].
  - simpl in Ha; apply andb_prop in Ha as [Pc Ha]; rewrite Pc, IH; auto.
Qed.

Lemma span_app_all p a b :
  forallb p a = true -> span p (a ++ b) = (a ++ fst (span p b), snd (span p b)).
Proof.
  induction a as [| c a IH]; intros Ha; simpl.
  - destruct (span p b); reflexivity.
  - simpl in Ha; apply andb_prop in Ha as [Pc Ha]; rewrite Pc, IH; auto.
Qed.

Lemma ci_prefix_spec pat : forall s r,
  ci_prefix pat s = Some r -> exists nm, s = nm ++ r /\ ci_word pat nm = true.
Proof.
  induction pat as [| p pat IH]; intros s r H; simpl in H.
  - injection H as <-; exists []; auto.
  - destruct s as [| c s]; [discriminate H |].
    destruct (lit_match p c) eqn:E; [| discriminate H].
    destruct (IH s r H) as [nm [-> Hl]].
    exists (c :: nm); split; [reflexivity | simpl; rewrite E, Hl; reflexivity].
Qed.

Lemma ci_prefix_app pat : forall nm r,
  ci_word pat nm = true -> ci_prefix pat (nm ++ r) = Some r.
Proof.
  induction pat as [| p pat IH]; intros nm r H; destruct nm as [| c nm];
    try discriminate H; simpl; [reflexivity |].
  simpl in H; apply andb_prop in H as [H1 H2]; rewrite H1; apply IH, H2.
Qed.

Lemma opt_dot_group_spec s g r :
  opt_dot_group s = (g, r) -> s = dotted g ++ r /\ group_ok g r.
Proof.
  unfold opt_dot_group; destruct s as [| c [| d s]]; intros H.
  - injection H as <- <-; split; reflexivity.
  - injection H as <- <-; split; reflexivity.
  - destruct (N.eqb c dot && is_digit d) eqn:E.
    + apply andb_prop in E as [Ec Ed]; apply N.eqb_eq in Ec; subst c.
      simpl tl in H.
      destruct (span is_digit (d :: s)) as [ds r'] eqn:Sp; injection H as <- <-.
      destruct (span_spec _ _ _ _ Sp) as [Eq [Hall Hhd]].
      split; [simpl; rewrite <- Eq; reflexivity |].
      split; [intros ->; simpl in Eq; simpl in Sp; rewrite Ed in Sp;
              destruct (span is_digit s); discriminate Sp |].
      split; [exact Hall | destruct r'; [reflexivity | exact Hhd]].
    + injection H as <- <-; split; [reflexivity | exact E].
Qed.

Lemma digit_not_op c : is_digit c = true -> is_op c = false.
Proof.
  intros H; destruct (is_op c) eqn:E; [| reflexivity].
  unfold is_op in E; apply existsb_exists in E as [x [Hx Ex]].
  apply N.eqb_eq in Ex; subst x.
  repeat destruct Hx as [<- | Hx]; try contradiction; vm_compute in H; discriminate H.
Qed.

Lemma version_match_at_sound s major minor patch :
  version_match_at (chars "Django") s = Some (major, minor, patch) ->
  exists rest, version_token s major minor patch rest.
Proof.
  unfold version_match_at.
  destruct (ci_prefix (chars "Django") s) as [r |] eqn:Ec; [| discriminate].
  destruct (span is_op r) as [ops r1] eqn:Eo.
  destruct (span is_digit r1) as [maj r2] eqn:Ed.
  destruct maj as [| c0 maj']; [discriminate |].
  destruct (opt_dot_group r2) as [mn r3] eqn:E2.
  destruct (opt_dot_group r3) as [pt r4] eqn:E3.
  intros H; injection H as <- <- <-.
  destruct (ci_prefix_spec _ _ _ Ec) as [nm [Hs Hl]].
  destruct (span_spec _ _ _ _ Eo) as [Hr [Hops _]].
  destruct (span_spec _ _ _ _ Ed) as [Hr1 [Hdig Hstop]].
  destruct (opt_dot_group_spec _ _ _ E2) as [Hr2 Hg2].
  destruct (opt_dot_group_spec _ _ _ E3) as [Hr3 Hg3].
  exists r4, nm, ops.
  rewrite <- Hr3, <- Hr2.
  split; [rewrite Hs, Hr, Hr1; reflexivity |].
  split; [exact Hl |]. split; [exact Hops |].
  split; [discriminate |]. split; [exact Hdig |].
  split; [destruct r2; [reflexivity | exact Hstop] |].
  split; [rewrite Hr3 in Hg2 |- *; exact Hg2 |].
  split; [exact Hg3 |].
  intros ->; simpl in Hr2; subst r3.
  simpl in Hg2; unfold opt_dot_group in E3.
  destruct r2 as [| a [| b r2']]; try (injection E3 as <- _; reflexivity).
  simpl in Hg2; rewrite Hg2 in E3; injection E3 as <- _; reflexivity.
Qed.

Lemma version_match_at_complete s :
  starts_token s -> version_match_at (chars "Django") s <> None.
Proof.
  intros [nm [ops [d [rest [-> [Hl [Ho [Hd Hdig]]]]]]]].
  unfold version_match_at.
  rewrite ci_prefix_app by exact Hl.
  destruct d as [| c d']; [contradiction |].
  simpl in Hdig; apply andb_prop in Hdig as [Hc Hdig'].
  rewrite span_app_stop by (simpl; auto using digit_not_op).
  rewrite (span_app_all is_digit (c :: d') rest) by (simpl; rewrite Hc; exact Hdig').
  simpl app.
  destruct (opt_dot_group (snd (span is_digit rest))) as [g r3].
  destruct (opt_dot_group r3); discriminate.
Qed.

Lemma version_search_first name s : forall m,
  version_search name s = Some m ->
  exists k, version_match_at name (skipn k s) = Some m /\
    forall j, j < k -> version_match_at name (skipn j s) = None.
Proof.
  induction s as [| c s IH]; intros m H; simpl in H.
  - destruct (version_match_at name []) eqn:E; [| discriminate H].
    injection H as <-; exists 0; split; [exact E | intros j Hj; lia].
  - destruct (version_match_at name (c :: s)) eqn:E.
    + injection H as <-; exists 0; split; [exact E | intros j Hj; lia].
    + destruct (IH m H) as [k [Hk Hj]].
      exists (S k); split; [exact Hk |].
      intros [| j] Hlt; [exact E | apply Hj; lia].
Qed.

Lemma version_search_none name s :
  version_search name s = None -> forall j, version_match_at name (skipn j s) = None.
Proof.
  induction s as [| c s IH]; intros H j; simpl in H.
  - destruct (version_match_at name []) eqn:E; [discriminate H |].
    destruct j; exact E.
  - destruct (version_match_at name (c :: s)) eqn:E; [discriminate H |].
    destruct j as [| j]; [exact E | apply (IH H j)].
Qed.

(** [C3] The extractor returns the version read off the first occurrence,
    in document order, of the name [Django] (in any case, as [re.IGNORECASE]
    compares letters) followed by comparison-operator characters and a dotted
    number, as ["{major}.{minor}.{patch}"] with ["0"] for a missing minor or
    patch; it returns [None] when no such occurrence exists.
    ["Django==4.2.0"] gives ["4.2.0"] and ["Django>=4.0"] gives ["4.0.0"].
    The digits are those [\d] matches in text, i.e. any Unicode decimal digit
    (category Nd), which are kept as they are: ["django=="] followed by
    U+0663 ARABIC-INDIC DIGIT THREE gives U+0663 followed by [".0.0"]. *)
Theorem extract_django_version_spec (content : text) :
  (forall v, _extract_django_version_from_requirements content = Some v ->
     exists k major minor patch rest,
       version_token (skipn k content) major minor patch rest /\
       (forall j, j < k -> ~ starts_token (skipn j content)) /\
       v = normalized major minor patch) /\
  (_extract_django_version_from_requirements content = None ->
     forall j, ~ starts_token (skipn j content)) /\
  _extract_django_version_from_requirements (chars "Django==4.2.0") = Some (chars "4.2.0") /\
  _extract_django_version_from_requirements (chars "Django>=4.0") = Some (chars "4.0.0") /\
  _extract_django_version_from_requirements (chars "django==" ++ [0x663%N]) =
    Some ([0x663%N] ++ chars ".0.0").
Proof.
  unfold _extract_django_version_from_requirements.
  split; [| split; [| split; [| split]]]; [| | vm_compute; reflexivity ..].
  - intros v H.
    destruct (version_search (chars "Django") content) as [[[major minor] patch] |] eqn:E;
      [| discriminate H].
    injection H as <-.
    destruct (version_search_first _ _ _ E) as [k [Hk Hj]].
    destruct (version_match_at_sound _ _ _ _ Hk) as [rest Ht].
    exists k, major, minor, patch, rest; split; [exact Ht |]; split.
    + intros j Hlt Hs; exact (version_match_at_complete _ Hs (Hj j Hlt)).
    + destruct minor, patch; reflexivity.
  - destruct (version_search (chars "Django") content) eqn:E; [discriminate |].
    intros _ j Hs; exact (version_match_at_complete _ Hs (version_search_none _ _ E j)).
Qed.

Lemma extract_django_version_spec_witness :
  exists k major minor patch rest,
    version_token (skipn k (chars "Django==4.2.0")) major minor patch rest /\
    (forall j, j < k -> ~ starts_token (skipn j (chars "Django==4.2.0"))) /\
    chars "4.2.0" = normalized major minor patch.
Proof.
  apply (proj1 (extract_django_version_spec (chars "Django==4.2.0"))).
  vm_compute; reflexivity.
Defined.

(** ** Service-worker configuration and validation reports *)

(** [C5] [generate_service_worker_config()] depends on the integration's
    class only: two integrations of the same kind, whatever their project
    paths (the method reads no file, and [detect()] changes nothing in the
    instance), get the same precache list, the same ordered rules and the same
    [skip_waiting], [clients_claim] and [navigation_preload]. *)
Theorem sw_config_static_identity (s1 s2 : Integration) :
  kind s1 = kind s2 ->
  generate_service_worker_config s1 = generate_service_worker_config s2 /\
  skip_waiting (generate_service_worker_config s1) = true /\
  clients_claim (generate_service_worker_config s1) = true /\
  navigation_preload (generate_service_worker_config s1) = false.
Proof.
  intros Hk; unfold generate_service_worker_config; rewrite Hk; auto.
Qed.

Lemma sw_config_static_identity_witness :
  generate_service_worker_config {| kind := KDjango; project_path := "/srv/a" |} =
  generate_service_worker_config {| kind := KDjango; project_path := "/tmp/b" |}.
Proof. exact (proj1 (sw_config_static_identity _ _ eq_refl)). Defined.

(** Glob facts for the Django rules. *)
Lemma glob_any_tail : forall t : text,
  (fix any (t : text) : bool :=
     glob_match [] t || match t with [] => false | _ :: t' => any t' end) t = true.
Proof. induction t as [| c t IH]; [reflexivity | simpl; exact IH]. Qed.

Lemma glob_literal c p s :
  N.eqb c star = false ->
  glob_match (c :: p) s = true -> exists s', s = c :: s' /\ glob_match p s' = true.
Proof.
  intros Hc H; simpl in H; rewrite Hc in H.
  destruct s as [| d s']; [discriminate H |].
  apply andb_prop in H as [Hd H]; apply N.eqb_eq in Hd; subst d.
  exists s'; auto.
Qed.

Lemma admin_glob_prefix path :
  glob_match (chars "/admin/**") path = true ->
  exists rest, path = chars "/admin/" ++ rest.
Proof.
  intros H; cbv [chars list_ascii_of_string map] in H.
  repeat match goal with
  | H : glob_match (?c :: _) ?s = true |- _ =>
      apply glob_literal in H; [| reflexivity];
      let s' := fresh "s" in
      destruct H as [s' [-> H]]
  end.
  eexists; reflexivity.
Qed.

(** [C6] Under first-match resolution every request path matched by
    [/admin/**] resolves, in the Django rules, to the NetworkOnly admin rule:
    none of the earlier patterns ([/static/**], [/media/**], [/api/**])
    matches a path under [/admin/]. *)
Theorem django_admin_network_only (path : text) :
  glob_match (chars "/admin/**") path = true ->
  resolve django_runtime_caching path = Some admin_rule /\
  handler admin_rule = NetworkOnly /\
  (forall r, In r (firstn 3 django_runtime_caching) ->
     glob_match (chars (urlPattern r)) path = false).
Proof.
  intros H; destruct (admin_glob_prefix path H) as [rest ->].
  split; [| split; [reflexivity |]].
  - simpl; rewrite glob_any_tail; reflexivity.
  - simpl; intros r [<- | [<- | [<- | []]]]; reflexivity.
Qed.

Lemma django_admin_network_only_witness :
  resolve django_runtime_caching (chars "/admin/static/app.js") = Some admin_rule.
Proof.
  exact (proj1 (django_admin_network_only (chars "/admin/static/app.js")
                  ltac:(vm_compute; reflexivity))).
Defined.

Lemma validate_is_report self fs r :
  validate_setup self fs = Ok r -> exists f, r = report f.
Proof.
  unfold validate_setup, DjangoValidate.validate_setup, FlaskValidate.validate_setup;
    destruct (kind self); unfold bind, ret; intros H; py_cases;
    eexists; reflexivity.
Qed.

(** [C7] The report of [validate_setup()] (Django or Flask) has
    [isValid = true] exactly when [errors] is empty, whatever its warnings and
    suggestions. *)
Theorem validate_valid_iff_no_errors (self : Integration) (fs : FS)
  (r : ValidationResult) :
  validate_setup self fs = Ok r -> (isValid r = true <-> errors r = []).
Proof.
  intros H; destruct (validate_is_report self fs r H) as [f ->]; simpl.
  destruct (errs f); simpl; split; intros E; try reflexivity; discriminate E.
Qed.

Lemma validate_valid_iff_no_errors_witness :
  isValid {| isValid := false;
             errors := ["Django settings.py or settings/ directory not found"%string];
             warnings := ["urls.py not found in project root"%string];
             suggestions := [] |} = false.
Proof.
  destruct (validate_valid_iff_no_errors django_at (tree [] [])
     {| isValid := false;
        errors := ["Django settings.py or settings/ directory not found"%string];
        warnings := ["urls.py not found in project root"%string];
        suggestions := [] |} ltac:(vm_compute; reflexivity)) as [_ _].
  reflexivity.
Defined.

(** [C10] Flask's [validate_setup()], whenever it returns, returns no error
    and [isValid = true]; a tree with neither [app.py] nor [application.py]
    gets exactly one warning. *)
Theorem flask_validate_never_errors (self : Integration) (fs : FS)
  (r : ValidationResult) :
  FlaskValidate.validate_setup self fs = Ok r ->
  errors r = [] /\ isValid r = true /\ suggestions r = [] /\
  (absent fs (join (project_path self) "app.py") ->
   absent fs (join (project_path self) "application.py") ->
   warnings r = ["app.py or application.py not found"%string]).
Proof.
  unfold FlaskValidate.validate_setup, FlaskValidate.chk_app; py_unfold; intros H.
  py_cases; simpl; (split; [reflexivity |]); (split; [reflexivity |]);
    (split; [reflexivity |]); intros [x1 [Ex1 Ix1]] [x2 [Ex2 Ix2]];
    try reflexivity; simpl in *; congruence.
Qed.

Lemma flask_validate_never_errors_witness :
  FlaskValidate.validate_setup flask_at (tree [] []) =
    Ok {| isValid := true; errors := [];
          warnings := ["app.py or application.py not found"%string];
          suggestions := [] |} /\
  isValid {| isValid := true; errors := [];
             warnings := ["app.py or application.py not found"%string];
             suggestions := [] |} = true.
Proof.
  assert (H : FlaskValidate.validate_setup flask_at (tree [] []) =
    Ok {| isValid := true; errors := [];
          warnings := ["app.py or application.py not found"%string];
          suggestions := [] |}) by (vm_compute; reflexivity).
  split; [exact H | exact (proj1 (proj2 (flask_validate_never_errors _ _ _ H)))].
Defined.

(** ** Where the detected version comes from *)

Lemma flask_version_counterexample :
  manifest_version (chars "Flask") (chars "Flask==2.3.0") = Some (chars "2.3.0") /\
  detect flask_at (tree [("app.py"%string, ""%string);
                         ("requirements.txt"%string, "Flask==2.3.0"%string)] []) =
    Ok {| detected := true; confidence := HIGH;
          indicators := ["app.py or application.py"%string;
                         "requirements.txt: Flask"%string];
          version := None |}.
Proof. split; vm_compute; reflexivity. Qed.

Lemma escalate_ver st : ver (escalate st) = ver st.
Proof. unfold escalate; destruct (conf_eqb _ _); reflexivity. Qed.

Lemma django_keeps_ver self :
  keeps_ver (Django.blk_manage self) /\ keeps_ver (Django.blk_settings self) /\
  keeps_ver (Django.blk_urls self) /\ keeps_ver (Django.blk_pyproject self).
Proof.
  repeat split; intros st fs st' H;
    unfold Django.blk_manage, Django.blk_settings, Django.blk_urls,
      Django.blk_pyproject in H;
    py_unfold; py_cases; rewrite ?escalate_ver; reflexivity.
Qed.

Lemma django_requirements_ver self st fs st' :
  ver st = None -> Django.blk_requirements self st fs = Ok st' ->
  ver st' = requirements_version self fs.
Proof.
  intros Hv H; unfold Django.blk_requirements in H; unfold requirements_version.
  py_unfold; py_cases; rewrite ?escalate_ver; try reflexivity; simpl in *;
    try congruence.
Qed.

(** [C4], as the code has it: only Django's [detect()] reports a version,
    and only from [requirements.txt]: when that file exists, reads, and
    contains [Django] or [django], the version is the extractor's result on
    its text (absent when nothing matches); otherwise, and always for Flask,
    the version is absent. *)
Theorem detect_version_source (self : Integration) (fs : FS)
  (r : BackendDetectionResult) :
  detect self fs = Ok r ->
  version r = match kind self with
              | KDjango => requirements_version self fs
              | KFlask => None
              end.
Proof.
  unfold detect; destruct (kind self) eqn:K.
  - unfold Django.detect, bind, ret.
    destruct (run_blocks (Django.blocks self) init_state fs) as [st |] eqn:E;
      intros H; [| discriminate H].
    injection H as <-; simpl.
    destruct (django_keeps_ver self) as [K1 [K2 [K3 K5]]].
    unfold Django.blocks in E.
    apply run_blocks_cons in E as [s1 [E1 E]].
    apply run_blocks_cons in E as [s2 [E2 E]].
    apply run_blocks_cons in E as [s3 [E3 E]].
    apply run_blocks_cons in E as [s4 [E4 E]].
    apply run_blocks_cons in E as [s5 [E5 E]].
    simpl in E; unfold ret in E; injection E as <-.
    rewrite (K5 _ _ _ E5).
    apply (django_requirements_ver self s3 fs s4); [| exact E4].
    rewrite (K3 _ _ _ E3), (K2 _ _ _ E2), (K1 _ _ _ E1); reflexivity.
  - unfold Flask.detect, bind, ret.
    destruct (run_blocks (Flask.blocks self) init_state fs); intros H;
      [injection H as <-; reflexivity | discriminate H].
Qed.

Lemma detect_version_source_witness :
  version {| detected := true; confidence := HIGH;
             indicators := ["manage.py"%string; "requirements.txt: Django"%string];
             version := Some (chars "4.2.0") |} =
  requirements_version django_at
    (tree [("manage.py"%string, ""%string);
           ("requirements.txt"%string, "Django==4.2.0"%string)] []).
Proof.
  exact (detect_version_source django_at
           (tree [("manage.py"%string, ""%string);
                  ("requirements.txt"%string, "Django==4.2.0"%string)] [])
           {| detected := true; confidence := HIGH;
              indicators := ["manage.py"%string; "requirements.txt: Django"%string];
              version := Some (chars "4.2.0") |}
           ltac:(vm_compute; reflexivity)).
Defined.

(** ** Errors during detect() *)












(** ** The client's failure kinds *)

Lemma post_transport c net path data e :
  Client.post c net path data = inl e -> Client.is_transport_failure e = true.
Proof.
  unfold Client.post; destruct (net _ data) as [| | | st txt body]; intros H;
    try (injection H as <-; reflexivity).
  destruct ((400 <=? st)%N && (st <? 600)%N); [injection H as <-; reflexivity |].
  destruct body; [discriminate H | injection H as <-; reflexivity].
Qed.

(** [C9] A transport failure (API unreachable, timeout, other HTTP error)
    raised by [HttpClient.post] during [scan()], [generate()] or
    [validate()] reaches the caller wrapped as [ScanException],
    [GenerationException] or [ValidationException] respectively; every
    failure of each operation carries its phase's kind. *)
Theorem client_phase_failures (self : Client.UniversalPwaClient) (net : Client.Net)
  (override : option (list (string * Client.json))) :
  (forall e, Client.post (Client.http_client self) net "/api/scan"
               (Client.scan_request self) = inl e ->
     Client.is_transport_failure e = true /\
     Client.scan self net = inl (Client.ScanException e)) /\
  (forall e, Client.post (Client.http_client self) net "/api/generate"
               (Client.generate_request self override) = inl e ->
     Client.is_transport_failure e = true /\
     Client.generate self net override = inl (Client.GenerationException e)) /\
  (forall e, Client.post (Client.http_client self) net "/api/validate"
               (Client.validate_request self) = inl e ->
     Client.is_transport_failure e = true /\
     Client.validate self net = inl (Client.ValidationException e)) /\
  (forall x, Client.scan self net = inl x -> exists c, x = Client.ScanException c) /\
  (forall x, Client.generate self net override = inl x ->
     exists c, x = Client.GenerationException c) /\
  (forall x, Client.validate self net = inl x ->
     exists c, x = Client.ValidationException c).
Proof.
  unfold Client.scan, Client.generate, Client.validate, Client.wrap, Client.bind_sum.
  split; [| split; [| split; [| split; [| split]]]]; intros x Hx;
    try (split; [exact (post_transport _ _ _ _ _ Hx) | rewrite Hx; reflexivity]);
    repeat match goal with
    | H : context [match ?m with _ => _ end] |- _ => destruct m eqn:?
    end;
    try discriminate; injection Hx as <-; eexists; reflexivity.
Qed.

Lemma client_phase_failures_witness :
  Client.scan sample_client timing_out =
    inl (Client.ScanException Client.TimeoutException).
Proof.
  exact (proj2 (proj1 (client_phase_failures sample_client timing_out None)
                  Client.TimeoutException eq_refl)).
Defined.

(* ================================================================== *)
(** * Further properties of the integrations and the client *)

(** ** Indicator lists *)

Lemma subseq_incl {A} (l l' : list A) : subseq l l' -> forall x, In x l -> In x l'.
Proof.
  induction 1 as [| y l l' _ IH | y l l' _ IH]; intros x Hx;
    [exact Hx | right; apply IH, Hx |].
  destruct Hx as [<- | Hx]; [left; reflexivity | right; apply IH, Hx].
Qed.

Lemma subseq_NoDup {A} (l l' : list A) : subseq l l' -> NoDup l' -> NoDup l.
Proof.
  induction 1 as [| y l l' _ IH | y l l' Hs IH]; intros Hn; [exact Hn | |].
  - inversion Hn; subst; apply IH; assumption.
  - inversion Hn as [| y' l'' Hy Hn']; subst.
    constructor; [intros Hin; apply Hy; exact (subseq_incl _ _ Hs y Hin) | apply IH, Hn'].
Qed.

Lemma subseq_length {A} (l l' : list A) : subseq l l' -> List.length l <= List.length l'.
Proof. induction 1; simpl; lia. Qed.

Lemma ind_escalate st : ind (escalate st) = ind st.
Proof. unfold escalate; destruct (conf_eqb _ _); reflexivity. Qed.

Lemma conf_escalate st : conf (escalate st) = match conf st with MEDIUM => HIGH | c => c end.
Proof. unfold escalate, conf_eqb; destruct (conf st) eqn:E; simpl; rewrite ?E; reflexivity. Qed.

Lemma conf_escalate_add l st : conf (escalate (add_indicator l st)) = conf (escalate st).
Proof. rewrite !conf_escalate; reflexivity. Qed.

Lemma conf_escalate_ver l v st :
  conf (escalate (set_ver v (add_indicator l st))) = conf (escalate st).
Proof. rewrite !conf_escalate; reflexivity. Qed.

Ltac appends_close :=
  first [ left; reflexivity
        | right; split; [rewrite ?ind_escalate; reflexivity
                        | rewrite ?conf_escalate_add, ?conf_escalate_ver; reflexivity] ].

Lemma django_appends self :
  appends_primary "manage.py" (Django.blk_manage self) /\
  Forall2 appends ["settings.py or settings/"; "urls.py"; "requirements.txt: Django";
                   "pyproject.toml: django"]%string
    [Django.blk_settings self; Django.blk_urls self; Django.blk_requirements self;
     Django.blk_pyproject self].
Proof.
  split; [| repeat apply Forall2_cons; try apply Forall2_nil];
    intros st fs st' H;
    unfold Django.blk_manage, Django.blk_settings, Django.blk_urls,
      Django.blk_requirements, Django.blk_pyproject in H;
    py_unfold; py_cases; first [left; reflexivity | right; split; reflexivity | appends_close].
Qed.

Lemma flask_appends self :
  appends_primary "app.py or application.py" (Flask.blk_app self) /\
  Forall2 appends ["requirements.txt: Flask"; "Flask structure (templates/ or static/)"]%string
    [Flask.blk_requirements self; Flask.blk_structure self].
Proof.
  split; [| repeat apply Forall2_cons; try apply Forall2_nil];
    intros st fs st' H;
    unfold Flask.blk_app, Flask.blk_requirements, Flask.blk_structure in H;
    py_unfold; py_cases; first [left; reflexivity | right; split; reflexivity | appends_close].
Qed.

Lemma conf_from_step p l st :
  l <> p -> conf st = conf_from p (ind st) ->
  conf (escalate st) = conf_from p (ind st ++ [l]).
Proof.
  intros Hne Hc; rewrite conf_escalate, Hc; unfold conf_from.
  destruct (ind st) as [| p' rest]; simpl.
  - rewrite (proj2 (String.eqb_neq l p) Hne); reflexivity.
  - destruct (String.eqb p' p); [destruct rest; reflexivity | reflexivity].
Qed.

Lemma run_appends bs ls : Forall2 appends ls bs -> forall st fs st',
  run_blocks bs st fs = Ok st' ->
  exists sel, subseq sel ls /\ ind st' = ind st ++ sel /\
    (forall p, ~ In p ls -> conf st = conf_from p (ind st) -> conf st' = conf_from p (ind st')).
Proof.
  induction 1 as [| l b ls bs Hb Hbs IH]; intros st fs st' H.
  - simpl in H; unfold ret in H; injection H as <-.
    exists []; split; [constructor | split; [rewrite app_nil_r; reflexivity | auto]].
  - apply run_blocks_cons in H as [st1 [H1 H2]].
    destruct (IH st1 fs st' H2) as [sel [Hs [Hi Hc]]].
    destruct (Hb st fs st1 H1) as [-> | [Ei Ec]].
    + exists sel; split; [apply subseq_skip, Hs | split; [exact Hi |]].
      intros p Hp Hst; apply Hc; [intros Hin; apply Hp; right; exact Hin | exact Hst].
    + exists (l :: sel); split; [apply subseq_take, Hs |].
      split; [rewrite Hi, Ei, <- app_assoc; reflexivity |].
      intros p Hp Hst; apply Hc; [intros Hin; apply Hp; right; exact Hin |].
      rewrite Ec, Ei; apply conf_from_step; [intros E; apply Hp; left; exact E | exact Hst].
Qed.

(** Each integration's blocks carry its labels: the primary block first, the
    corroborating ones after. *)
Lemma blocks_labels self :
  exists b1 bs p ls, blocks self = b1 :: bs /\ labels self = p :: ls /\
    appends_primary p b1 /\ Forall2 appends ls bs /\ NoDup (p :: ls).
Proof.
  unfold blocks, labels; destruct (kind self).
  - destruct (django_appends self) as [H1 H2].
    eexists _, _, _, _; split; [reflexivity | split; [reflexivity |]].
    split; [exact H1 | split; [exact H2 |]].
    repeat constructor; simpl; intuition discriminate.
  - destruct (flask_appends self) as [H1 H2].
    eexists _, _, _, _; split; [reflexivity | split; [reflexivity |]].
    split; [exact H1 | split; [exact H2 |]].
    repeat constructor; simpl; intuition discriminate.
Qed.

(** A run of [detect()]'s blocks from the initial locals: the indicators are
    the primary label or not, then labels of the corroborating checks in
    order; the confidence is the one the indicators stand for. *)
Lemma detect_blocks_run self fs st :
  run_blocks (blocks self) init_state fs = Ok st ->
  subseq (ind st) (labels self) /\ conf st = conf_from (primary_label self) (ind st).
Proof.
  intros H.
  destruct (blocks_labels self) as [b1 [bs [p [ls [Eb [El [Hp [Hbs Hnd]]]]]]]].
  unfold primary_label; rewrite El; simpl.
  rewrite Eb in H; apply run_blocks_cons in H as [st1 [H1 H2]].
  destruct (run_appends bs ls Hbs st1 fs st H2) as [sel [Hs [Hi Hc]]].
  inversion Hnd as [| p' ls' Hnp _]; subst.
  destruct (Hp init_state fs st1 H1) as [-> | [Ei Ec]].
  - split; [rewrite Hi; apply subseq_skip, Hs | apply (Hc p Hnp); reflexivity].
  - split; [rewrite Hi, Ei; apply subseq_take, Hs |].
    apply (Hc p Hnp); rewrite Ec, Ei; simpl; rewrite String.eqb_refl; reflexivity.
Qed.

(** [X1] The indicators [detect()] returns are labels of its checks in check
    order, each at most once: a sub-sequence of the integration's label list,
    without duplicates, and no longer than it. *)
Theorem detect_indicators_in_check_order (self : Integration) (fs : FS)
  (r : BackendDetectionResult) :
  detect self fs = Ok r ->
  subseq (indicators r) (labels self) /\ NoDup (indicators r) /\
  List.length (indicators r) <= List.length (labels self).
Proof.
  intros H; destruct (detect_run self fs r H) as [st [Hrun [_ [Hi _]]]].
  rewrite Hi; destruct (detect_blocks_run self fs st Hrun) as [Hs _].
  split; [exact Hs | split; [| apply subseq_length, Hs]].
  apply (subseq_NoDup _ _ Hs).
  destruct (blocks_labels self) as [_ [_ [p [ls [_ [El [_ [_ Hnd]]]]]]]].
  rewrite El; exact Hnd.
Qed.

Lemma detect_indicators_in_check_order_witness :
  subseq ["manage.py"; "urls.py"]%string (labels django_at) /\
  NoDup ["manage.py"; "urls.py"]%string.
Proof.
  destruct (detect_indicators_in_check_order django_at
              (tree [("manage.py"%string, ""%string); ("urls.py"%string, ""%string)] [])
              {| detected := true; confidence := HIGH;
                 indicators := ["manage.py"; "urls.py"]%string; version := None |}
              ltac:(vm_compute; reflexivity)) as [H1 [H2 _]].
  split; [exact H1 | exact H2].
Defined.

(** [X2] The confidence [detect()] returns is a function of its indicators:
    MEDIUM when the primary marker's label is the only indicator, HIGH when
    it comes first and more follow, LOW when it is absent. *)
Theorem detect_confidence_from_indicators (self : Integration) (fs : FS)
  (r : BackendDetectionResult) :
  detect self fs = Ok r -> confidence r = conf_from (primary_label self) (indicators r).
Proof.
  intros H; destruct (detect_run self fs r H) as [st [Hrun [Hc [Hi _]]]].
  rewrite Hc, Hi; exact (proj2 (detect_blocks_run self fs st Hrun)).
Qed.

Lemma detect_confidence_from_indicators_witness :
  conf_from (primary_label flask_at) ["requirements.txt: Flask"%string] = LOW.
Proof.
  exact (eq_sym (detect_confidence_from_indicators flask_at
           (tree [("requirements.txt"%string, "flask"%string)] [])
           {| detected := true; confidence := LOW;
              indicators := ["requirements.txt: Flask"%string]; version := None |}
           ltac:(vm_compute; reflexivity))).
Defined.

(** ** The version and its indicator *)

Lemma django_requirements_ind self st fs st' :
  Django.blk_requirements self st fs = Ok st' -> ver st' <> ver st ->
  ind st' = ind st ++ ["requirements.txt: Django"%string].
Proof.
  intros H Hv; unfold Django.blk_requirements in H; py_unfold; py_cases;
    try (exfalso; apply Hv; reflexivity); rewrite ind_escalate; reflexivity.
Qed.

(** [X3] A version in Django's result always comes with the
    ["requirements.txt: Django"] indicator, and Flask's result never has a
    version. *)
Theorem detect_version_has_indicator (self : Integration) (fs : FS)
  (r : BackendDetectionResult) :
  detect self fs = Ok r -> version r <> None ->
  kind self = KDjango /\ In "requirements.txt: Django"%string (indicators r).
Proof.
  unfold detect; destruct (kind self) eqn:K.
  - unfold Django.detect, bind, ret.
    destruct (run_blocks (Django.blocks self) init_state fs) as [st |] eqn:E;
      intros H Hv; [| discriminate H].
    injection H as <-; simpl in Hv |- *; split; [reflexivity |].
    destruct (django_keeps_ver self) as [K1 [K2 [K3 K5]]].
    destruct (django_appends self) as [_ Ha].
    inversion Ha as [| ? ? ? ? _ Ha2]; subst.
    inversion Ha2 as [| ? ? ? ? _ Ha3]; subst.
    inversion Ha3 as [| ? ? ? ? _ Ha4]; subst.
    inversion Ha4 as [| ? ? ? ? A5 _]; subst.
    unfold Django.blocks in E.
    apply run_blocks_cons in E as [s1 [E1 E]].
    apply run_blocks_cons in E as [s2 [E2 E]].
    apply run_blocks_cons in E as [s3 [E3 E]].
    apply run_blocks_cons in E as [s4 [E4 E]].
    apply run_blocks_cons in E as [s5 [E5 E]].
    simpl in E; unfold ret in E; injection E as <-.
    rewrite (K5 _ _ _ E5) in Hv.
    assert (Hi4 : ind s4 = ind s3 ++ ["requirements.txt: Django"%string]).
    { apply (django_requirements_ind self s3 fs s4 E4).
      rewrite (K3 _ _ _ E3), (K2 _ _ _ E2), (K1 _ _ _ E1); exact Hv. }
    assert (In "requirements.txt: Django"%string (ind s4))
      by (rewrite Hi4; apply in_or_app; right; left; reflexivity).
    destruct (A5 s4 fs s5 E5) as [-> | [Ei _]]; [assumption |].
    rewrite Ei; apply in_or_app; left; assumption.
  - unfold Flask.detect, bind, ret.
    destruct (run_blocks (Flask.blocks self) init_state fs); intros H Hv;
      [injection H as <-; exfalso; apply Hv; reflexivity | discriminate H].
Qed.

Lemma detect_version_has_indicator_witness :
  In "requirements.txt: Django"%string ["requirements.txt: Django"%string].
Proof.
  exact (proj2 (detect_version_has_indicator django_at
           (tree [("requirements.txt"%string, "Django>=5"%string)] [])
           {| detected := true; confidence := LOW;
              indicators := ["requirements.txt: Django"%string];
              version := Some (chars "5.0.0") |}
           ltac:(vm_compute; reflexivity) ltac:(discriminate))).
Defined.

(** ** Shape and case of the extracted version *)





Lemma same_class_refl c : same_class c c = true.
Proof.
  unfold same_class.
  assert (H : forall l, forallb (fun p => Bool.eqb (lit_match p c) (lit_match p c)) l = true).
  { induction l as [| p l IH]; simpl; [reflexivity | rewrite eqb_reflx, IH; reflexivity]. }
  rewrite H, !eqb_reflx, N.eqb_refl; destruct (is_digit c || is_digit c); reflexivity.
Qed.

Lemma lower_table_keeps_class :
  forallb (fun p => same_class (fst p) (snd p)) lower_table = true.
Proof. vm_compute; reflexivity. Qed.

Lemma lower_full_keeps_class c : lower_keeps_class c = true.
Proof.
  unfold lower_keeps_class, lower_full.
  destruct (N.eqb c 0x130) eqn:E0; [apply N.eqb_eq in E0; subst c; vm_compute; reflexivity |].
  unfold sre_lower; destruct (find (fun p => N.eqb (fst p) c) lower_table) as [p |] eqn:F.
  - apply find_some in F as [Hin Hf]; apply N.eqb_eq in Hf; subst c.
    exact (proj1 (forallb_forall _ _) lower_table_keeps_class p Hin).
  - apply same_class_refl.
Qed.

Lemma inert_spec c :
  inert c = true ->
  (forall p, In p (chars "Django") -> lit_match p c = false) /\
  is_op c = false /\ N.eqb c dot = false /\ is_digit c = false.
Proof.
  unfold inert; intros H.
  apply andb_prop in H as [H Hd]; apply andb_prop in H as [H Hdot];
    apply andb_prop in H as [Hl Hop].
  apply negb_true_iff in Hd, Hdot, Hop.
  split; [| auto].
  intros p Hp; apply negb_true_iff, (proj1 (forallb_forall _ _) Hl p Hp).
Qed.

Lemma same_class_spec c c' :
  same_class c c' = true ->
  (forall p, In p (chars "Django") -> lit_match p c = lit_match p c') /\
  is_op c = is_op c' /\ N.eqb c dot = N.eqb c' dot /\
  is_digit c = is_digit c' /\ (is_digit c = true -> c = c').
Proof.
  unfold same_class; intros H.
  apply andb_prop in H as [H Hd]; apply andb_prop in H as [H Hdot];
    apply andb_prop in H as [Hl Hop].
  apply eqb_prop in Hop, Hdot.
  split; [intros p Hp; apply eqb_prop, (proj1 (forallb_forall _ _) Hl p Hp) |].
  split; [exact Hop | split; [exact Hdot |]].
  destruct (is_digit c) eqn:Dc, (is_digit c') eqn:Dc'; simpl in Hd.
  - apply N.eqb_eq in Hd; auto.
  - apply N.eqb_eq in Hd; subst c'; rewrite Dc in Dc'; discriminate Dc'.
  - apply N.eqb_eq in Hd; subst c'; rewrite Dc in Dc'; discriminate Dc'.
  - split; [reflexivity | discriminate].
Qed.

Lemma inert_cons x xs : forallb inert (x :: xs) = true -> inert x = true.
Proof. simpl; intros H; apply andb_prop in H as [H _]; exact H. Qed.

Lemma alike_lower_from s : forall before, alike s (lower_from before s).
Proof.
  induction s as [| c s IH]; intros before; simpl; [constructor |].
  destruct (N.eqb c 0x3A3) eqn:Ec.
  - apply N.eqb_eq in Ec; subst c.
    apply (alike_inert _ [if final_sigma before s then 0x3C2 else 0x3C3]%N);
      [vm_compute; reflexivity | discriminate | | apply IH].
    destruct (final_sigma before s); vm_compute; reflexivity.
  - pose proof (lower_full_keeps_class c) as H; unfold lower_keeps_class in H.
    destruct (lower_full c) as [| c1 [| c2 l]] eqn:L.
    + apply andb_prop in H as [_ H]; discriminate H.
    + apply alike_same; [exact H | apply IH].
    + apply andb_prop in H as [H _]; apply andb_prop in H as [Hc Hl].
      apply alike_inert; [exact Hc | discriminate | exact Hl | apply IH].
Qed.

Lemma alike_ci_prefix pat :
  incl pat (chars "Django") ->
  forall s t, alike s t -> alike_opt (ci_prefix pat s) (ci_prefix pat t).
Proof.
  induction pat as [| p pat IH]; intros Hincl s t H; [exact H |].
  assert (Hp : In p (chars "Django")) by (apply Hincl; left; reflexivity).
  assert (Hpat : incl pat (chars "Django")) by (intros x Hx; apply Hincl; right; exact Hx).
  destruct H as [| c c' s t Hcc Hst | c xs s t Hc Hxs Hall Hst]; simpl; [exact I | |].
  - destruct (same_class_spec _ _ Hcc) as [Hl _].
    rewrite <- (Hl p Hp); destruct (lit_match p c); [| exact I].
    apply IH; assumption.
  - destruct xs as [| x xs]; [contradiction |].
    rewrite (proj1 (inert_spec _ Hc) p Hp); simpl.
    rewrite (proj1 (inert_spec _ (inert_cons _ _ Hall)) p Hp); exact I.
Qed.

Lemma alike_span_op s t :
  alike s t -> alike (snd (span is_op s)) (snd (span is_op t)).
Proof.
  induction 1 as [| c c' s t Hcc Hst IH | c xs s t Hc Hxs Hall Hst _]; simpl.
  - constructor.
  - destruct (same_class_spec _ _ Hcc) as [_ [Hop _]].
    rewrite <- Hop; destruct (is_op c).
    + destruct (span is_op s), (span is_op t); exact IH.
    + apply alike_same; assumption.
  - rewrite (proj1 (proj2 (inert_spec _ Hc))).
    destruct xs as [| x xs]; [contradiction |].
    simpl; rewrite (proj1 (proj2 (inert_spec _ (inert_cons _ _ Hall)))).
    change (x :: xs ++ t) with ((x :: xs) ++ t).
    apply alike_inert; assumption.
Qed.

Lemma alike_span_digit s t :
  alike s t ->
  fst (span is_digit s) = fst (span is_digit t) /\
  alike (snd (span is_digit s)) (snd (span is_digit t)).
Proof.
  induction 1 as [| c c' s t Hcc Hst IH | c xs s t Hc Hxs Hall Hst _]; simpl.
  - split; [reflexivity | constructor].
  - destruct (same_class_spec _ _ Hcc) as [_ [_ [_ [Hd Heq]]]].
    rewrite <- Hd; destruct (is_digit c) eqn:Dc.
    + rewrite <- (Heq eq_refl).
      destruct (span is_digit s), (span is_digit t); simpl in *.
      destruct IH as [-> IH]; split; [reflexivity | exact IH].
    + split; [reflexivity | apply alike_same; assumption].
  - rewrite (proj2 (proj2 (proj2 (inert_spec _ Hc)))).
    destruct xs as [| x xs]; [contradiction |].
    simpl; rewrite (proj2 (proj2 (proj2 (inert_spec _ (inert_cons _ _ Hall))))).
    split; [reflexivity |].
    change (x :: xs ++ t) with ((x :: xs) ++ t).
    apply alike_inert; assumption.
Qed.

Lemma alike_opt_dot_group s t :
  alike s t ->
  fst (opt_dot_group s) = fst (opt_dot_group t) /\
  alike (snd (opt_dot_group s)) (snd (opt_dot_group t)).
Proof.
  intros H.
  destruct H as [| c c' s t Hcc Hst | c xs s t Hc Hxs Hall Hst].
  - split; [reflexivity | constructor].
  - destruct (same_class_spec _ _ Hcc) as [_ [_ [Hdot _]]].
    destruct Hst as [| d d' s t Hdd Hst | d xs s t Hd Hxs Hall Hst].
    + split; [reflexivity | repeat constructor; exact Hcc].
    + destruct (same_class_spec _ _ Hdd) as [_ [_ [_ [Hdg Heq]]]].
      unfold opt_dot_group; rewrite <- Hdot, <- Hdg.
      destruct (N.eqb c dot && is_digit d) eqn:E.
      * apply andb_prop in E as [_ Dd]; rewrite <- (Heq Dd); simpl tl.
        destruct (alike_span_digit (d :: s) (d :: t)) as [Hf Hs];
          [apply alike_same; [apply same_class_refl | exact Hst] |].
        destruct (span is_digit (d :: s)), (span is_digit (d :: t)); simpl in *.
        subst; split; [reflexivity | exact Hs].
      * split; [reflexivity | apply alike_same; [exact Hcc | apply alike_same; assumption]].
    + destruct xs as [| x xs]; [contradiction |].
      unfold opt_dot_group; simpl app.
      rewrite (proj2 (proj2 (proj2 (inert_spec _ Hd)))),
        (proj2 (proj2 (proj2 (inert_spec _ (inert_cons _ _ Hall))))), !andb_false_r.
      split; [reflexivity |].
      apply alike_same; [exact Hcc |].
      change (x :: xs ++ t) with ((x :: xs) ++ t).
      apply alike_inert; assumption.
  - destruct xs as [| x xs]; [contradiction |].
    assert (E1 : opt_dot_group (c :: s) = (None, c :: s)).
    { unfold opt_dot_group; destruct s; [reflexivity |].
      rewrite (proj1 (proj2 (proj2 (inert_spec _ Hc)))); reflexivity. }
    assert (E2 : opt_dot_group ((x :: xs) ++ t) = (None, (x :: xs) ++ t)).
    { simpl app; unfold opt_dot_group; destruct (xs ++ t); [reflexivity |].
      rewrite (proj1 (proj2 (proj2 (inert_spec _ (inert_cons _ _ Hall))))); reflexivity. }
    rewrite E1, E2; split; [reflexivity |].
    apply alike_inert; assumption.
Qed.

Lemma alike_version_match_at s t :
  alike s t -> version_match_at (chars "Django") s = version_match_at (chars "Django") t.
Proof.
  intros H; unfold version_match_at.
  pose proof (alike_ci_prefix (chars "Django") (incl_refl _) s t H) as Hc.
  destruct (ci_prefix (chars "Django") s) as [r |], (ci_prefix (chars "Django") t) as [r' |];
    simpl in Hc; try contradiction; [| reflexivity].
  pose proof (alike_span_op _ _ Hc) as Ho.
  destruct (span is_op r) as [o1 r1], (span is_op r') as [o1' r1']; simpl in Ho.
  destruct (alike_span_digit _ _ Ho) as [Hm Hd].
  destruct (span is_digit r1) as [m r2], (span is_digit r1') as [m' r2']; simpl in *.
  subst m'; destruct m as [| d m]; [reflexivity |].
  destruct (alike_opt_dot_group _ _ Hd) as [Hg1 H3].
  destruct (opt_dot_group r2) as [g1 r3], (opt_dot_group r2') as [g1' r3']; simpl in *.
  subst g1'.
  destruct (alike_opt_dot_group _ _ H3) as [Hg2 _].
  destruct (opt_dot_group r3) as [g2 r4], (opt_dot_group r3') as [g2' r4']; simpl in *.
  subst g2'; reflexivity.
Qed.

Lemma inert_no_match c s :
  inert c = true -> version_match_at (chars "Django") (c :: s) = None.
Proof.
  intros Hc; unfold version_match_at; cbn [ci_prefix chars list_ascii_of_string map].
  rewrite (proj1 (inert_spec _ Hc) _ (or_introl eq_refl)); reflexivity.
Qed.

Lemma version_search_inert xs t :
  forallb inert xs = true ->
  version_search (chars "Django") (xs ++ t) = version_search (chars "Django") t.
Proof.
  induction xs as [| x xs IH]; intros H; [reflexivity |].
  simpl in H; apply andb_prop in H as [Hx H].
  simpl app; cbn [version_search]; rewrite inert_no_match by exact Hx.
  apply IH, H.
Qed.

Lemma alike_version_search s t :
  alike s t -> version_search (chars "Django") s = version_search (chars "Django") t.
Proof.
  induction 1 as [| c c' s t Hcc Hst IH | c xs s t Hc Hxs Hall Hst IH].
  - reflexivity.
  - cbn [version_search].
    rewrite (alike_version_match_at (c :: s) (c' :: t)) by (apply alike_same; assumption).
    rewrite IH; reflexivity.
  - rewrite version_search_inert by exact Hall.
    cbn [version_search]; rewrite inert_no_match by exact Hc; exact IH.
Qed.

(** [X5] The extractor ignores case: run on [content.lower()] it returns what
    it returns on [content]. [str.lower()] is the full Unicode one, with the
    two-code-point lowercase of U+0130 and the final form of capital sigma;
    no lowercase mapping creates or removes a letter of [Django] (in the
    [re.IGNORECASE] sense), an operator, a dot or a digit. *)
Theorem extract_version_case_insensitive (content : text) :
  _extract_django_version_from_requirements (lower content) =
  _extract_django_version_from_requirements content.
Proof.
  unfold _extract_django_version_from_requirements, lower.
  rewrite <- (alike_version_search _ _ (alike_lower_from content [])); reflexivity.
Qed.

(** ** validate_setup() *)

(** Split on every answer of the filesystem the goal mentions. *)
Ltac fs_cases :=
  repeat match goal with
  | |- context [fs_stat ?fs ?q] => let E := fresh "E" in destruct (fs_stat fs q) eqn:E
  | |- context [fs_read ?fs ?q] => let E := fresh "E" in destruct (fs_read fs q) eqn:E
  | |- context [ignore_error ?e] => let E := fresh "E" in destruct (ignore_error e) eqn:E
  end.

Ltac fs_ok :=
  fs_cases; simpl; intros H; try discriminate H; try (exfalso; congruence);
  injection H as <-; reflexivity.

Ltac fs_raise :=
  fs_cases; simpl; intros H; try discriminate H; try (exfalso; congruence);
  injection H as <-; unfold stat_escape; eexists _, _;
  refine (conj eq_refl (conj _ _)); eassumption.

Section DjangoChecks.
Variable self : Integration.
Variable fs : FS.

Lemma chk_settings_ok f f' :
  DjangoValidate.chk_settings self f fs = Ok f' ->
  f' = if stat_exists fs (join (project_path self) "settings.py") ||
          stat_is_dir fs (join (project_path self) "settings") then f
       else add_error "Django settings.py or settings/ directory not found" f.
Proof.
  unfold DjangoValidate.chk_settings, stat_exists, stat_is_dir;
    py_unfold; fs_ok.
Qed.

Lemma chk_static_ok f f' :
  DjangoValidate.chk_static self f fs = Ok f' ->
  f' = match readable_text fs (join (project_path self) "settings.py") with
       | Some content =>
           let f1 := if contains (chars "STATIC_URL") content then f
                     else add_warning "STATIC_URL not found in settings.py" f in
           if contains (chars "STATIC_ROOT") content then f1
           else add_suggestion "Consider setting STATIC_ROOT for production" f1
       | None => f
       end.
Proof.
  unfold DjangoValidate.chk_static, readable_text, stat_exists; py_unfold; fs_ok.
Qed.

Lemma chk_urls_ok f f' :
  DjangoValidate.chk_urls self f fs = Ok f' ->
  f' = if stat_exists fs (join (project_path self) "urls.py") then f
       else add_warning "urls.py not found in project root" f.
Proof. unfold DjangoValidate.chk_urls, stat_exists; py_unfold; fs_ok. Qed.

Lemma chk_settings_raise f e :
  DjangoValidate.chk_settings self f fs = Raise e -> stat_escape fs e.
Proof. unfold DjangoValidate.chk_settings; py_unfold; fs_raise. Qed.

Lemma chk_static_raise f e :
  DjangoValidate.chk_static self f fs = Raise e -> stat_escape fs e.
Proof. unfold DjangoValidate.chk_static; py_unfold; fs_raise. Qed.

Lemma chk_urls_raise f e :
  DjangoValidate.chk_urls self f fs = Raise e -> stat_escape fs e.
Proof. unfold DjangoValidate.chk_urls; py_unfold; fs_raise. Qed.

Lemma chk_app_ok f f' :
  FlaskValidate.chk_app self f fs = Ok f' ->
  f' = if stat_exists fs (join (project_path self) "app.py") ||
          stat_exists fs (join (project_path self) "application.py") then f
       else add_warning "app.py or application.py not found" f.
Proof. unfold FlaskValidate.chk_app, stat_exists; py_unfold; fs_ok. Qed.

Lemma chk_app_raise f e :
  FlaskValidate.chk_app self f fs = Raise e -> stat_escape fs e.
Proof. unfold FlaskValidate.chk_app; py_unfold; fs_raise. Qed.

(** Django's report in terms of what [stat] and [read_text] say. *)
Lemma django_validate_fields r :
  DjangoValidate.validate_setup self fs = Ok r ->
  errors r = (if stat_exists fs (join (project_path self) "settings.py") ||
          stat_is_dir fs (join (project_path self) "settings") then []
              else ["Django settings.py or settings/ directory not found"%string]) /\
  warnings r =
    (match readable_text fs (join (project_path self) "settings.py") with
     | Some c => if contains (chars "STATIC_URL") c then []
                 else ["STATIC_URL not found in settings.py"%string]
     | None => []
     end) ++
    (if stat_exists fs (join (project_path self) "urls.py") then []
     else ["urls.py not found in project root"%string]) /\
  suggestions r =
    (match readable_text fs (join (project_path self) "settings.py") with
     | Some c => if contains (chars "STATIC_ROOT") c then []
                 else ["Consider setting STATIC_ROOT for production"%string]
     | None => []
     end) /\
  isValid r = Nat.eqb (List.length (errors r)) 0.
Proof.
  unfold DjangoValidate.validate_setup, bind, ret; intros H.
  destruct (DjangoValidate.chk_settings self no_findings fs) as [f1 |] eqn:E1;
    [| discriminate H].
  destruct (DjangoValidate.chk_static self f1 fs) as [f2 |] eqn:E2; [| discriminate H].
  destruct (DjangoValidate.chk_urls self f2 fs) as [f3 |] eqn:E3; [| discriminate H].
  injection H as <-.
  apply chk_settings_ok in E1; apply chk_static_ok in E2; apply chk_urls_ok in E3.
  subst f1 f2 f3.
  destruct (_ || _), (readable_text _ _) as [c |], (stat_exists _ _);
    try destruct (contains (chars "STATIC_URL") c);
    try destruct (contains (chars "STATIC_ROOT") c);
    repeat split; reflexivity.
Qed.

End DjangoChecks.

(** [X6] Django's [validate_setup()], whenever it returns, reports: the
    settings error exactly when [stat] finds neither [settings.py] nor a
    [settings] directory; the [STATIC_URL] warning and the [STATIC_ROOT]
    suggestion only when [settings.py] exists and reads (an unreadable one
    adds nothing), each when its name is missing from the text; then the
    [urls.py] warning when [urls.py] is absent. So it reports at most one
    error, two warnings and one suggestion. *)
Theorem django_validate_report (self : Integration) (fs : FS) (r : ValidationResult) :
  DjangoValidate.validate_setup self fs = Ok r ->
  errors r = (if stat_exists fs (join (project_path self) "settings.py") ||
                 stat_is_dir fs (join (project_path self) "settings")
              then [] else ["Django settings.py or settings/ directory not found"%string]) /\
  warnings r =
    (match readable_text fs (join (project_path self) "settings.py") with
     | Some c => if contains (chars "STATIC_URL") c then []
                 else ["STATIC_URL not found in settings.py"%string]
     | None => []
     end) ++
    (if stat_exists fs (join (project_path self) "urls.py") then []
     else ["urls.py not found in project root"%string]) /\
  suggestions r =
    (match readable_text fs (join (project_path self) "settings.py") with
     | Some c => if contains (chars "STATIC_ROOT") c then []
                 else ["Consider setting STATIC_ROOT for production"%string]
     | None => []
     end) /\
  List.length (errors r) <= 1 /\ List.length (warnings r) <= 2 /\
  List.length (suggestions r) <= 1.
Proof.
  intros H; destruct (django_validate_fields self fs r H) as [E1 [E2 [E3 _]]].
  split; [exact E1 | split; [exact E2 | split; [exact E3 |]]].
  rewrite E1, E2, E3.
  destruct (_ || _), (readable_text _ _) as [c |], (stat_exists _ _);
    try destruct (contains (chars "STATIC_URL") c);
    try destruct (contains (chars "STATIC_ROOT") c); simpl; lia.
Qed.

(** A tree whose [settings.py] exists but cannot be read. *)
Lemma django_validate_report_witness :
  warnings {| isValid := true; errors := []; warnings := []; suggestions := [] |} =
  (match readable_text
           {| fs_stat := fs_stat (tree [("settings.py"%string, ""%string);
                                        ("urls.py"%string, ""%string)] []);
              fs_read := fun _ => inl (OSError EACCES) |}
           (join "p" "settings.py") with
   | Some c => if contains (chars "STATIC_URL") c then []
               else ["STATIC_URL not found in settings.py"%string]
   | None => []
   end) ++
  (if stat_exists (tree [("settings.py"%string, ""%string);
                         ("urls.py"%string, ""%string)] []) (join "p" "urls.py")
   then [] else ["urls.py not found in project root"%string]).
Proof.
  exact (proj1 (proj2 (django_validate_report django_at
           {| fs_stat := fs_stat (tree [("settings.py"%string, ""%string);
                                        ("urls.py"%string, ""%string)] []);
              fs_read := fun _ => inl (OSError EACCES) |}
           {| isValid := true; errors := []; warnings := []; suggestions := [] |}
           ltac:(vm_compute; reflexivity)))).
Defined.

(** [X7] No read or decode error ever leaves [validate_setup()] (Django or
    Flask): the only exceptions it raises are [OSError]s of [stat] that
    pathlib does not turn into [False]; without such an error it returns. *)
Theorem validate_raises_only_stat (self : Integration) (fs : FS) :
  (forall e, validate_setup self fs = Raise e -> stat_escape fs e) /\
  ((forall q x, fs_stat fs q = StErr x -> ignore_error x = true) ->
   exists r, validate_setup self fs = Ok r).
Proof.
  assert (Hr : forall e, validate_setup self fs = Raise e -> stat_escape fs e).
  { unfold validate_setup, DjangoValidate.validate_setup, FlaskValidate.validate_setup,
      bind, ret; destruct (kind self); intros e H.
    - destruct (DjangoValidate.chk_settings self no_findings fs) as [f1 | e1] eqn:E1;
        [| injection H as <-; exact (chk_settings_raise _ _ _ _ E1)].
      destruct (DjangoValidate.chk_static self f1 fs) as [f2 | e2] eqn:E2;
        [| injection H as <-; exact (chk_static_raise _ _ _ _ E2)].
      destruct (DjangoValidate.chk_urls self f2 fs) as [f3 | e3] eqn:E3;
        [discriminate H | injection H as <-; exact (chk_urls_raise _ _ _ _ E3)].
    - destruct (FlaskValidate.chk_app self no_findings fs) as [f1 | e1] eqn:E1;
        [discriminate H | injection H as <-; exact (chk_app_raise _ _ _ _ E1)]. }
  split; [exact Hr |].
  intros Hs; destruct (validate_setup self fs) as [r | e] eqn:E; [exists r; reflexivity |].
  destruct (Hr e eq_refl) as [q [x [_ [Hq Hx]]]].
  rewrite (Hs q x Hq) in Hx; discriminate Hx.
Qed.

Lemma validate_raises_only_stat_witness :
  exists r, validate_setup django_at
              (tree [("settings.py"%string, "STATIC_URL"%string)] ["templates"%string]) = Ok r.
Proof.
  apply (proj2 (validate_raises_only_stat django_at
           (tree [("settings.py"%string, "STATIC_URL"%string)] ["templates"%string]))).
  intros q x H; cbn [fs_stat tree] in H.
  destruct (existsb _ _); [discriminate H |].
  destruct (existsb _ _); [discriminate H |].
  injection H as <-; reflexivity.
Defined.

(** ** detect() and validate_setup() on the same tree *)

Lemma django_settings_block self st fs st' :
  Django.blk_settings self st fs = Ok st' ->
  (st' = st /\ stat_exists fs (join (project_path self) "settings.py") ||
               stat_is_dir fs (join (project_path self) "settings") = false) \/
  (ind st' = ind st ++ ["settings.py or settings/"%string] /\
   stat_exists fs (join (project_path self) "settings.py") ||
   stat_is_dir fs (join (project_path self) "settings") = true).
Proof.
  unfold Django.blk_settings, stat_exists, stat_is_dir; py_unfold; fs_cases; simpl;
    intros H; try discriminate H; try (exfalso; congruence); injection H as <-;
    first [left; split; reflexivity | right; split; [rewrite ind_escalate |]; reflexivity].
Qed.

(** [X8] On the same tree, Django's [validate_setup()] is valid exactly when
    [detect()] reports the ["settings.py or settings/"] indicator: both run
    the same settings check. *)
Theorem django_detect_validate_settings (self : Integration) (fs : FS)
  (rd : BackendDetectionResult) (rv : ValidationResult) :
  Django.detect self fs = Ok rd -> DjangoValidate.validate_setup self fs = Ok rv ->
  (isValid rv = true <-> In "settings.py or settings/"%string (indicators rd)).
Proof.
  intros Hd Hv.
  destruct (django_validate_fields self fs rv Hv) as [Herr [_ [_ Hval]]].
  unfold Django.detect, bind, ret in Hd.
  destruct (run_blocks (Django.blocks self) init_state fs) as [st |] eqn:E;
    [| discriminate Hd]; injection Hd as <-; simpl.
  destruct (django_appends self) as [Hm Ha].
  inversion Ha as [| ? ? ? ? _ Ha3]; subst.
  unfold Django.blocks in E.
  apply run_blocks_cons in E as [s1 [E1 E]].
  apply run_blocks_cons in E as [s2 [E2 E]].
  destruct (run_appends _ _ Ha3 s2 fs st E) as [sel [Hs [Hi _]]].
  assert (Hsel : ~ In "settings.py or settings/"%string sel).
  { intros Hin; apply (subseq_incl _ _ Hs) in Hin; simpl in Hin;
      intuition discriminate. }
  assert (Hs1 : ~ In "settings.py or settings/"%string (ind s1)).
  { destruct (Hm init_state fs s1 E1) as [-> | [Ei _]]; [simpl; tauto |].
    rewrite Ei; simpl; intuition discriminate. }
  rewrite Hval, Herr, Hi.
  destruct (django_settings_block self s1 fs s2 E2) as [[-> Hb] | [Ei Hb]];
    rewrite Hb; simpl.
  - split; [discriminate |]; intros Hin; apply in_app_or in Hin as [Hin | Hin]; contradiction.
  - split; [intros _; rewrite Ei; apply in_or_app; left; apply in_or_app; right; left;
            reflexivity | reflexivity].
Qed.

Lemma django_detect_validate_settings_witness :
  isValid {| isValid := true; errors := []; warnings := [];
             suggestions := ["Consider setting STATIC_ROOT for production"%string] |} = true.
Proof.
  apply (proj2 (django_detect_validate_settings django_at
           (tree [("settings.py"%string, "STATIC_URL"%string);
                  ("urls.py"%string, ""%string)] [])
           {| detected := true; confidence := LOW;
              indicators := ["settings.py or settings/"; "urls.py"]%string; version := None |}
           {| isValid := true; errors := []; warnings := [];
              suggestions := ["Consider setting STATIC_ROOT for production"%string] |}
           ltac:(vm_compute; reflexivity) ltac:(vm_compute; reflexivity))).
  left; reflexivity.
Defined.

Lemma flask_app_block self st fs st' :
  Flask.blk_app self st fs = Ok st' ->
  (st' = st /\ stat_exists fs (join (project_path self) "app.py") ||
               stat_exists fs (join (project_path self) "application.py") = false) \/
  (ind st' = ind st ++ ["app.py or application.py"%string] /\ conf st' = MEDIUM /\
   stat_exists fs (join (project_path self) "app.py") ||
   stat_exists fs (join (project_path self) "application.py") = true).
Proof.
  unfold Flask.blk_app, stat_exists; py_unfold; fs_cases; simpl;
    intros H; try discriminate H; try (exfalso; congruence); injection H as <-;
    first [left; split; reflexivity | right; repeat split].
Qed.

(** [X9] On the same tree, Flask's [validate_setup()] warns exactly when
    [detect()] reports LOW confidence: both test for [app.py] or
    [application.py], and only that marker lifts the confidence. *)
Theorem flask_detect_validate_agree (self : Integration) (fs : FS)
  (rd : BackendDetectionResult) (rv : ValidationResult) :
  Flask.detect self fs = Ok rd -> FlaskValidate.validate_setup self fs = Ok rv ->
  (warnings rv = [] <-> confidence rd <> LOW).
Proof.
  intros Hd Hv.
  assert (Hw : warnings rv =
    if stat_exists fs (join (project_path self) "app.py") ||
       stat_exists fs (join (project_path self) "application.py")
    then [] else ["app.py or application.py not found"%string]).
  { unfold FlaskValidate.validate_setup, bind, ret in Hv.
    destruct (FlaskValidate.chk_app self no_findings fs) as [f1 |] eqn:E1;
      [| discriminate Hv]; injection Hv as <-.
    apply chk_app_ok in E1; subst f1; destruct (_ || _); reflexivity. }
  unfold Flask.detect, bind, ret in Hd.
  destruct (run_blocks (Flask.blocks self) init_state fs) as [st |] eqn:E;
    [| discriminate Hd]; injection Hd as <-; simpl.
  destruct (flask_appends self) as [_ Ha].
  unfold Flask.blocks in E.
  apply run_blocks_cons in E as [s1 [E1 E]].
  destruct (run_appends _ _ Ha s1 fs st E) as [sel [Hs [Hi Hc]]].
  assert (Hp : ~ In "app.py or application.py"%string
                 ["requirements.txt: Flask"; "Flask structure (templates/ or static/)"]%string)
    by (simpl; intuition discriminate).
  rewrite Hw.
  destruct (flask_app_block self init_state fs s1 E1) as [[-> Hb] | [Ei [Ec Hb]]];
    rewrite Hb.
  - assert (Hl : conf st = LOW).
    { rewrite (Hc _ Hp eq_refl), Hi; simpl.
      destruct sel as [| x sel]; [reflexivity |]; simpl.
      assert (Hx : In x ["requirements.txt: Flask";
                         "Flask structure (templates/ or static/)"]%string)
        by (apply (subseq_incl _ _ Hs); left; reflexivity).
      destruct (String.eqb x "app.py or application.py"%string) eqn:Ex; [| reflexivity].
      apply String.eqb_eq in Ex; subst x; contradiction. }
    rewrite Hl; split; [discriminate | intros Hn; exfalso; apply Hn; reflexivity].
  - assert (Hl : conf st <> LOW).
    { rewrite (Hc _ Hp ltac:(rewrite Ec, Ei; reflexivity)), Hi, Ei; simpl.
      destruct sel; discriminate. }
    split; [intros _; exact Hl | reflexivity].
Qed.

Lemma flask_detect_validate_agree_witness :
  confidence {| detected := true; confidence := LOW;
                indicators := ["Flask structure (templates/ or static/)"%string];
                version := None |} = LOW.
Proof.
  destruct (flask_detect_validate_agree flask_at (tree [] ["static"%string])
           {| detected := true; confidence := LOW;
              indicators := ["Flask structure (templates/ or static/)"%string];
              version := None |}
           {| isValid := true; errors := [];
              warnings := ["app.py or application.py not found"%string];
              suggestions := [] |}
           ltac:(vm_compute; reflexivity) ltac:(vm_compute; reflexivity)) as [_ _].
  reflexivity.
Defined.

(** ** The HTTP client *)



Lemma strip_leading_spec ch s :
  exists k, s = repeat ch k ++ Client.strip_leading ch s /\
    match Client.strip_leading ch s with c :: _ => Ascii.eqb c ch = false | [] => True end.
Proof.
  induction s as [| c s IH]; simpl.
  - exists 0; split; [reflexivity | exact I].
  - destruct (Ascii.eqb c ch) eqn:E.
    + destruct IH as [k [Hk Hh]]; exists (S k); split; [| exact Hh].
      apply Ascii.eqb_eq in E; subst c; simpl; rewrite <- Hk; reflexivity.
    + exists 0; split; [reflexivity | exact E].
Qed.

Lemma rev_repeat_same {A} (x : A) k : rev (repeat x k) = repeat x k.
Proof.
  induction k as [| k IH]; simpl; [reflexivity |]; rewrite IH; clear IH.
  induction k as [| k IH]; simpl; [reflexivity | rewrite IH; reflexivity].
Qed.

Lemma strip_leading_stop ch s :
  match s with c :: _ => Ascii.eqb c ch = false | [] => True end ->
  Client.strip_leading ch s = s.
Proof. destruct s as [| c s]; simpl; [reflexivity | intros E; rewrite E; reflexivity]. Qed.

(** [X11] [HttpClient.__init__] keeps the endpoint without its trailing
    slashes: the given endpoint is the stored one followed by slashes only,
    the stored one does not end in ['/'], and building a client from it
    stores it unchanged. *)
Theorem http_client_endpoint_rstrip (api_endpoint : string) (timeout : N) :
  let e := Client.api_endpoint (Client.make_http_client api_endpoint timeout) in
  (exists k, list_ascii_of_string api_endpoint =
             list_ascii_of_string e ++ repeat "/"%char k) /\
  (forall pre, list_ascii_of_string e <> pre ++ ["/"%char]) /\
  Client.api_endpoint (Client.make_http_client e timeout) = e.
Proof.
  simpl; unfold Client.rstrip.
  destruct (strip_leading_spec "/"%char (rev (list_ascii_of_string api_endpoint)))
    as [k [Hk Hh]].
  set (R := Client.strip_leading "/"%char (rev (list_ascii_of_string api_endpoint))) in *.
  rewrite !list_ascii_of_string_of_list_ascii.
  split; [| split].
  - exists k.
    rewrite <- (rev_involutive (list_ascii_of_string api_endpoint)), Hk.
    rewrite rev_app_distr, rev_repeat_same; reflexivity.
  - intros pre Hp.
    assert (ER : R = "/"%char :: rev pre)
      by (rewrite <- (rev_involutive R), Hp, rev_app_distr; reflexivity).
    rewrite ER in Hh; discriminate Hh.
  - rewrite rev_involutive, (strip_leading_stop _ _ Hh); reflexivity.
Qed.

Lemma http_client_endpoint_rstrip_witness :
  list_ascii_of_string "http://localhost:3000" <>
    (list_ascii_of_string "http://localhost:300" ++ ["/"%char])%list /\
  Client.api_endpoint (Client.make_http_client "http://localhost:3000//" 30) =
    "http://localhost:3000"%string.
Proof.
  split; [| vm_compute; reflexivity].
  exact (proj1 (proj2 (http_client_endpoint_rstrip "http://localhost:3000//" 30))
           (list_ascii_of_string "http://localhost:300")).
Defined.

(** [X12] [UniversalPwaClient.__init__] raises [ConfigException] exactly
    when [Path(project_root).exists()] is false, i.e. [stat] fails with a
    "not found"-type error; any other failure of that [stat] propagates as
    its [OSError]; otherwise the client keeps the config and an
    [HttpClient] built from its endpoint and timeout. *)
Theorem client_init_root_check (cfg : Client.Config) (api_endpoint : string) (timeout : N)
  (fs : FS) :
  (Client.client_init cfg api_endpoint timeout fs = inl Client.ConfigException <->
   absent fs (Client.project_root cfg)) /\
  (forall e, Client.client_init cfg api_endpoint timeout fs = inl (Client.InitRaise e) ->
   exists x, e = OSError x /\ fs_stat fs (Client.project_root cfg) = StErr x /\
             ignore_error x = false) /\
  (forall c, Client.client_init cfg api_endpoint timeout fs = inr c ->
   stat_exists fs (Client.project_root cfg) = true /\ Client.config c = cfg /\
   Client.http_client c = Client.make_http_client api_endpoint timeout).
Proof.
  unfold Client.client_init, path_exists, absent, stat_exists.
  destruct (fs_stat fs (Client.project_root cfg)) as [| | x] eqn:E.
  - split; [split; [discriminate | intros [e [He _]]; discriminate He] |].
    split; [intros e H; discriminate H | intros c H; injection H as <-; auto].
  - split; [split; [discriminate | intros [e [He _]]; discriminate He] |].
    split; [intros e H; discriminate H | intros c H; injection H as <-; auto].
  - destruct (ignore_error x) eqn:Ix.
    + split; [split; [intros _; exists x; auto | reflexivity] |].
      split; intros ? H; discriminate H.
    + split; [split; [discriminate | intros [e [He Ie]]; injection He as <-; congruence] |].
      split; [intros e H; injection H as <-; exists x; auto | intros c H; discriminate H].
Qed.

Lemma client_init_root_check_witness :
  absent (tree [] []) "p".
Proof.
  apply (proj1 (proj1 (client_init_root_check
    {| Client.project_root := "p"; Client.auto_detect_backend := true;
       Client.config_dump := [] |} "http://localhost:3000" 30 (tree [] [])))).
  reflexivity.
Defined.

(** ** The configuration merged by generate() *)

Lemma find_map {A} (f : A -> bool) (g : A -> A) l :
  (forall x, f (g x) = f x) -> find f (map g l) = option_map g (find f l).
Proof.
  intros Hg; induction l as [| x l IH]; simpl; [reflexivity |].
  rewrite Hg; destruct (f x); [reflexivity | exact IH].
Qed.

Lemma find_filter_absent (d u : list (string * Client.json)) k :
  existsb (fun kv' => String.eqb (fst kv') k) d = false ->
  find (fun kv => String.eqb (fst kv) k)
    (filter (fun kv => negb (existsb (fun kv' => String.eqb (fst kv') (fst kv)) d)) u) =
  find (fun kv => String.eqb (fst kv) k) u.
Proof.
  intros Hd; induction u as [| kv u IH]; simpl; [reflexivity |].
  destruct (String.eqb (fst kv) k) eqn:E.
  - apply String.eqb_eq in E; rewrite E, Hd; simpl; rewrite ?E, String.eqb_refl; reflexivity.
  - destruct (negb _); simpl; [rewrite E |]; exact IH.
Qed.

Lemma find_app {A} (f : A -> bool) l1 l2 :
  find f (l1 ++ l2) = match find f l1 with Some x => Some x | None => find f l2 end.
Proof.
  induction l1 as [| x l1 IH]; simpl; [reflexivity |].
  destruct (f x); [reflexivity | exact IH].
Qed.

Lemma find_none_existsb {A} (f : A -> bool) l : find f l = None -> existsb f l = false.
Proof.
  induction l as [| x l IH]; simpl; [reflexivity |].
  destruct (f x); [discriminate | exact IH].
Qed.

(** [d.update(u)] read back: [u]'s value when [u] has the key, [d]'s
    otherwise. *)
Lemma dict_update_get d u k :
  Client.dict_get (Client.dict_update d u) k =
  match Client.dict_get u k with Some v => Some v | None => Client.dict_get d k end.
Proof.
  unfold Client.dict_get, Client.dict_update; rewrite find_app.
  rewrite find_map.
  2: { intros kv; destruct (find _ u) as [kv' |] eqn:F; [| reflexivity].
       apply find_some in F as [_ F]; apply String.eqb_eq in F; rewrite F; reflexivity. }
  destruct (find (fun kv => String.eqb (fst kv) k) d) as [kv |] eqn:Fd; simpl.
  - apply find_some in Fd as [_ Fk]; apply String.eqb_eq in Fk; subst k.
    destruct (find (fun kv' => String.eqb (fst kv') (fst kv)) u); reflexivity.
  - rewrite find_filter_absent by (apply find_none_existsb, Fd).
    destruct (find _ u); reflexivity.
Qed.

(** [X13] The [config] object [generate()] sends holds, for every key, the
    override's value when the override has that key, and the value of
    [self.config.model_dump()] otherwise; with no override, or an empty one,
    it is the dump. *)
Theorem generate_request_merge (self : Client.UniversalPwaClient)
  (override : option (list (string * Client.json))) (k : string) :
  exists merged,
    Client.generate_request self override =
      Client.JObj [("config"%string, Client.JObj merged)] /\
    Client.dict_get merged k =
      match override with
      | Some o => match Client.dict_get o k with
                  | Some v => Some v
                  | None => Client.dict_get (Client.config_dump (Client.config self)) k
                  end
      | None => Client.dict_get (Client.config_dump (Client.config self)) k
      end.
Proof.
  unfold Client.generate_request.
  destruct override as [[| kv o] |]; eexists; split; try reflexivity.
  apply dict_update_get.
Qed.

(** ** Cache names *)

(** [X14] Every cache name in an integration's service-worker rules is the
    integration's [id] followed by ["-"], the names of one configuration are
    pairwise distinct, and a Django and a Flask configuration share no cache
    name. *)
Theorem sw_cache_names_namespaced (self : Integration) :
  NoDup (map (fun r => cacheName (options r))
           (runtime_caching (generate_service_worker_config self))) /\
  Forall (fun r => exists suffix, cacheName (options r) = (id self ++ "-" ++ suffix)%string)
    (runtime_caching (generate_service_worker_config self)) /\
  (forall other, kind other <> kind self ->
   forall r r', In r (runtime_caching (generate_service_worker_config self)) ->
   In r' (runtime_caching (generate_service_worker_config other)) ->
   cacheName (options r) <> cacheName (options r')).
Proof.
  unfold generate_service_worker_config, id; destruct (kind self) eqn:K; simpl.
  - split; [repeat constructor; simpl; intuition discriminate |].
    split; [repeat apply Forall_cons; try apply Forall_nil; eexists; reflexivity |].
    intros other Ko r r' Hr Hr'; destruct (kind other); [contradiction |]; simpl in Hr'.
    repeat destruct Hr as [<- | Hr]; try contradiction;
      repeat destruct Hr' as [<- | Hr']; try contradiction; discriminate.
  - split; [repeat constructor; simpl; intuition discriminate |].
    split; [repeat apply Forall_cons; try apply Forall_nil; eexists; reflexivity |].
    intros other Ko r r' Hr Hr'; destruct (kind other); [| contradiction]; simpl in Hr'.
    repeat destruct Hr as [<- | Hr]; try contradiction;
      repeat destruct Hr' as [<- | Hr']; try contradiction; discriminate.
Qed.

Lemma sw_cache_names_namespaced_witness :
  cacheName (options (hd admin_rule flask_runtime_caching)) <>
  cacheName (options (hd admin_rule django_runtime_caching)).
Proof.
  apply (proj2 (proj2 (sw_cache_names_namespaced flask_at)) django_at
           ltac:(discriminate)); simpl; left; reflexivity.
Defined.
